(** * Territory Management tools: lifecycle model, TM1 and TM2 contexts

    A shallow embedding of the TypeScript sources

    - [packages/model/src/model.ts]            (class [SfdxFalconModel]),
    - [modules/tm-tools-objects/tm2-context.ts] (class [Tm2Context]),
    - [modules/tm-tools-objects/tm1-context.ts] (class [Tm1Context]),
    - [modules/tm-tools-objects/tm1-analysis.ts] (class [Tm1Analysis]),
    - [modules/tm-tools-objects/tm-file-paths.ts] (class [TmFilePaths]),

    followed by the properties of these classes.  A promise that
    resolves is a [Returned] outcome, a rejected promise or a thrown
    exception is a [Threw] outcome; a method that mutates [this] takes
    the instance and gives the instance back next to its outcome, so
    that what a throwing call leaves behind stays visible. *)

From Stdlib Require Import Ascii String DecimalString DecimalN DecimalPos DecimalFacts.
From stdpp Require Import base option list gmap strings fin_maps.

Local Open Scope string_scope.
Local Open Scope list_scope.
Set Warnings "-register-all".

(** ** JavaScript values shared by all classes *)

(** An [Error] object: its [name], its [message] and, for an
    [SfdxFalconError], the error it wraps.  The debug namespace that
    [SfdxFalconError] also records is left out. *)
Inductive JsError : Type :=
| MkError (name message : string) (cause : option JsError).

Definition errorName (e : JsError) : string :=
  match e with MkError n _ _ => n end.

Definition errorMessage (e : JsError) : string :=
  match e with MkError _ m _ => m end.

Definition errorCause (e : JsError) : option JsError :=
  match e with MkError _ _ c => c end.

(** [new SfdxFalconError(message, name, source, cause?)]. *)
Definition SfdxFalconError (message name : string) (cause : option JsError) : JsError :=
  MkError name message cause.

(** The [TypeError] the runtime raises by itself. *)
Definition TypeError (message : string) : JsError :=
  MkError "TypeError" message None.

(** How a call ends. *)
Inductive Outcome (A : Type) : Type :=
| Returned (a : A)
| Threw (e : JsError).

Arguments Returned {A} a.
Arguments Threw {A} e.

Definition threw {A} (o : Outcome A) : bool :=
  match o with Threw _ => true | Returned _ => false end.

Definition thrownName {A} (o : Outcome A) : option string :=
  match o with Threw e => Some (errorName e) | Returned _ => None end.

(** [s.startsWith(p)] and [s.substring(0, n)], [s.substring(n)]. *)
Definition startsWith (p s : string) : bool := String.prefix p s.

Definition substringTo (n : nat) (s : string) : string := String.substring 0 n s.

Definition substringFrom (n : nat) (s : string) : string :=
  String.substring n (String.length s - n) s.

(** JavaScript truthiness of a string: only [''] is falsy. *)
Definition truthy (s : string) : bool := negb (String.eqb s "").

(** [n.toString()] for a non-negative integer below 2^53, where a
    JavaScript number is exact: the decimal digits, without sign or
    leading zero. *)
Definition toString (n : N) : string :=
  NilEmpty.string_of_uint (N.to_uint n).

(** ** The lifecycle model: [SfdxFalconModel] *)

Module Model.

(** [interface ModelState]. *)
Record ModelState : Type := MkModelState {
  built  : bool;
  loaded : bool;
  failed : bool;
  ready  : bool;
  stale  : bool
}.

(** What a class derived from [SfdxFalconModel] supplies, and the two
    checks of [@sfdx-falcon/validator] the base class calls.  [Opts]
    is the type of the options objects, [Derived] the members the
    derived class adds; [_build] and [_load] may change those members
    and resolve with a boolean or reject. *)
Class ModelImpl (Opts Derived : Type) : Type := {
  emptyObject : Opts;
  throwOnEmptyNullInvalidObject : Opts -> string -> Outcome unit;
  throwOnNullInvalidObject : Opts -> string -> Outcome unit;
  _build : Opts -> Derived -> Derived * Outcome bool;
  _load  : Opts -> Derived -> Derived * Outcome bool
}.

Section Lifecycle.
Context {Opts Derived : Type} `{ModelImpl Opts Derived}.

(** The members of an [SfdxFalconModel] instance. *)
Record SfdxFalconModel : Type := MkModel {
  trapErrors : bool;
  _state     : ModelState;
  _errors    : list JsError;
  _buildOpts : Opts;
  _loadOpts  : Opts;
  derived    : Derived
}.

Definition with_state (s : ModelState) (m : SfdxFalconModel) : SfdxFalconModel :=
  MkModel (trapErrors m) s (_errors m) (_buildOpts m) (_loadOpts m) (derived m).

Definition with_derived (d : Derived) (m : SfdxFalconModel) : SfdxFalconModel :=
  MkModel (trapErrors m) (_state m) (_errors m) (_buildOpts m) (_loadOpts m) d.

Definition with_buildOpts (o : Opts) (m : SfdxFalconModel) : SfdxFalconModel :=
  MkModel (trapErrors m) (_state m) (_errors m) o (_loadOpts m) (derived m).

Definition with_loadOpts (o : Opts) (m : SfdxFalconModel) : SfdxFalconModel :=
  MkModel (trapErrors m) (_state m) (_errors m) (_buildOpts m) o (derived m).

Definition push_error (e : JsError) (m : SfdxFalconModel) : SfdxFalconModel :=
  MkModel (trapErrors m) (_state m) (_errors m ++ [e]) (_buildOpts m) (_loadOpts m) (derived m).

(** [constructor(opts?)], from the [trapErrors] option (false when
    it is not given) and the initial members of the derived class. *)
Definition construct (optTrapErrors : option bool) (d : Derived) : SfdxFalconModel :=
  MkModel (default false optTrapErrors)
          (MkModelState false false false false false)
          [] emptyObject emptyObject d.

(** The five assignments of a [.then] handler after success. *)
Definition builtState  : ModelState := MkModelState true false false true false.
Definition loadedState : ModelState := MkModelState false true false true false.
(** The five assignments of a [.catch] handler. *)
Definition failedState : ModelState := MkModelState false false true false false.

(** The [.then(success => ...)] handler of [build]: a [false]
    result is turned into a thrown [BuildError]. *)
Definition thenBuilt (r : Outcome bool) (m : SfdxFalconModel)
  : SfdxFalconModel * Outcome unit :=
  match r with
  | Returned true  => (with_state builtState m, Returned tt)
  | Returned false =>
      (m, Threw (SfdxFalconError
                   "Build function indicated failure but did not provide specifics."
                   "BuildError" None))
  | Threw e => (m, Threw e)
  end.

Definition thenLoaded (r : Outcome bool) (m : SfdxFalconModel)
  : SfdxFalconModel * Outcome unit :=
  match r with
  | Returned true  => (with_state loadedState m, Returned tt)
  | Returned false =>
      (m, Threw (SfdxFalconError
                   "Loading function indicated failure but did not provide specifics."
                   "LoadingError" None))
  | Threw e => (m, Threw e)
  end.

(** The [.catch(error => ...)] handler shared by [build], [load]
    and the build branch of [refresh]: mark the model failed, wrap
    and keep the error, rethrow it unless errors are trapped. *)
Definition catchFailure (prefix name : string) (r : Outcome unit) (m : SfdxFalconModel)
  : SfdxFalconModel * Outcome unit :=
  match r with
  | Returned tt => (m, Returned tt)
  | Threw e =>
      let caughtError :=
        SfdxFalconError (prefix +:+ errorMessage e) name (Some e) in
      let m' := push_error caughtError (with_state failedState m) in
      if trapErrors m' then (m', Returned tt) else (m', Threw caughtError)
  end.

(** The optional [opts] argument of [build] and [load]. *)
Definition checkOptions (opts : option Opts) (argName : string) : Outcome Opts :=
  match opts with
  | Some o =>
      match throwOnEmptyNullInvalidObject o argName with
      | Returned _ => Returned o
      | Threw e => Threw e
      end
  | None => Returned emptyObject
  end.

(** [_build(opts).then(...).catch(...)] followed by
    [return this._state]. *)
Definition runBuild (o : Opts) (m : SfdxFalconModel)
  : SfdxFalconModel * Outcome ModelState :=
  let '(d, r) := _build o (derived m) in
  let '(m1, r1) := thenBuilt r (with_derived d m) in
  let '(m2, r2) := catchFailure "Build failed. " "BuildError" r1 m1 in
  match r2 with
  | Returned _ => (m2, Returned (_state m2))
  | Threw e => (m2, Threw e)
  end.

Definition runLoad (o : Opts) (m : SfdxFalconModel)
  : SfdxFalconModel * Outcome ModelState :=
  let '(d, r) := _load o (derived m) in
  let '(m1, r1) := thenLoaded r (with_derived d m) in
  let '(m2, r2) := catchFailure "Loading failed. " "LoadingError" r1 m1 in
  match r2 with
  | Returned _ => (m2, Returned (_state m2))
  | Threw e => (m2, Threw e)
  end.

(** [public async build(opts?)]. *)
Definition build (opts : option Opts) (m : SfdxFalconModel)
  : SfdxFalconModel * Outcome ModelState :=
  if ready (_state m) then
    (m, Threw (SfdxFalconError
                 ("This model has already been built/loaded. Use this "
                  +:+ "object's refresh() method if rebuilding is required.")
                 "BuildError" None))
  else
    match checkOptions opts "BuildOptions" with
    | Threw e => (m, Threw e)
    | Returned o => runBuild o (with_buildOpts o m)
    end.

(** [public async load(opts?)]. *)
Definition load (opts : option Opts) (m : SfdxFalconModel)
  : SfdxFalconModel * Outcome ModelState :=
  if ready (_state m) then
    (m, Threw (SfdxFalconError
                 ("This model has already been built/loaded. Use this "
                  +:+ "object's refresh() method if reloading is required.")
                 "LoadingError" None))
  else
    match checkOptions opts "LoadingOptions" with
    | Threw e => (m, Threw e)
    | Returned o => runLoad o (with_loadOpts o m)
    end.

(** The statement every path of [refresh] other than the build
    branch ends in. *)
Definition refreshFallThrough : JsError :=
  SfdxFalconError "ERROR_MESSAGE" "ERROR_NAME" None.

(** [public async refresh()].  The build branch returns from
    inside its [if]; the load branch awaits
    [_load(this._loadOpts).then().catch()], two handlers without a
    callback that hand both the value and a rejection on, and then
    runs into the unconditional [throw].  The statements the
    source has after that [throw] are never executed. *)
Definition refresh (m : SfdxFalconModel)
  : SfdxFalconModel * Outcome ModelState :=
  if negb (ready (_state m)) then
    (m, Threw (SfdxFalconError
                 ("This model has not been built/loaded. The refresh() method "
                  +:+ "can only be called after a successful call to build() or load().")
                 "RefreshError" None))
  else if built (_state m) then
    match throwOnNullInvalidObject (_buildOpts m) "cached Build Options (this._buildOpts)" with
    | Threw e => (m, Threw e)
    | Returned _ => runBuild (_buildOpts m) m
    end
  else if loaded (_state m) then
    match throwOnNullInvalidObject (_loadOpts m) "cached Loading Options (this._loadOpts)" with
    | Threw e => (m, Threw e)
    | Returned _ =>
        let '(d, r) := _load (_loadOpts m) (derived m) in
        match r with
        | Threw e => (with_derived d m, Threw e)
        | Returned _ => (with_derived d m, Threw refreshFallThrough)
        end
    end
  else (m, Threw refreshFallThrough).


End Lifecycle.

Arguments SfdxFalconModel : clear implicits.

End Model.

(** ** The file paths of the commands: [TmFilePaths] *)

Module TmFilePaths.

(** Node's [path.join] and [path.resolve]. *)
Class PathLib : Type := {
  join    : list string -> string;
  resolve : string -> string
}.

(** The constants of the module. *)
Definition tm1AnalysisReportFileName : string := "tm1-analysis.json".
Definition tm1ExtractionReportFileName : string := "tm1-extraction.json".
Definition tm1TransformationReportFileName : string := "tm1-transformation.json".
Definition tm1CleanupReportFileName : string := "tm1-cleanup.json".
Definition tm2DeploymentReportFileName : string := "tm2-deployment.json".
Definition tm2DataLoadReportFileName : string := "tm2-dataload.json".

Definition accountShareCsv : string := "AccountShare.csv".
Definition ataRuleCsv : string := "AccountTerritoryAssignmentRule.csv".
Definition ataRuleItemCsv : string := "AccountTerritoryAssignmentRuleItem.csv".
Definition territoryCsv : string := "Territory.csv".
Definition userTerritoryCsv : string := "UserTerritory.csv".

Definition userTerritory2AssociationCsv : string := "UserTerritory2Association.csv".
Definition objectTerritory2AssociationCsv : string := "ObjectTerritory2Association.csv".
Definition tm1ToTm2DevnameMapCsv : string := "tm1-to-tm2-devname-map.csv".
Definition userTerritory2AssociationIntermediateCsv : string :=
  "UserTerritory2Association.intermediate.csv".
Definition objectTerritory2AssociationIntermediateCsv : string :=
  "ObjectTerritory2Association.intermediate.csv".

Definition tm1ExtractionDir : string := "tm1-extraction".
Definition extractedDataDir : string := "extracted-data".
Definition extractedMetadataDir : string := "extracted-metadata".
Definition extractedMetadataPackageDir : string := "unpackaged".

Definition transformedDataDir : string := "tm1-transformation".
Definition transformedMetadataDir : string := "transformed-metadata".
Definition tm1SharingRulesCleanupDir : string := "tm1-sharing-rules-cleanup".
Definition tm2MainDeploymentDir : string := "tm2-main-deployment".
Definition tm2SharingRulesDeploymentDir : string := "tm2-sharing-rules-deployment".
Definition intermediateFilesDir : string := "intermediate-files".

(** An object of file paths: from member name to path. *)
Abbreviation FilePaths := (gmap string string).

(** The object literal [{...spread, name: value, ...}]: the members
    are set in the order they are written, onto a copy of the object
    that is spread. *)
Definition objectLiteral (spread : FilePaths) (members : list (string * string)) : FilePaths :=
  foldl (fun object member => <[member.1 := member.2]> object) spread members.

(** [private static validateBaseDirectoryArgument()], applied to the
    arguments of its caller. *)
Definition validateBaseDirectoryArgument (argument0 : string) : Outcome unit :=
  if String.eqb argument0 "" then
    Threw (SfdxFalconError
             "Expected baseDirectory to be a non-empty string but got type 'string' instead."
             "TypeError" None)
  else Returned tt.

Section Getters.
Context `{PathLib}.

(** A getter: the check of the argument, then the object literal
    over the object of the getter it extends. *)
Definition extending (spread : Outcome FilePaths) (baseDirectory : string)
    (members : list (string * string)) : Outcome FilePaths :=
  match validateBaseDirectoryArgument baseDirectory with
  | Threw e => Threw e
  | Returned _ =>
      match spread with
      | Threw e => Threw e
      | Returned paths => Returned (objectLiteral paths members)
      end
  end.

Definition getTm1AnalyzeFilePaths (baseDirectory : string) : Outcome FilePaths :=
  extending (Returned ∅) baseDirectory
    [ ("baseDirectory", resolve baseDirectory);
      ("tm1AnalysisReportPath", join [baseDirectory; tm1AnalysisReportFileName]) ].

Definition getTm1ExtractFilePaths (baseDirectory : string) : Outcome FilePaths :=
  extending (getTm1AnalyzeFilePaths baseDirectory) baseDirectory
    [ ("tm1ExtractionReportPath", join [baseDirectory; tm1ExtractionReportFileName]);
      ("tm1ExtractionDir", join [baseDirectory; tm1ExtractionDir]);
      ("extractedDataDir", join [baseDirectory; tm1ExtractionDir; extractedDataDir]);
      ("accountShareCsv",
       join [baseDirectory; tm1ExtractionDir; extractedDataDir; accountShareCsv]);
      ("ataRuleCsv", join [baseDirectory; tm1ExtractionDir; extractedDataDir; ataRuleCsv]);
      ("ataRuleItemCsv",
       join [baseDirectory; tm1ExtractionDir; extractedDataDir; ataRuleItemCsv]);
      ("territoryCsv", join [baseDirectory; tm1ExtractionDir; extractedDataDir; territoryCsv]);
      ("userTerritoryCsv",
       join [baseDirectory; tm1ExtractionDir; extractedDataDir; userTerritoryCsv]);
      ("extractedMetadataDir", join [baseDirectory; tm1ExtractionDir; extractedMetadataDir]);
      ("extractedMetadataPackageDir",
       join [baseDirectory; tm1ExtractionDir; extractedMetadataDir;
             extractedMetadataPackageDir]) ].

Definition getTm1TransformFilePaths (baseDirectory : string) : Outcome FilePaths :=
  extending (getTm1ExtractFilePaths baseDirectory) baseDirectory
    [ ("tm1TransformationReportPath", join [baseDirectory; tm1TransformationReportFileName]);
      ("transformedDataDir", join [baseDirectory; transformedDataDir]);
      ("userTerritory2AssociationCsv",
       join [baseDirectory; transformedDataDir; userTerritory2AssociationCsv]);
      ("objectTerritory2AssociationCsv",
       join [baseDirectory; transformedDataDir; objectTerritory2AssociationCsv]);
      ("transformedMetadataDir", join [baseDirectory; transformedMetadataDir]);
      ("tm1SharingRulesCleanupDir",
       join [baseDirectory; transformedMetadataDir; tm1SharingRulesCleanupDir]);
      ("tm2MainDeploymentDir",
       join [baseDirectory; transformedMetadataDir; tm2MainDeploymentDir]);
      ("tm2SharingRulesDeploymentDir",
       join [baseDirectory; transformedMetadataDir; tm2SharingRulesDeploymentDir]);
      ("intermediateFilesDir", join [baseDirectory; intermediateFilesDir]);
      ("tm1ToTm2DevnameMapCsv",
       join [baseDirectory; intermediateFilesDir; tm1ToTm2DevnameMapCsv]);
      ("userTerritory2AssociationIntermediateCsv",
       join [baseDirectory; intermediateFilesDir; userTerritory2AssociationIntermediateCsv]);
      ("objectTerritory2AssociationIntermediateCsv",
       join [baseDirectory; intermediateFilesDir;
             objectTerritory2AssociationIntermediateCsv]) ].

Definition getTm1CleanupFilePaths (baseDirectory : string) : Outcome FilePaths :=
  extending (getTm1TransformFilePaths baseDirectory) baseDirectory
    [ ("tm1CleanupReportPath", join [baseDirectory; tm1CleanupReportFileName]) ].

Definition getTm2DeployFilePaths (baseDirectory : string) : Outcome FilePaths :=
  extending (getTm1CleanupFilePaths baseDirectory) baseDirectory
    [ ("tm2DeploymentReportPath", join [baseDirectory; tm2DeploymentReportFileName]) ].

Definition getTm2DataLoadFilePaths (baseDirectory : string) : Outcome FilePaths :=
  extending (getTm2DeployFilePaths baseDirectory) baseDirectory
    [ ("tm2DataLoadReportPath", join [baseDirectory; tm2DataLoadReportFileName]) ].

Definition getAllTmToolsFilePaths (baseDirectory : string) : Outcome FilePaths :=
  extending (getTm2DataLoadFilePaths baseDirectory) baseDirectory [].

(** The seven getters, from the smallest object to the largest. *)
Definition getters : list (string -> Outcome FilePaths) :=
  [ getTm1AnalyzeFilePaths; getTm1ExtractFilePaths; getTm1TransformFilePaths;
    getTm1CleanupFilePaths; getTm2DeployFilePaths; getTm2DataLoadFilePaths;
    getAllTmToolsFilePaths ].

End Getters.

End TmFilePaths.


(** Paths as a POSIX system joins them, for a process that runs in
    [/home/user]. *)
Module Posix.

Definition paths : TmFilePaths.PathLib := {|
  TmFilePaths.join parts := String.concat "/" parts;
  TmFilePaths.resolve path := "/home/user/" +:+ path
|}.

End Posix.

(** ** The TM2 context: [Tm2Context] *)

Module Tm2.

(** One row of a CSV file as [csv.parseFile] and [csv.transformFile]
    hand it over: an object from column name to the text of the
    cell.  A key that is absent reads as [undefined]; the keys are
    case sensitive. *)
Abbreviation JsonMap := (gmap string string).

(** [interface Territory2Record], the two columns the context reads. *)
Record Territory2Record : Type := MkTerritory2Record {
  Id            : string;
  DeveloperName : string
}.

(** Modelled from the spec: the [TerritoryDevNameMapping] interface,
    whose declaration in [tm-tools-types] is not part of the
    sources.  One row per source territory with the columns
    sourceId, developerName, parentDeveloperName, destinationId and
    parentDestinationId, under the member names the code uses; a
    cell that is empty in the file holds [''].  *)
Record TerritoryDevNameMapping : Type := MkMapping {
  territoryId             : string;
  territory2DevName       : string;
  territory2ParentDevName : string;
  territory2Id            : string;
  territory2ParentId      : string
}.

(** [interface TMToolsAllFilePaths]: the object that
    [TmFilePaths.getAllTmToolsFilePaths] returns, and the three
    members of it the context reads.  A member the object does not
    have reads as [undefined], here [None]. *)
Abbreviation TMToolsAllFilePaths := (gmap string string).

Definition territory2Csv (paths : TMToolsAllFilePaths) : option string :=
  paths !! "territory2Csv".

Definition tm1ToTm2DevnameMapCsv (paths : TMToolsAllFilePaths) : option string :=
  paths !! "tm1ToTm2DevnameMapCsv".

Definition userTerritory2AssociationIntermediateCsv (paths : TMToolsAllFilePaths)
  : option string :=
  paths !! "userTerritory2AssociationIntermediateCsv".

(** A path inside a template literal. *)
Definition pathText (path : option string) : string := default "undefined" path.

(** A JSON document.  The report of the transformation is one; the
    context keeps it and hands it out without looking into it. *)
Inductive AnyJson : Type :=
| JsonNull
| JsonBoolean (b : bool)
| JsonNumber (n : Z)
| JsonString (s : string)
| JsonArray (items : list AnyJson)
| JsonObject (members : list (string * AnyJson)).

(** The collaborators of the context: the CSV utility module, whose
    readers are given per type of row and are handed the path as
    the context reads it, [undefined] included.  [readRows] is the
    sequence of rows [csv.transformFile] streams from a file. *)
Class Tm2Env : Type := {
  parseMappingsFile   : option string -> Outcome (list TerritoryDevNameMapping);
  parseTerritory2File : option string -> Outcome (list Territory2Record);
  readRows            : option string -> Outcome (list JsonMap)
}.

(** The members of a [Tm2Context].  The two maps over the mapping
    rows hold references to the objects of the
    [_territoryDevNameMappings] array, kept here as positions in
    that array.  The report is the argument of [prepare] as it was
    given, [None] when it was [undefined]. *)
Record Tm2Context : Type := MkTm2Context {
  _objectTerritory2AssociationRecords : list JsonMap;
  _territory2Records                  : list Territory2Record;
  _territory2RecordsByDevName         : gmap string Territory2Record;
  _territory2RecordsById              : gmap string Territory2Record;
  _territoryDevNameMapByT2DevName     : gmap string nat;
  _territoryDevNameMapByT2Id          : gmap string nat;
  _territoryDevNameMappings           : list TerritoryDevNameMapping;
  _tm1TransformationReport            : option AnyJson;
  _tm2FilePaths                       : TMToolsAllFilePaths;
  _userTerritory2AssociationRecords   : list JsonMap;
  _loaded                             : bool;
  _prepared                           : bool;
  _updated                            : bool
}.

Definition with_territory2Records (v : list Territory2Record) (c : Tm2Context) :=
  MkTm2Context (_objectTerritory2AssociationRecords c) v
    (_territory2RecordsByDevName c) (_territory2RecordsById c)
    (_territoryDevNameMapByT2DevName c) (_territoryDevNameMapByT2Id c)
    (_territoryDevNameMappings c) (_tm1TransformationReport c) (_tm2FilePaths c)
    (_userTerritory2AssociationRecords c) (_loaded c) (_prepared c) (_updated c).

Definition with_territory2RecordsByDevName (v : gmap string Territory2Record) (c : Tm2Context) :=
  MkTm2Context (_objectTerritory2AssociationRecords c) (_territory2Records c)
    v (_territory2RecordsById c)
    (_territoryDevNameMapByT2DevName c) (_territoryDevNameMapByT2Id c)
    (_territoryDevNameMappings c) (_tm1TransformationReport c) (_tm2FilePaths c)
    (_userTerritory2AssociationRecords c) (_loaded c) (_prepared c) (_updated c).

Definition with_territory2RecordsById (v : gmap string Territory2Record) (c : Tm2Context) :=
  MkTm2Context (_objectTerritory2AssociationRecords c) (_territory2Records c)
    (_territory2RecordsByDevName c) v
    (_territoryDevNameMapByT2DevName c) (_territoryDevNameMapByT2Id c)
    (_territoryDevNameMappings c) (_tm1TransformationReport c) (_tm2FilePaths c)
    (_userTerritory2AssociationRecords c) (_loaded c) (_prepared c) (_updated c).

Definition with_mapByT2DevName (v : gmap string nat) (c : Tm2Context) :=
  MkTm2Context (_objectTerritory2AssociationRecords c) (_territory2Records c)
    (_territory2RecordsByDevName c) (_territory2RecordsById c)
    v (_territoryDevNameMapByT2Id c)
    (_territoryDevNameMappings c) (_tm1TransformationReport c) (_tm2FilePaths c)
    (_userTerritory2AssociationRecords c) (_loaded c) (_prepared c) (_updated c).

Definition with_mapByT2Id (v : gmap string nat) (c : Tm2Context) :=
  MkTm2Context (_objectTerritory2AssociationRecords c) (_territory2Records c)
    (_territory2RecordsByDevName c) (_territory2RecordsById c)
    (_territoryDevNameMapByT2DevName c) v
    (_territoryDevNameMappings c) (_tm1TransformationReport c) (_tm2FilePaths c)
    (_userTerritory2AssociationRecords c) (_loaded c) (_prepared c) (_updated c).

Definition with_mappings (v : list TerritoryDevNameMapping) (c : Tm2Context) :=
  MkTm2Context (_objectTerritory2AssociationRecords c) (_territory2Records c)
    (_territory2RecordsByDevName c) (_territory2RecordsById c)
    (_territoryDevNameMapByT2DevName c) (_territoryDevNameMapByT2Id c)
    v (_tm1TransformationReport c) (_tm2FilePaths c)
    (_userTerritory2AssociationRecords c) (_loaded c) (_prepared c) (_updated c).

Definition with_userRecords (v : list JsonMap) (c : Tm2Context) :=
  MkTm2Context (_objectTerritory2AssociationRecords c) (_territory2Records c)
    (_territory2RecordsByDevName c) (_territory2RecordsById c)
    (_territoryDevNameMapByT2DevName c) (_territoryDevNameMapByT2Id c)
    (_territoryDevNameMappings c) (_tm1TransformationReport c) (_tm2FilePaths c)
    v (_loaded c) (_prepared c) (_updated c).

Definition with_prepared (v : bool) (c : Tm2Context) :=
  MkTm2Context (_objectTerritory2AssociationRecords c) (_territory2Records c)
    (_territory2RecordsByDevName c) (_territory2RecordsById c)
    (_territoryDevNameMapByT2DevName c) (_territoryDevNameMapByT2Id c)
    (_territoryDevNameMappings c) (_tm1TransformationReport c) (_tm2FilePaths c)
    (_userTerritory2AssociationRecords c) (_loaded c) v (_updated c).

Definition with_updated (v : bool) (c : Tm2Context) :=
  MkTm2Context (_objectTerritory2AssociationRecords c) (_territory2Records c)
    (_territory2RecordsByDevName c) (_territory2RecordsById c)
    (_territoryDevNameMapByT2DevName c) (_territoryDevNameMapByT2Id c)
    (_territoryDevNameMappings c) (_tm1TransformationReport c) (_tm2FilePaths c)
    (_userTerritory2AssociationRecords c) (_loaded c) (_prepared c) v.

Definition with_territory2Id (v : string) (r : TerritoryDevNameMapping) :=
  MkMapping (territoryId r) (territory2DevName r) (territory2ParentDevName r)
            v (territory2ParentId r).

Definition with_territory2ParentId (v : string) (r : TerritoryDevNameMapping) :=
  MkMapping (territoryId r) (territory2DevName r) (territory2ParentDevName r)
            (territory2Id r) v.

(** [const territory2RecordIdPrefix = '0MI']. *)
Definition territory2RecordIdPrefix : string := "0MI".

(** [private constructor(tm1TransformationReport, tm2FilePaths)]. *)
Definition construct (tm1TransformationReport : option AnyJson)
    (tm2FilePaths : TMToolsAllFilePaths) : Tm2Context :=
  MkTm2Context [] [] ∅ ∅ ∅ ∅ [] tm1TransformationReport tm2FilePaths [] false false false.

(** [private buildT2RecordsByDevNameMap()]: one [set] per record, in
    the order of the array, into the map that is already there. *)
Definition buildT2RecordsByDevNameMap (c : Tm2Context) : Tm2Context :=
  with_territory2RecordsByDevName
    (foldl (fun m r => <[DeveloperName r := r]> m)
           (_territory2RecordsByDevName c) (_territory2Records c)) c.

(** [private buildT2RecordsByIdMap()]. *)
Definition buildT2RecordsByIdMap (c : Tm2Context) : Tm2Context :=
  with_territory2RecordsById
    (foldl (fun m r => <[Id r := r]> m)
           (_territory2RecordsById c) (_territory2Records c)) c.

(** [private buildTerritoryDevNameMapByT2DevName()]. *)
Definition buildTerritoryDevNameMapByT2DevName (c : Tm2Context) : Tm2Context :=
  with_mapByT2DevName
    (foldl (fun m ir => <[territory2DevName ir.2 := ir.1]> m)
           (_territoryDevNameMapByT2DevName c)
           (imap pair (_territoryDevNameMappings c))) c.

(** [private buildTerritoryDevNameMapByT2Id()]: only rows whose
    [territory2Id] starts with the record-id prefix are entered. *)
Definition buildTerritoryDevNameMapByT2Id (c : Tm2Context) : Tm2Context :=
  with_mapByT2Id
    (foldl (fun m ir =>
              if startsWith territory2RecordIdPrefix (territory2Id ir.2)
              then <[territory2Id ir.2 := ir.1]> m else m)
           (_territoryDevNameMapByT2Id c)
           (imap pair (_territoryDevNameMappings c))) c.

(** [private async buildRecordMaps()]. *)
Definition buildRecordMaps (c : Tm2Context) : Tm2Context :=
  buildT2RecordsByIdMap
    (buildT2RecordsByDevNameMap
       (buildTerritoryDevNameMapByT2Id
          (buildTerritoryDevNameMapByT2DevName c))).

(** [private isPrepared()] and [private isUpdated()]. *)
Definition isPrepared (c : Tm2Context) : Outcome bool :=
  if negb (_prepared c) then
    Threw (SfdxFalconError
             "Operations against Tm2Context objects are not available until the instance is prepared"
             "ObjectNotPrepared" None)
  else Returned (_prepared c).

Definition isUpdated (c : Tm2Context) : Outcome bool :=
  if negb (_updated c) then
    Threw (SfdxFalconError
             ("The requested operation requires a Tm2Context with updated Territory "
              +:+ "DevName mapping data but this update has not yet happened.")
             "ObjectNotUpdated" None)
  else Returned (_updated c).

(** [private lookupTerritory2Id(territory2DevName)]. *)
Definition lookupTerritory2Id (c : Tm2Context) (territory2DevName : string)
  : Outcome string :=
  if String.eqb territory2DevName "" then
    Threw (SfdxFalconError
             "Expected territory2DevName to be a non-empty, non-null string."
             "TypeError" None)
  else
    match _territory2RecordsByDevName c !! territory2DevName with
    | None =>
        Threw (SfdxFalconError
                 ("The Developer Name '" +:+ territory2DevName
                  +:+ "' is not associated with any Territory2 records.")
                 "DeveloperNameNotFound" None)
    | Some territory2Record => Returned (Id territory2Record)
    end.

(** [private getConvertedT2Id(pendingT2Id)]. *)
Definition getConvertedT2Id (c : Tm2Context) (pendingT2Id : string) : Outcome string :=
  if negb (startsWith "T2ID_PENDING_" pendingT2Id) then Returned ""
  else lookupTerritory2Id c (substringFrom 13 pendingT2Id).

(** [private transformPendingT2Id(data)].  The field that is read
    and checked for being a string is [Territory2Id]; the field
    that is checked against [''] and the field that is assigned
    are both [territory2Id].  A cell of a parsed CSV row is never
    [null]. *)
Definition transformPendingT2Id (c : Tm2Context) (data : JsonMap) : Outcome JsonMap :=
  match isUpdated c with
  | Threw e => Threw e
  | Returned _ =>
      let invalid :=
        SfdxFalconError
          "Transformable data must have a Territory2Id field that is a non-null, non-empty string. "
          "TypeError" None in
      match data !! "Territory2Id" with
      | None => Threw invalid
      | Some pendingT2Id =>
          if bool_decide (data !! "territory2Id" = Some "") then Threw invalid
          else
            match getConvertedT2Id c pendingT2Id with
            | Threw e => Threw e
            | Returned t2Id =>
                if truthy t2Id
                then Returned (<["territory2Id" := t2Id]> data)
                else Returned data
            end
      end
  end.

(** The function [this.transformPendingT2Id] once it has been taken
    off the context, as [buildUserT2AssociationRecords] hands it to
    the CSV module: a method that is not bound has lost its [this],
    so that its first statement, [this.isUpdated()], throws the
    [TypeError] of the runtime before the row is looked at.  The
    text of the message depends on what the caller leaves in
    [this]. *)
Definition detachedTransformPendingT2Id (data : JsonMap) : Outcome JsonMap :=
  Threw (TypeError "this.isUpdated is not a function").

(** Modelled from the spec: [csv.transformFile(path, {onRowData})]
    of the CSV utility module, which is not part of the sources.
    It streams the file row by row and collects what [onRowData]
    makes of each row; the first row on which the handler throws
    fails the whole transformation. *)
Fixpoint transformRows (onRowData : JsonMap -> Outcome JsonMap) (rows : list JsonMap)
  : Outcome (list JsonMap) :=
  match rows with
  | [] => Returned []
  | row :: rest =>
      match onRowData row with
      | Threw e => Threw e
      | Returned row' =>
          match transformRows onRowData rest with
          | Threw e => Threw e
          | Returned rest' => Returned (row' :: rest')
          end
      end
  end.

(** The loop of [updateRecordMaps] over the mapping rows.  Each row
    object is assigned in place, so that the rows before the one on
    which a lookup throws keep what was assigned to them, and the
    throwing row keeps its [territory2Id] when it is the lookup of
    the parent that throws. *)
Fixpoint updateMappings (c : Tm2Context) (rows : list TerritoryDevNameMapping)
  : list TerritoryDevNameMapping * Outcome unit :=
  match rows with
  | [] => ([], Returned tt)
  | row :: rest =>
      match lookupTerritory2Id c (territory2DevName row) with
      | Threw e => (row :: rest, Threw e)
      | Returned t2Id =>
          let row1 := with_territory2Id t2Id row in
          if truthy (territory2ParentDevName row1) then
            match lookupTerritory2Id c (territory2ParentDevName row1) with
            | Threw e => (row1 :: rest, Threw e)
            | Returned parentId =>
                let '(rest', r) := updateMappings c rest in
                (with_territory2ParentId parentId row1 :: rest', r)
            end
          else
            let '(rest', r) := updateMappings c rest in
            (row1 :: rest', r)
      end
  end.

Section Operations.
Context `{Tm2Env} `{TmFilePaths.PathLib}.

(** [private async parseCsvFiles()]: the mapping file must parse,
    a Territory2 file that does not parse counts as empty. *)
Definition parseCsvFiles (c : Tm2Context) : Tm2Context * Outcome unit :=
  match parseMappingsFile (tm1ToTm2DevnameMapCsv (_tm2FilePaths c)) with
  | Threw e => (c, Threw e)
  | Returned mappings =>
      let c1 := with_mappings mappings c in
      match parseTerritory2File (territory2Csv (_tm2FilePaths c1)) with
      | Threw _ => (with_territory2Records [] c1, Returned tt)
      | Returned records => (with_territory2Records records c1, Returned tt)
      end
  end.

(** The statements of [prepare] after the file paths have been
    made: the constructor, the two parsers, the record maps and the
    flag. *)
Definition prepareFrom (tm1TransformationReport : option AnyJson)
    (tm2FilePaths : TMToolsAllFilePaths) : Outcome Tm2Context :=
  let tm2Context := construct tm1TransformationReport tm2FilePaths in
  match parseCsvFiles tm2Context with
  | (_, Threw e) => Threw e
  | (c1, Returned _) => Returned (with_prepared true (buildRecordMaps c1))
  end.

(** [public static async prepare(tm1TransformationReport, baseDirectory)]. *)
Definition prepare (tm1TransformationReport : option AnyJson) (baseDirectory : string)
  : Outcome Tm2Context :=
  match TmFilePaths.getAllTmToolsFilePaths baseDirectory with
  | Threw e => Threw e
  | Returned tm2FilePaths => prepareFrom tm1TransformationReport tm2FilePaths
  end.

(** [public async updateRecordMaps()]. *)
Definition updateRecordMaps (c : Tm2Context) : Tm2Context * Outcome unit :=
  match parseTerritory2File (territory2Csv (_tm2FilePaths c)) with
  | Threw csvParseError =>
      (c, Threw (SfdxFalconError
                   ("Unable to parse " +:+ pathText (territory2Csv (_tm2FilePaths c))
                    +:+ ": " +:+ errorMessage csvParseError)
                   "CsvParsingError" (Some csvParseError)))
  | Returned records =>
      let c1 := with_territory2Records records c in
      if Nat.eqb (length (_territory2Records c1)) 0 then
        (c1, Threw (SfdxFalconError
                      ("The call to updateRecordMaps() has failed. The file '"
                       +:+ pathText (territory2Csv (_tm2FilePaths c1))
                       +:+ "' contains no records.")
                      "CsvFileEmpty" None))
      else
        let c2 := buildT2RecordsByIdMap (buildT2RecordsByDevNameMap c1) in
        match updateMappings c2 (_territoryDevNameMappings c2) with
        | (rows, Threw e) => (with_mappings rows c2, Threw e)
        | (rows, Returned _) =>
            (with_updated true (buildTerritoryDevNameMapByT2Id (with_mappings rows c2)),
             Returned tt)
        end
  end.

(** [public async buildUserT2AssociationRecords()].  The row
    handler is [this.transformPendingT2Id] as a function value, not
    bound to the context. *)
Definition buildUserT2AssociationRecords (c : Tm2Context) : Tm2Context * Outcome unit :=
  if negb (Nat.eqb (length (_userTerritory2AssociationRecords c)) 0) then
    (c, Threw (SfdxFalconError
                 ("buildUserT2AssociationRecords() can not be called if this context "
                  +:+ "already has UserTerritory2Association records in-memory. "
                  +:+ "Currently, this context has "
                  +:+ toString (N.of_nat (length (_userTerritory2AssociationRecords c)))
                  +:+ " UserTerritory2Association records in memory.")
                 "RecordBuildError" None))
  else
    match readRows (userTerritory2AssociationIntermediateCsv (_tm2FilePaths c)) with
    | Threw e => (c, Threw e)
    | Returned rows =>
        match transformRows detachedTransformPendingT2Id rows with
        | Threw e => (c, Threw e)
        | Returned records => (with_userRecords records c, Returned tt)
        end
    end.

(** [public async buildObjectT2AssociationRecords()]. *)
Definition buildObjectT2AssociationRecords (c : Tm2Context) : Tm2Context * Outcome unit :=
  if negb (Nat.eqb (length (_objectTerritory2AssociationRecords c)) 0) then
    (c, Threw (SfdxFalconError
                 ("buildObjectT2AssociationRecords() can not be called if this context "
                  +:+ "already has ObjectTerritory2Association records in-memory. "
                  +:+ "Currently, this context has "
                  +:+ toString (N.of_nat (length (_objectTerritory2AssociationRecords c)))
                  +:+ " ObjectTerritory2Association records in memory.")
                 "RecordBuildError" None))
  else (c, Returned tt).

End Operations.

End Tm2.

(** ** The TM1 context: [Tm1Context] *)

Module Tm1.

Abbreviation JsonMap := (gmap string string).

(** *** What [xml-js] hands over

    The result of [convert.xml2js] in compact mode: an element is
    an object whose members are its child elements by name, each
    either one element or, when the name repeats, an array of
    elements; the character data of an element is the member
    [_text].  Attributes are ignored by the options of the call. *)
Inductive Json : Type :=
| JText (text : string)
| JObject (members : list (string * Json))
| JArray (items : list Json).

(** [Object.keys(j)]: the names of the members, the indices of an
    array. *)
Definition keys (j : Json) : list string :=
  match j with
  | JText _ => []
  | JObject members => members.*1
  | JArray items => imap (fun i _ => toString (N.of_nat i)) items
  end.

(** [j[key]] for a value that is not [undefined]; [None] is
    [undefined]. *)
Definition prop (j : Json) (key : string) : option Json :=
  match j with
  | JText _ => None
  | JObject members =>
      (fun found => found.2.2) <$> list_find (fun kv => kv.1 = key) members
  | JArray items =>
      (fun found => found.2.2)
        <$> list_find (fun kv => kv.1 = key)
                      (imap (fun i x => (toString (N.of_nat i), x)) items)
  end.

(** [typeof j === 'object']. *)
Definition isObject (j : option Json) : bool :=
  match j with
  | Some (JObject _) | Some (JArray _) => true
  | _ => false
  end.

(** [typeof j] for the values of this model. *)
Definition typeofText (j : option Json) : string :=
  match j with
  | None => "undefined"
  | Some (JText _) => "string"
  | Some _ => "object"
  end.

(** Truthiness: [undefined] and the empty text are falsy, objects
    and arrays are truthy. *)
Definition truthyJson (j : option Json) : bool :=
  match j with
  | None => false
  | Some (JText s) => truthy s
  | Some _ => true
  end.

(** [Array.isArray(j)]. *)
Definition isArray (j : option Json) : bool :=
  match j with Some (JArray _) => true | _ => false end.

(** [for (const x of j)]: an array gives its items, a text its
    characters, and an object that is not an array is not
    iterable. *)
Definition iterate (j : Json) : Outcome (list (option Json)) :=
  match j with
  | JArray items => Returned (Some <$> items)
  | JText s => Returned ((fun c => Some (JText (String c ""))) <$> String.list_ascii_of_string s)
  | JObject _ => Threw (TypeError "object is not iterable")
  end.

(** [x[key]] where [x] may be [undefined], in which case the read
    throws. *)
Definition propOf (x : option Json) (key : string) : Outcome (option Json) :=
  match x with
  | None => Threw (TypeError ("Cannot read property '" +:+ key +:+ "' of undefined"))
  | Some j => Returned (prop j key)
  end.

(** [x[key] ? x[key]['_text'] : undefined]. *)
Definition textOf (x : Json) (key : string) : option Json :=
  if truthyJson (prop x key) then prop x key ≫= fun e => prop e "_text" else None.

(** [(x[outer] && x[outer][inner]) ? x[outer][inner]['_text'] : undefined]. *)
Definition textOf2 (x : Json) (outer inner : string) : option Json :=
  if truthyJson (prop x outer) && truthyJson (prop x outer ≫= fun o => prop o inner)
  then prop x outer ≫= fun o => prop o inner ≫= fun e => prop e "_text"
  else None.

(** *** Sharing rules *)

Record SharingGroup : Type := MkSharingGroup {
  groupType    : option string;
  groupMembers : option Json
}.

Record FilterItem : Type := MkFilterItem {
  field      : option Json;
  operation  : option Json;
  value      : option Json;
  valueField : option Json
}.

Record AccountSettings : Type := MkAccountSettings {
  caseAccessLevel        : option Json;
  contactAccessLevel     : option Json;
  opportunityAccessLevel : option Json
}.

(** One parsed rule.  A criteria-based rule has no [sharedFrom] and
    is the only kind with [criteriaItems]. *)
Record SharingRule : Type := MkSharingRule {
  fullName        : option Json;
  accessLevel     : option Json;
  accountSettings : AccountSettings;
  description     : option Json;
  label           : option Json;
  sharedFrom      : option SharingGroup;
  sharedTo        : option SharingGroup;
  booleanFilter   : option Json;
  criteriaItems   : option (list FilterItem)
}.

Record SharingRules : Type := MkSharingRules {
  sharingCriteriaRules  : list SharingRule;
  sharingOwnerRules     : list SharingRule;
  sharingTerritoryRules : list SharingRule
}.

Definition noSharingRules : SharingRules := MkSharingRules [] [] [].

(** The local function [isTerritoryRelated]. *)
Definition isTerritoryRelated (sharingRuleToTest : option Json) : bool :=
  let side (k : string) :=
    isObject sharingRuleToTest
    && truthyJson (sharingRuleToTest ≫= fun r => prop r k)
    && (truthyJson (sharingRuleToTest ≫= fun r => prop r k ≫= fun g => prop g "territory")
        || truthyJson (sharingRuleToTest ≫= fun r =>
                         prop r k ≫= fun g => prop g "territoryAndSubordinates")) in
  side "sharedTo" || side "sharedFrom".

(** The local functions [extractSharedFromGroup] and
    [extractSharedToGroup], which differ in the member they read. *)
Definition extractSharedGroup (k : string) (sharingRule : option Json)
  : Outcome (option SharingGroup) :=
  if isObject sharingRule && isObject (sharingRule ≫= fun r => prop r k) then
    let group := sharingRule ≫= fun r => prop r k in
    let key0 := head (from_option keys [] group) in
    match key0 with
    | None => Threw (TypeError "Cannot read property '_text' of undefined")
    | Some key =>
        match propOf (group ≫= fun g => prop g key) "_text" with
        | Threw e => Threw e
        | Returned members => Returned (Some (MkSharingGroup (Some key) members))
        end
    end
  else Returned None.

Definition extractSharedFromGroup := extractSharedGroup "sharedFrom".
Definition extractSharedToGroup   := extractSharedGroup "sharedTo".

Definition accountSettingsOf (rule : Json) : AccountSettings :=
  MkAccountSettings (textOf2 rule "accountSettings" "caseAccessLevel")
                    (textOf2 rule "accountSettings" "contactAccessLevel")
                    (textOf2 rule "accountSettings" "opportunityAccessLevel").

(** One round of the inner loop over the criteria items. *)
Definition filterItemOf (criteriaItemJson : option Json) : Outcome FilterItem :=
  match criteriaItemJson with
  | None => Threw (TypeError "Cannot read property 'field' of undefined")
  | Some item =>
      Returned (MkFilterItem (textOf item "field") (textOf item "operation")
                             (textOf item "value") (textOf item "valueField"))
  end.

Fixpoint filterItemsOf (items : list (option Json)) : Outcome (list FilterItem) :=
  match items with
  | [] => Returned []
  | item :: rest =>
      match filterItemOf item with
      | Threw e => Threw e
      | Returned f =>
          match filterItemsOf rest with
          | Threw e => Threw e
          | Returned fs => Returned (f :: fs)
          end
      end
  end.

(** The criteria items of a rule, normalised as an array: a value
    that is not an array becomes the one item of a new array. *)
Definition criteriaItemsOf (rule : Json) : Outcome (list FilterItem) :=
  let criteriaItemsJson := prop rule "criteriaItems" in
  match criteriaItemsJson with
  | Some (JArray items) => filterItemsOf (Some <$> items)
  | other => filterItemsOf [other]
  end.

(** What the body of the loop over the criteria-based rules pushes
    for a rule that is territory related. *)
Definition criteriaRuleOf (rule : Json) : Outcome SharingRule :=
  match criteriaItemsOf rule with
  | Threw e => Threw e
  | Returned items =>
      match extractSharedToGroup (Some rule) with
      | Threw e => Threw e
      | Returned to =>
          Returned (MkSharingRule (textOf rule "fullName") (textOf rule "accessLevel")
                      (accountSettingsOf rule) (textOf rule "description")
                      (textOf rule "label") None to
                      (textOf rule "booleanFilter") (Some items))
      end
  end.

(** What the bodies of the loops over the owner-based and the
    territory-based rules push. *)
Definition ownerRuleOf (rule : Json) : Outcome SharingRule :=
  match extractSharedFromGroup (Some rule) with
  | Threw e => Threw e
  | Returned from =>
      match extractSharedToGroup (Some rule) with
      | Threw e => Threw e
      | Returned to =>
          Returned (MkSharingRule (textOf rule "fullName") (textOf rule "accessLevel")
                      (accountSettingsOf rule) (textOf rule "description")
                      (textOf rule "label") from to
                      (textOf rule "booleanFilter") None)
      end
  end.

(** A loop [for (const rule of rules) if (isTerritoryRelated(rule)) push(...)]. *)
Fixpoint collectRules (ruleOf : Json -> Outcome SharingRule) (rules : list (option Json))
  : Outcome (list SharingRule) :=
  match rules with
  | [] => Returned []
  | rule :: rest =>
      if isTerritoryRelated rule then
        match rule with
        | None => collectRules ruleOf rest
        | Some r =>
            match ruleOf r with
            | Threw e => Threw e
            | Returned parsed =>
                match collectRules ruleOf rest with
                | Threw e => Threw e
                | Returned more => Returned (parsed :: more)
                end
            end
        end
      else collectRules ruleOf rest
  end.

(** The branch for the criteria-based rules.  Its normalisation
    step assigns the value it already holds, so that a value that
    is not an array reaches the loop as it is. *)
Definition parseCriteriaRules (sharingRules : Json) : Outcome (list SharingRule) :=
  if truthyJson (prop sharingRules "sharingCriteriaRules") then
    let sharingCriteriaRules :=
      if negb (isArray (prop sharingRules "sharingCriteriaRules"))
      then prop sharingRules "sharingCriteriaRules"
      else prop sharingRules "sharingCriteriaRules" in
    match sharingCriteriaRules with
    | None => Returned []
    | Some rules =>
        match iterate rules with
        | Threw e => Threw e
        | Returned items => collectRules criteriaRuleOf items
        end
    end
  else Returned [].

(** The branches for the owner-based and the territory-based
    rules: a value that is not an array is wrapped in one. *)
Definition parseWrappedRules (k : string) (sharingRules : Json) : Outcome (list SharingRule) :=
  if truthyJson (prop sharingRules k) then
    match prop sharingRules k with
    | Some (JArray items) => collectRules ownerRuleOf (Some <$> items)
    | other => collectRules ownerRuleOf [other]
    end
  else Returned [].

(** The part of [parseSharingRulesFromXml] after the conversion:
    from the converted document to the parsed rules. *)
Definition parseSharingRulesFromJson (sharingRulesJson : Json) : Outcome SharingRules :=
  let sharingRules := prop sharingRulesJson "SharingRules" in
  match sharingRules with
  | Some (JObject _ as rules) | Some (JArray _ as rules) =>
      match parseCriteriaRules rules with
      | Threw e => Threw e
      | Returned criteria =>
          match parseWrappedRules "sharingOwnerRules" rules with
          | Threw e => Threw e
          | Returned owner =>
              match parseWrappedRules "sharingTerritoryRules" rules with
              | Threw e => Threw e
              | Returned territory => Returned (MkSharingRules criteria owner territory)
              end
          end
      end
  | other =>
      Threw (SfdxFalconError
               ("Expected Sharing Rules XML to JSON conversion to yield a sharingRules object "
                +:+ "but got type '" +:+ typeofText other +:+ "' instead.")
               "Xml2JsonParsingError" None)
  end.

(** *** Records and the context *)

(** The rows of the five extracts, with the columns the context
    reads; [UserTerritory] and [AccountShare] rows are only
    counted. *)
Record TerritoryRecord : Type := MkTerritoryRecord {
  territory_Id : string
}.

Record AtaRuleRecord : Type := MkAtaRuleRecord {
  Id          : string;
  Name        : string;
  TerritoryId : string
}.

Record AtaRuleItemRecord : Type := MkAtaRuleItemRecord {
  item_Id : string;
  RuleId  : string
}.

(** [interface TM1FilePaths]. *)
Record TM1FilePaths : Type := MkTM1FilePaths {
  accountShareCsv  : string;
  ataRuleCsv       : string;
  ataRuleItemCsv   : string;
  territoryCsv     : string;
  userTerritoryCsv : string;
  tm1MetadataDir   : string
}.

(** The collaborators of the context: Node's [path.join], the CSV
    reader at each type of row, [fs.readFile], the conversion of
    [xml-js] under the options of the call, and
    [createDeveloperName] of the metadata utility module. *)
Class Tm1Env : Type := {
  pathJoin               : list string -> string;
  parseAccountShareFile  : string -> Outcome (list JsonMap);
  parseAtaRuleFile       : string -> Outcome (list AtaRuleRecord);
  parseAtaRuleItemFile   : string -> Outcome (list AtaRuleItemRecord);
  parseTerritoryFile     : string -> Outcome (list TerritoryRecord);
  parseUserTerritoryFile : string -> Outcome (list JsonMap);
  readFile               : string -> Outcome string;
  xml2js                 : string -> Outcome Json;
  createDeveloperName    : string -> string
}.

(** The members of a [Tm1Context].  The arrays that the constructor
    leaves unassigned start out empty here. *)
Record Tm1Context : Type := MkTm1Context {
  _accountShareRecords         : list JsonMap;
  _accountSharingRules         : SharingRules;
  _ataRuleRecords              : list AtaRuleRecord;
  _ataRuleItemRecords          : list AtaRuleItemRecord;
  _ataRuleRecordsById          : gmap string AtaRuleRecord;
  _ataRuleRecordsByTerritoryId : gmap string (list AtaRuleRecord);
  _ataRuleItemRecordsByRuleId  : gmap string (list AtaRuleItemRecord);
  _ataRuleDevNamesByRuleId     : gmap string string;
  _leadSharingRules            : SharingRules;
  _opportunitySharingRules     : SharingRules;
  _territoryRecords            : list TerritoryRecord;
  _territoryRecordsById        : gmap string TerritoryRecord;
  _tm1FilePaths                : TM1FilePaths;
  _userTerritoryRecords        : list JsonMap;
  _prepared                    : bool
}.

Definition with_csv (shares : list JsonMap) (rules : list AtaRuleRecord)
    (items : list AtaRuleItemRecord) (territories : list TerritoryRecord)
    (users : list JsonMap) (c : Tm1Context) : Tm1Context :=
  MkTm1Context shares (_accountSharingRules c) rules items
    (_ataRuleRecordsById c) (_ataRuleRecordsByTerritoryId c)
    (_ataRuleItemRecordsByRuleId c) (_ataRuleDevNamesByRuleId c)
    (_leadSharingRules c) (_opportunitySharingRules c)
    territories (_territoryRecordsById c) (_tm1FilePaths c) users (_prepared c).

Definition with_sharingRules (account lead opportunity : SharingRules) (c : Tm1Context)
  : Tm1Context :=
  MkTm1Context (_accountShareRecords c) account (_ataRuleRecords c) (_ataRuleItemRecords c)
    (_ataRuleRecordsById c) (_ataRuleRecordsByTerritoryId c)
    (_ataRuleItemRecordsByRuleId c) (_ataRuleDevNamesByRuleId c)
    lead opportunity
    (_territoryRecords c) (_territoryRecordsById c) (_tm1FilePaths c)
    (_userTerritoryRecords c) (_prepared c).

Definition with_maps (rulesById : gmap string AtaRuleRecord)
    (rulesByTerritory : gmap string (list AtaRuleRecord))
    (itemsByRule : gmap string (list AtaRuleItemRecord))
    (devNames : gmap string string)
    (territoriesById : gmap string TerritoryRecord) (c : Tm1Context) : Tm1Context :=
  MkTm1Context (_accountShareRecords c) (_accountSharingRules c)
    (_ataRuleRecords c) (_ataRuleItemRecords c)
    rulesById rulesByTerritory itemsByRule devNames
    (_leadSharingRules c) (_opportunitySharingRules c)
    (_territoryRecords c) territoriesById (_tm1FilePaths c)
    (_userTerritoryRecords c) (_prepared c).

Definition with_devNames (devNames : gmap string string) (c : Tm1Context) : Tm1Context :=
  with_maps (_ataRuleRecordsById c) (_ataRuleRecordsByTerritoryId c)
            (_ataRuleItemRecordsByRuleId c) devNames (_territoryRecordsById c) c.

Definition with_prepared (v : bool) (c : Tm1Context) : Tm1Context :=
  MkTm1Context (_accountShareRecords c) (_accountSharingRules c)
    (_ataRuleRecords c) (_ataRuleItemRecords c)
    (_ataRuleRecordsById c) (_ataRuleRecordsByTerritoryId c)
    (_ataRuleItemRecordsByRuleId c) (_ataRuleDevNamesByRuleId c)
    (_leadSharingRules c) (_opportunitySharingRules c)
    (_territoryRecords c) (_territoryRecordsById c) (_tm1FilePaths c)
    (_userTerritoryRecords c) v.

(** [const devNameMaxLength = 80]. *)
Definition devNameMaxLength : nat := 80.

(** The values of the map of developer names. *)
Definition devNameValues (names : gmap string string) : list string :=
  (map_to_list names).*2.

(** [private matchAtaRuleDeveloperName(devNameToMatch)]. *)
Definition matchAtaRuleDeveloperName (names : gmap string string) (devNameToMatch : string)
  : bool :=
  bool_decide (devNameToMatch ∈ devNameValues names).

(** The name the body of the [while] loop assigns for a counter. *)
Definition suffixedName (baseDevName : string) (counter : N) : string :=
  let counterString := toString counter in
  substringTo (devNameMaxLength - String.length counterString) baseDevName
  +:+ counterString.

(** The [while] loop of [addAtaRuleDeveloperName], entered with the
    current [newDevName] and [counter].  [fuel] bounds the number of
    rounds; [None] stands for a loop that is still running when the
    fuel is used up. *)
Fixpoint findDeveloperName (fuel : nat) (names : gmap string string)
    (baseDevName newDevName : string) (counter : N) : option string :=
  if negb (matchAtaRuleDeveloperName names newDevName) then Some newDevName
  else
    match fuel with
    | O => None
    | S fuel' =>
        findDeveloperName fuel' names baseDevName
                          (suffixedName baseDevName counter) (counter + 1)
    end.

(** Rounds that are always enough: one more than the number of
    characters of all names in use (see [findDeveloperName_total]). *)
Definition enoughRounds (names : gmap string string) : nat :=
  S (sum_list (String.length <$> devNameValues names)).

(** [new Tm1Context(exportedMetadataPath, exportedRecordDataPath)] and
    the methods that need the collaborators. *)
Section Operations.
Context `{Tm1Env}.

Definition construct (exportedMetadataPath exportedRecordDataPath : string) : Tm1Context :=
  MkTm1Context [] noSharingRules [] [] ∅ ∅ ∅ ∅ noSharingRules noSharingRules [] ∅
    (MkTM1FilePaths
       (pathJoin [exportedRecordDataPath; "AccountShare.csv"])
       (pathJoin [exportedRecordDataPath; "AccountTerritoryAssignmentRule.csv"])
       (pathJoin [exportedRecordDataPath; "AccountTerritoryAssignmentRuleItem.csv"])
       (pathJoin [exportedRecordDataPath; "Territory.csv"])
       (pathJoin [exportedRecordDataPath; "UserTerritory.csv"])
       (pathJoin [exportedMetadataPath; "unpackaged"]))
    [] false.

(** [private addAtaRuleDeveloperName(ataRuleRecord)]; the counter
    starts at 2. *)
Definition addAtaRuleDeveloperName (ataRuleRecord : AtaRuleRecord) (c : Tm1Context)
  : option (Tm1Context * string) :=
  let baseDevName := createDeveloperName (Name ataRuleRecord) in
  newDevName ← findDeveloperName (enoughRounds (_ataRuleDevNamesByRuleId c))
                                 (_ataRuleDevNamesByRuleId c) baseDevName baseDevName 2;
  Some (with_devNames (<[Id ataRuleRecord := newDevName]> (_ataRuleDevNamesByRuleId c)) c,
        newDevName).

(** [private addAtaRuleToTerritoryGroup(ataRuleRecord)]. *)
Definition addAtaRuleToTerritoryGroup (ataRuleRecord : AtaRuleRecord) (c : Tm1Context)
  : Tm1Context :=
  let ataRuleRecords :=
    default [] (_ataRuleRecordsByTerritoryId c !! TerritoryId ataRuleRecord) in
  with_maps (_ataRuleRecordsById c)
            (<[TerritoryId ataRuleRecord := (ataRuleRecords ++ [ataRuleRecord])%list]>
               (_ataRuleRecordsByTerritoryId c))
            (_ataRuleItemRecordsByRuleId c) (_ataRuleDevNamesByRuleId c)
            (_territoryRecordsById c) c.

(** One round of the loop of [transformCsvFiles] over the rules. *)
Definition transformAtaRule (ataRuleRecord : AtaRuleRecord) (c : Tm1Context)
  : option Tm1Context :=
  let c1 := with_maps (<[Id ataRuleRecord := ataRuleRecord]> (_ataRuleRecordsById c))
                      (_ataRuleRecordsByTerritoryId c) (_ataRuleItemRecordsByRuleId c)
                      (_ataRuleDevNamesByRuleId c) (_territoryRecordsById c) c in
  '(c2, _) ← addAtaRuleDeveloperName ataRuleRecord c1;
  let c3 := addAtaRuleToTerritoryGroup ataRuleRecord c2 in
  let ataRuleItemRecords :=
    filter (fun item => RuleId item = Id ataRuleRecord) (_ataRuleItemRecords c3) in
  Some (with_maps (_ataRuleRecordsById c3) (_ataRuleRecordsByTerritoryId c3)
                  (<[Id ataRuleRecord := ataRuleItemRecords]>
                     (_ataRuleItemRecordsByRuleId c3))
                  (_ataRuleDevNamesByRuleId c3) (_territoryRecordsById c3) c3).

Fixpoint transformAtaRules (rules : list AtaRuleRecord) (c : Tm1Context)
  : option Tm1Context :=
  match rules with
  | [] => Some c
  | rule :: rest => c' ← transformAtaRule rule c; transformAtaRules rest c'
  end.

(** [private async transformCsvFiles()]. *)
Definition transformCsvFiles (c : Tm1Context) : option Tm1Context :=
  let c1 := with_maps (_ataRuleRecordsById c) (_ataRuleRecordsByTerritoryId c)
                      (_ataRuleItemRecordsByRuleId c) (_ataRuleDevNamesByRuleId c)
                      (foldl (fun m r => <[territory_Id r := r]> m)
                             (_territoryRecordsById c) (_territoryRecords c)) c in
  transformAtaRules (_ataRuleRecords c1) c1.

(** [private async parseCsvFiles()]: the five files in the order
    of the source; nothing is assigned after a file fails. *)
Definition parseCsvFiles (c : Tm1Context) : Tm1Context * Outcome unit :=
  match parseAccountShareFile (accountShareCsv (_tm1FilePaths c)) with
  | Threw e => (c, Threw e)
  | Returned shares =>
      let c1 := with_csv shares (_ataRuleRecords c) (_ataRuleItemRecords c)
                         (_territoryRecords c) (_userTerritoryRecords c) c in
      match parseAtaRuleFile (ataRuleCsv (_tm1FilePaths c)) with
      | Threw e => (c1, Threw e)
      | Returned rules =>
          let c2 := with_csv shares rules (_ataRuleItemRecords c)
                             (_territoryRecords c) (_userTerritoryRecords c) c in
          match parseAtaRuleItemFile (ataRuleItemCsv (_tm1FilePaths c)) with
          | Threw e => (c2, Threw e)
          | Returned items =>
              let c3 := with_csv shares rules items
                                 (_territoryRecords c) (_userTerritoryRecords c) c in
              match parseTerritoryFile (territoryCsv (_tm1FilePaths c)) with
              | Threw e => (c3, Threw e)
              | Returned territories =>
                  let c4 := with_csv shares rules items territories
                                     (_userTerritoryRecords c) c in
                  match parseUserTerritoryFile (userTerritoryCsv (_tm1FilePaths c)) with
                  | Threw e => (c4, Threw e)
                  | Returned users =>
                      (with_csv shares rules items territories users c, Returned tt)
                  end
              end
          end
      end
  end.

(** [private parseSharingRulesFromXml(sharingRulesXml)]. *)
Definition parseSharingRulesFromXml (sharingRulesXml : string) : Outcome SharingRules :=
  if String.eqb sharingRulesXml "" then
    Threw (SfdxFalconError
             "Expected sharingRulesXml to be a non-empty string but got type 'string' instead."
             "TypeError" None)
  else
    match xml2js sharingRulesXml with
    | Threw e => Threw e
    | Returned sharingRulesJson => parseSharingRulesFromJson sharingRulesJson
    end.

(** Reading one sharing-rules file: a read that fails gives
    [undefined], and only a text that is truthy is parsed;
    otherwise the rules the context holds stay. *)
Definition parseSharingRulesFile (object : string) (current : SharingRules)
    (c : Tm1Context) : Outcome SharingRules :=
  match readFile (pathJoin [tm1MetadataDir (_tm1FilePaths c); "sharingRules";
                            object +:+ ".sharingRules"]) with
  | Threw _ => Returned current
  | Returned xml =>
      if truthy xml then parseSharingRulesFromXml xml else Returned current
  end.

(** [private async parseXmlFiles()]. *)
Definition parseXmlFiles (c : Tm1Context) : Tm1Context * Outcome unit :=
  match parseSharingRulesFile "Account" (_accountSharingRules c) c with
  | Threw e => (c, Threw e)
  | Returned account =>
      let c1 := with_sharingRules account (_leadSharingRules c)
                                  (_opportunitySharingRules c) c in
      match parseSharingRulesFile "Lead" (_leadSharingRules c) c with
      | Threw e => (c1, Threw e)
      | Returned lead =>
          let c2 := with_sharingRules account lead (_opportunitySharingRules c) c in
          match parseSharingRulesFile "Opportunity" (_opportunitySharingRules c) c with
          | Threw e => (c2, Threw e)
          | Returned opportunity =>
              (with_sharingRules account lead opportunity c, Returned tt)
          end
      end
  end.

(** [public static async prepare(exportedMetadataPath, exportedRecordDataPath)].
    The outer [option] is [None] only when the loop that looks
    for a free developer name is cut off. *)
Definition prepare (exportedMetadataPath exportedRecordDataPath : string)
  : option (Outcome Tm1Context) :=
  let tm1Context := construct exportedMetadataPath exportedRecordDataPath in
  match parseCsvFiles tm1Context with
  | (_, Threw e) => Some (Threw e)
  | (c1, Returned _) =>
      c2 ← transformCsvFiles c1;
      match parseXmlFiles c2 with
      | (_, Threw e) => Some (Threw e)
      | (c3, Returned _) => Some (Returned (with_prepared true c3))
      end
  end.

End Operations.

(** *** Validation of an extraction *)

(** [tm1RecordCounts] of a [TM1AnalysisReport], the part of the
    report [validate] reads.  The three counts of sharing rules
    are members that a report need not have. *)
Record TM1RecordCounts : Type := MkTM1RecordCounts {
  territoryRecordCount      : Z;
  ataRuleRecordCount        : Z;
  ataRuleItemRecordCount    : Z;
  userTerritoryRecordCount  : Z;
  accountShareRecordCount   : Z;
  sharingCriteriaRuleCount  : option Z;
  sharingOwnerRuleCount     : option Z;
  sharingTerritoryRuleCount : option Z
}.

Record TM1AnalysisReport : Type := MkTM1AnalysisReport {
  tm1RecordCounts : TM1RecordCounts
}.

Record ExtractedRecords : Type := MkExtractedRecords {
  extractedTerritoryRecords     : list TerritoryRecord;
  extractedAtaRuleRecords       : list AtaRuleRecord;
  extractedAtaRuleItemRecords   : list AtaRuleItemRecord;
  extractedUserTerritoryRecords : list JsonMap;
  extractedAccountShareRecords  : list JsonMap
}.

Record ValidationStatus : Type := MkValidationStatus {
  territoryExtractionIsValid     : bool;
  ataRuleExtractionIsValid       : bool;
  ataRuleItemExtractionIsValid   : bool;
  userTerritoryExtractionIsValid : bool;
  accountShareExtractionIsValid  : bool
}.

(** [interface TM1ContextValidation]. *)
Record TM1ContextValidation : Type := MkTM1ContextValidation {
  records              : ExtractedRecords;
  expectedRecordCounts : TM1RecordCounts;
  actualRecordCounts   : TM1RecordCounts;
  status               : ValidationStatus
}.

(** [expected === array.length]. *)
Definition countMatches {A} (expected : Z) (array : list A) : bool :=
  Z.eqb expected (Z.of_nat (length array)).

(** The object literal [validate] builds from the report and the
    context it has just parsed. *)
Definition validationOf (tm1AnalysisReport : TM1AnalysisReport) (tm1Context : Tm1Context)
  : TM1ContextValidation :=
  let expected := tm1RecordCounts tm1AnalysisReport in
  MkTM1ContextValidation
    (MkExtractedRecords (_territoryRecords tm1Context) (_ataRuleRecords tm1Context)
                        (_ataRuleItemRecords tm1Context) (_userTerritoryRecords tm1Context)
                        (_accountShareRecords tm1Context))
    (MkTM1RecordCounts (territoryRecordCount expected) (ataRuleRecordCount expected)
                       (ataRuleItemRecordCount expected) (userTerritoryRecordCount expected)
                       (accountShareRecordCount expected)
                       (sharingCriteriaRuleCount expected) (sharingOwnerRuleCount expected)
                       (sharingTerritoryRuleCount expected))
    (MkTM1RecordCounts (Z.of_nat (length (_territoryRecords tm1Context)))
                       (Z.of_nat (length (_ataRuleRecords tm1Context)))
                       (Z.of_nat (length (_ataRuleItemRecords tm1Context)))
                       (Z.of_nat (length (_userTerritoryRecords tm1Context)))
                       (Z.of_nat (length (_accountShareRecords tm1Context)))
                       (Some (-1)%Z) (Some (-1)%Z) (Some (-1)%Z))
    (MkValidationStatus
       (countMatches (territoryRecordCount expected) (_territoryRecords tm1Context))
       (countMatches (ataRuleRecordCount expected) (_ataRuleRecords tm1Context))
       (countMatches (ataRuleItemRecordCount expected) (_ataRuleItemRecords tm1Context))
       (countMatches (userTerritoryRecordCount expected) (_userTerritoryRecords tm1Context))
       (countMatches (accountShareRecordCount expected) (_accountShareRecords tm1Context))).

(** [public static async validate(tm1AnalysisReport, tm1MetadataDir, tm1DataDir)]. *)
Definition validate `{Tm1Env} (tm1AnalysisReport : TM1AnalysisReport)
    (tm1MetadataDir tm1DataDir : string) : Outcome TM1ContextValidation :=
  let tm1Context := construct tm1MetadataDir tm1DataDir in
  match parseCsvFiles tm1Context with
  | (_, Threw e) => Threw e
  | (c1, Returned _) =>
      match parseXmlFiles c1 with
      | (_, Threw e) => Threw e
      | (c2, Returned _) => Returned (validationOf tm1AnalysisReport c2)
      end
  end.

End Tm1.

(** ** The TM1 analysis: [Tm1Analysis] *)

Module Analysis.

Record SharingRulesCount : Type := MkSharingRulesCount {
  sharingCriteriaRulesCount  : Z;
  sharingOwnerRulesCount     : Z;
  sharingTerritoryRulesCount : option Z
}.

Record TM1OrgInfo : Type := MkTM1OrgInfo {
  alias              : string;
  username           : string;
  orgId              : string;
  loginUrl           : string;
  createdOrgInstance : string
}.

(** [interface TM1AnalyzeFilePaths]. *)
Record TM1AnalyzeFilePaths : Type := MkTM1AnalyzeFilePaths {
  baseDirectory         : string;
  tm1AnalysisReportPath : string
}.

(** The private members of a [Tm1Analysis]; a member that has not
    been assigned is [None].  A [TM1Dependency] is kept as the name
    of the component. *)
Record Tm1Analysis : Type := MkTm1Analysis {
  _accountShareRecordCount      : option Z;
  _ataRuleRecordCount           : option Z;
  _ataRuleItemRecordCount       : option Z;
  _hardTm1DependencyCount       : option Z;
  _softTm1DependencyCount       : option Z;
  _hardTm1Dependencies          : option (list string);
  _softTm1Dependencies          : option (list string);
  _accountSharingRulesCount     : option SharingRulesCount;
  _leadSharingRulesCount        : option SharingRulesCount;
  _opportunitySharingRulesCount : option SharingRulesCount;
  _groupRecordCount             : option Z;
  _territoryRecordCount         : option Z;
  _userTerritoryRecordCount     : option Z;
  _dateAnalyzed                 : option string;
  _orgInfo                      : option TM1OrgInfo;
  _aliasOrUsername              : option string;
  _defaultDelay                 : option Z;
  _filePaths                    : option TM1AnalyzeFilePaths;
  _prepared                     : option bool
}.

(** [public constructor(aliasOrUsername, tm1AnalyzeFilePaths, defaultDelay?)],
    with the text of the current date as it is read from the clock. *)
Definition construct (aliasOrUsername : option string)
    (tm1AnalyzeFilePaths : TM1AnalyzeFilePaths)
    (defaultDelay : option Z) (dateNow : string) : Tm1Analysis :=
  MkTm1Analysis None None None None None None None None None None None None None
    (Some dateNow) None
    (Some (match aliasOrUsername with
           | Some a => if truthy a then a else ""
           | None => ""
           end))
    (Some (match defaultDelay with
           | Some d => if Z.eqb d 0 then 1%Z else d
           | None => 1%Z
           end))
    (Some tm1AnalyzeFilePaths)
    (Some true).

(** [protected _initialize()]. *)
Definition _initialize (this : Tm1Analysis) : Tm1Analysis :=
  let unset := Some (-1)%Z in
  MkTm1Analysis unset unset unset unset unset (Some []) (Some [])
    (Some (MkSharingRulesCount (-1) (-1) (Some (-1)%Z)))
    (Some (MkSharingRulesCount (-1) (-1) None))
    (Some (MkSharingRulesCount (-1) (-1) None))
    unset unset unset
    (_dateAnalyzed this)
    (Some (MkTM1OrgInfo "NOT_SPECIFIED" "NOT_SPECIFIED" "NOT_SPECIFIED"
                        "NOT_SPECIFIED" "NOT_SPECIFIED"))
    (_aliasOrUsername this) (_defaultDelay this) (_filePaths this) (_prepared this).

(** A member function as [this.name()] finds it: a synchronous
    method without arguments, or a method whose call only creates
    a promise. *)
Inductive Member : Type :=
| SyncMethod (body : Tm1Analysis -> Tm1Analysis * Outcome unit)
| AsyncMethod.

(** The methods the body of the class [Tm1Analysis] defines, in the
    order of the source.  [checkPrepared] and [checkAliasOrUsername]
    are not among them: the text of both is inside a comment. *)
Definition Tm1Analysis_prototype : list (string * Member) :=
  [ ("analyzeAccountShares", AsyncMethod);
    ("analyzeAtaRuleItems", AsyncMethod);
    ("analyzeAtaRules", AsyncMethod);
    ("analyzeGroups", AsyncMethod);
    ("analyzeHardTm1Dependencies", AsyncMethod);
    ("analyzeSoftTm1Dependencies", AsyncMethod);
    ("analyzeAccountSharingRules", AsyncMethod);
    ("analyzeLeadSharingRules", AsyncMethod);
    ("analyzeOpportunitySharingRules", AsyncMethod);
    ("analyzeTerritories", AsyncMethod);
    ("analyzeUserTerritoryAssignments", AsyncMethod);
    ("gatherOrgInformation", AsyncMethod);
    ("generateReport", SyncMethod (fun this => (this, Returned tt)));
    ("saveReport", AsyncMethod);
    ("_initialize", SyncMethod (fun this => (_initialize this, Returned tt))) ].

(** The methods of the base class [SfdxFalconModel]. *)
Definition SfdxFalconModel_prototype : list (string * Member) :=
  [ ("build", AsyncMethod);
    ("load", AsyncMethod);
    ("refresh", AsyncMethod);
    ("isReady", SyncMethod (fun this => (this, Returned tt))) ].

(** The lookup of [this.name] along the prototype chain. *)
Definition lookupMember (name : string) : option Member :=
  (fun found => found.2.2)
    <$> list_find (fun entry => entry.1 = name)
                  (Tm1Analysis_prototype ++ SfdxFalconModel_prototype)%list.

(** The statement [this.name();]. *)
Definition callMember (name : string) (this : Tm1Analysis) : Tm1Analysis * Outcome unit :=
  match lookupMember name with
  | None => (this, Threw (TypeError ("this." +:+ name +:+ " is not a function")))
  | Some (SyncMethod body) => body this
  | Some AsyncMethod => (this, Returned tt)
  end.

(** What an accessor can return. *)
Inductive Value : Type :=
| VUndefined
| VNumber (n : Z)
| VText (s : string)
| VDependencies (l : list string)
| VOrgInfo (o : TM1OrgInfo)
| VSharingRulesCount (c : SharingRulesCount).

Definition valueOf {A} (wrap : A -> Value) (member : option A) : Value :=
  match member with Some a => wrap a | None => VUndefined end.

(** The public accessors whose body is
    [{ this.checkPrepared(); return this._member; }]. *)
Inductive Accessor : Type :=
| accountShareRecordCount | ataRuleRecordCount | ataRuleItemRecordCount
| hardTm1DependencyCount | softTm1DependencyCount
| hardTm1Dependencies | softTm1Dependencies
| dateAnalyzed | orgInfo | aliasOrUsername
| accountSharingRulesCount | leadSharingRulesCount | opportunitySharingRulesCount
| groupRecordCount | territoryRecordCount | userTerritoryRecordCount.

(** The member an accessor returns. *)
Definition storedValue (a : Accessor) (this : Tm1Analysis) : Value :=
  match a with
  | accountShareRecordCount      => valueOf VNumber (_accountShareRecordCount this)
  | ataRuleRecordCount           => valueOf VNumber (_ataRuleRecordCount this)
  | ataRuleItemRecordCount       => valueOf VNumber (_ataRuleItemRecordCount this)
  | hardTm1DependencyCount       => valueOf VNumber (_hardTm1DependencyCount this)
  | softTm1DependencyCount       => valueOf VNumber (_softTm1DependencyCount this)
  | hardTm1Dependencies          => valueOf VDependencies (_hardTm1Dependencies this)
  | softTm1Dependencies          => valueOf VDependencies (_softTm1Dependencies this)
  | dateAnalyzed                 => valueOf VText (_dateAnalyzed this)
  | orgInfo                      => valueOf VOrgInfo (_orgInfo this)
  | aliasOrUsername              => valueOf VText (_aliasOrUsername this)
  | accountSharingRulesCount     => valueOf VSharingRulesCount (_accountSharingRulesCount this)
  | leadSharingRulesCount        => valueOf VSharingRulesCount (_leadSharingRulesCount this)
  | opportunitySharingRulesCount => valueOf VSharingRulesCount (_opportunitySharingRulesCount this)
  | groupRecordCount             => valueOf VNumber (_groupRecordCount this)
  | territoryRecordCount         => valueOf VNumber (_territoryRecordCount this)
  | userTerritoryRecordCount     => valueOf VNumber (_userTerritoryRecordCount this)
  end.

(** Reading [analysis.accessor]. *)
Definition readAccessor (a : Accessor) (this : Tm1Analysis) : Outcome Value :=
  match callMember "checkPrepared" this with
  | (_, Threw e) => Threw e
  | (this', Returned _) => Returned (storedValue a this')
  end.

(** The two accessors without a check: [filePaths] and [prepared]. *)
Definition filePaths (this : Tm1Analysis) : option TM1AnalyzeFilePaths := _filePaths this.
Definition prepared (this : Tm1Analysis) : option bool := _prepared this.

End Analysis.

(** ** Example instances

    Concrete collaborators on which the operations can be run. *)

Module Examples.

(** A derived model whose options are lists of settings and whose
    only member counts the calls of [_build] and [_load].  Building
    succeeds unless the options ask for ["fail"]; loading rejects
    when they ask for ["reject"]. *)
Definition countingModel : Model.ModelImpl (list string) nat := {|
  Model.emptyObject := [];
  Model.throwOnEmptyNullInvalidObject o argName :=
    match o with
    | [] => Threw (TypeError ("Expected " +:+ argName +:+ " to be a non-empty object"))
    | _ => Returned tt
    end;
  Model.throwOnNullInvalidObject _ _ := Returned tt;
  Model._build o calls := (S calls, Returned (negb (bool_decide ("fail" ∈ o))));
  Model._load o calls :=
    (S calls,
     if bool_decide ("reject" ∈ o)
     then Threw (MkError "Error" "file not found" None)
     else Returned (negb (bool_decide ("fail" ∈ o))))
|}.

(** A fresh instance of that model, with and without trapping. *)
Definition freshModel (trap : bool) : Model.SfdxFalconModel (list string) nat :=
  @Model.construct _ _ countingModel (Some trap) 0.

(** The value of a call that returned, [d] when it threw. *)
Definition returnedOr {A} (d : A) (o : Outcome A) : A :=
  match o with Returned a => a | Threw _ => d end.

Definition noSuchFile : JsError := MkError "Error" "ENOENT: no such file or directory" None.

(** The directory [tm2] as the CSV module reads it: the Territory2
    extract at [tm2/Territory2.csv], which may be missing, and the
    mapping table and the intermediate rows of user associations at
    the paths [TmFilePaths] gives them.  No other path can be read,
    and neither can a path that is [undefined]. *)
Definition tm2Files (territory2 : Outcome (list Tm2.Territory2Record))
    (mappings : list Tm2.TerritoryDevNameMapping) (rows : list (gmap string string))
  : Tm2.Tm2Env := {|
  Tm2.parseMappingsFile path :=
    if bool_decide (path = Some "tm2/intermediate-files/tm1-to-tm2-devname-map.csv")
    then Returned mappings else Threw noSuchFile;
  Tm2.parseTerritory2File path :=
    if bool_decide (path = Some "tm2/Territory2.csv")
    then territory2 else Threw noSuchFile;
  Tm2.readRows path :=
    if bool_decide
         (path = Some "tm2/intermediate-files/UserTerritory2Association.intermediate.csv")
    then Returned rows else Threw noSuchFile
|}.

(** The file paths of the directory [tm2] as [TmFilePaths] makes
    them, and the same object with the member [territory2Csv] that
    the context reads and [TmFilePaths] does not make. *)
Definition tm2Paths : Tm2.TMToolsAllFilePaths :=
  returnedOr ∅ (TmFilePaths.getAllTmToolsFilePaths (H := Posix.paths) "tm2").

Definition tm2PathsWithExtract : Tm2.TMToolsAllFilePaths :=
  <["territory2Csv" := "tm2/Territory2.csv"]> tm2Paths.

(** Two source territories, the second a child of the first, and a
    third whose destination record is never created. *)
Definition mappingT1 := Tm2.MkMapping "T1" "DevA" "" "" "".
Definition mappingT2 := Tm2.MkMapping "T2" "DevB" "DevA" "" "".
Definition mappingT3 := Tm2.MkMapping "T3" "DevX" "" "" "".

Definition recordA := Tm2.MkTerritory2Record "D001" "DevA".
Definition recordB := Tm2.MkTerritory2Record "D002" "DevB".

(** One intermediate association row, waiting for the id of DevB. *)
Definition pendingRow : gmap string string :=
  <["UserId" := "005000000000001"]> (<["Territory2Id" := "T2ID_PENDING_DevB"]> ∅).

(** Before the deployment there is no Territory2 extract; after it
    the extract has both records. *)
Definition beforeDeployment : Tm2.Tm2Env :=
  tm2Files (Threw noSuchFile) [mappingT1; mappingT2] [pendingRow].
Definition afterDeployment : Tm2.Tm2Env :=
  tm2Files (Returned [recordA; recordB]) [mappingT1; mappingT2] [pendingRow].

(** The context that [prepare] returns for the directory [tm2]
    before the deployment. *)
Definition wiredContext : Tm2.Tm2Context :=
  returnedOr (Tm2.construct None ∅)
             (Tm2.prepare (H := beforeDeployment) (H0 := Posix.paths) None "tm2").

(** The context made before the deployment by the statements of
    [prepare] from the paths that name the extract, and the same
    context after [updateRecordMaps] has read the extract. *)
Definition preparedContext : Tm2.Tm2Context :=
  returnedOr (Tm2.construct None ∅)
             (Tm2.prepareFrom (H := beforeDeployment) None tm2PathsWithExtract).
Definition updatedContext : Tm2.Tm2Context :=
  (Tm2.updateRecordMaps (H := afterDeployment) preparedContext).1.

(** A deployment that created the record of DevA only, for a
    mapping table that also has a row for DevX. *)
Definition partialBefore : Tm2.Tm2Env :=
  tm2Files (Threw noSuchFile) [mappingT1; mappingT3] [].
Definition partialAfter : Tm2.Tm2Env :=
  tm2Files (Returned [recordA]) [mappingT1; mappingT3] [].
Definition partialContext : Tm2.Tm2Context :=
  returnedOr (Tm2.construct None ∅)
             (Tm2.prepareFrom (H := partialBefore) None tm2PathsWithExtract).

(** A deployment whose extract has a header and no rows. *)
Definition emptyAfter : Tm2.Tm2Env :=
  tm2Files (Returned []) [mappingT1; mappingT2] [pendingRow].

(** A slug transform to run the examples with: every character
    that is not a letter or a digit becomes an underscore, and the
    result is cut at 80 characters. *)
Definition slugChar (a : Ascii.ascii) : Ascii.ascii :=
  let n := Ascii.nat_of_ascii a in
  if (((48 <=? n) && (n <=? 57)) || ((65 <=? n) && (n <=? 90))
      || ((97 <=? n) && (n <=? 122)))%nat
  then a else "_"%char.

Fixpoint slugChars (s : string) : string :=
  match s with
  | EmptyString => EmptyString
  | String a rest => String (slugChar a) (slugChars rest)
  end.

Definition slug (s : string) : string := substringTo 80 (slugChars s).

(** A sharing rule of the Account object that shares with a
    territory, as the conversion renders it. *)
Definition textElement (s : string) : Tm1.Json := Tm1.JObject [("_text", Tm1.JText s)].

Definition criteriaItem : Tm1.Json :=
  Tm1.JObject [("field", textElement "Region__c");
               ("operation", textElement "equals");
               ("value", textElement "West")].

Definition territoryRule : Tm1.Json :=
  Tm1.JObject [("fullName", textElement "Share_West");
               ("accessLevel", textElement "Read");
               ("label", textElement "Share West");
               ("sharedTo", Tm1.JObject [("territory", textElement "West")]);
               ("criteriaItems", criteriaItem)].

(** The converted document when the file has that one
    criteria-based rule, and the document that has the same rule
    inside an array. *)
Definition oneCriteriaRule : Tm1.Json :=
  Tm1.JObject [("SharingRules", Tm1.JObject [("sharingCriteriaRules", territoryRule)])].

Definition oneCriteriaRuleInArray : Tm1.Json :=
  Tm1.JObject [("SharingRules",
                Tm1.JObject [("sharingCriteriaRules", Tm1.JArray [territoryRule])])].

(** An extraction directory: the rows of the five extracts; there
    are no sharing-rules files. *)
Definition tm1Files (territories : list Tm1.TerritoryRecord)
    (rules : list Tm1.AtaRuleRecord) (items : list Tm1.AtaRuleItemRecord)
    (users shares : list (gmap string string)) : Tm1.Tm1Env := {|
  Tm1.pathJoin parts := String.concat "/" parts;
  Tm1.parseAccountShareFile _ := Returned shares;
  Tm1.parseAtaRuleFile _ := Returned rules;
  Tm1.parseAtaRuleItemFile _ := Returned items;
  Tm1.parseTerritoryFile _ := Returned territories;
  Tm1.parseUserTerritoryFile _ := Returned users;
  Tm1.readFile _ := Threw noSuchFile;
  Tm1.xml2js _ := Returned (Tm1.JObject []);
  Tm1.createDeveloperName := slug
|}.

(** An extract with two territories, three rules (two of them
    with names of the same slug) and a row in each other file,
    and an analysis that expects three territories. *)
Definition extraction : Tm1.Tm1Env :=
  tm1Files [Tm1.MkTerritoryRecord "04T1"; Tm1.MkTerritoryRecord "04T2"]
           [Tm1.MkAtaRuleRecord "0OH1" "East Region" "04T1";
            Tm1.MkAtaRuleRecord "0OH2" "East-Region" "04T1";
            Tm1.MkAtaRuleRecord "0OH3" "West" "04T2"]
           [Tm1.MkAtaRuleItemRecord "0OI1" "0OH1"]
           [{["Id" := "0R81"]}] [{["Id" := "00r1"]}].

Definition analysis : Tm1.TM1AnalysisReport :=
  Tm1.MkTM1AnalysisReport (Tm1.MkTM1RecordCounts 3 3 1 1 1 None None None).



End Examples.

(** * Properties of the lifecycle model *)

Section LifecycleProperties.
Import Model.
Context {Opts Derived : Type} `{ModelImpl Opts Derived}.

Implicit Types (m : SfdxFalconModel Opts Derived) (o : Opts).

(** The state after the handlers of [build] have run. *)
Lemma runBuild_success o m d :
  _build o (derived m) = (d, Returned true) ->
  runBuild o m = (with_state builtState (with_derived d m), Returned builtState).
Proof. intros Hb. unfold runBuild. rewrite Hb. reflexivity. Qed.


(** The error a hook's failure is reported as: the rejection itself,
    or the error the [.then] handler throws for a [false] result. *)
Definition triggerOf (notice name : string) (r : Outcome bool) : option JsError :=
  match r with
  | Returned true => None
  | Returned false => Some (SfdxFalconError notice name None)
  | Threw e => Some e
  end.

Definition buildTrigger : Outcome bool -> option JsError :=
  triggerOf "Build function indicated failure but did not provide specifics." "BuildError".


Lemma runBuild_failure o m d r e :
  _build o (derived m) = (d, r) ->
  buildTrigger r = Some e ->
  let caught := SfdxFalconError ("Build failed. " +:+ errorMessage e) "BuildError" (Some e) in
  let m' := push_error caught (with_state failedState (with_derived d m)) in
  runBuild o m = (m', if trapErrors m then Returned failedState else Threw caught).
Proof.
  intros Hb Ht. unfold runBuild. rewrite Hb.
  destruct r as [[|]|e']; simpl in Ht; inversion Ht; subst; simpl;
    destruct (trapErrors m); reflexivity.
Qed.


(** [refresh] before the model is ready. *)
Lemma refresh_not_ready m :
  ready (_state m) = false ->
  exists e, refresh m = (m, Threw e) /\ errorName e = "RefreshError".
Proof.
  intros Hr. unfold refresh. rewrite Hr. simpl. eexists. split; reflexivity.
Qed.

(** [refresh] of a model that was built runs [_build] again on the
    options kept from [build]. *)
Lemma refresh_built m :
  ready (_state m) = true ->
  built (_state m) = true ->
  threw (throwOnNullInvalidObject (_buildOpts m) "cached Build Options (this._buildOpts)") = false ->
  refresh m = runBuild (_buildOpts m) m.
Proof.
  intros Hr Hb Hv. unfold refresh. rewrite Hr, Hb. simpl.
  destruct (throwOnNullInvalidObject _ _); [reflexivity | discriminate].
Qed.

(** [refresh] of a model that was loaded runs [_load] on the options
    kept from [load] and then throws, whatever [_load] did. *)
Lemma refresh_loaded m :
  ready (_state m) = true ->
  built (_state m) = false ->
  loaded (_state m) = true ->
  threw (throwOnNullInvalidObject (_loadOpts m) "cached Loading Options (this._loadOpts)") = false ->
  exists e, refresh m = (with_derived (_load (_loadOpts m) (derived m)).1 m, Threw e)
            /\ (e = refreshFallThrough \/ (_load (_loadOpts m) (derived m)).2 = Threw e).
Proof.
  intros Hr Hb Hl Hv. unfold refresh. rewrite Hr, Hb, Hl. simpl.
  destruct (throwOnNullInvalidObject _ _); [| discriminate].
  destruct (_load (_loadOpts m) (derived m)) as [d [b|e]]; simpl.
  - exists refreshFallThrough. split; [reflexivity | by left].
  - exists e. split; [reflexivity | by right].
Qed.

End LifecycleProperties.

Section LifecycleClaims.
Import Model.
Context {Opts Derived : Type} `{ModelImpl Opts Derived}.

Implicit Types (m : SfdxFalconModel Opts Derived) (o : Opts).

(** What a call leaves after the hook succeeded: the flag of the
    operation used is the one of [built] and [loaded] that is set,
    the model is ready, neither failed nor stale, no error was
    added, and the call returns the state. *)
Definition AfterSuccess (viaBuild : bool) m (after : SfdxFalconModel Opts Derived * Outcome ModelState)
  : Prop :=
  built (_state after.1) = viaBuild /\
  loaded (_state after.1) = negb viaBuild /\
  xorb (built (_state after.1)) (loaded (_state after.1)) = true /\
  ready (_state after.1) = true /\
  failed (_state after.1) = false /\
  stale (_state after.1) = false /\
  _errors after.1 = _errors m /\
  after.2 = Returned (_state after.1).

(** What a call leaves after the hook failed with [e]: the model is
    failed and neither ready, built nor loaded; one error that
    wraps [e] has been added to the errors; that error is thrown,
    unless the instance traps errors, in which case the call
    returns the state. *)
Definition AfterFailure (e : JsError) m (after : SfdxFalconModel Opts Derived * Outcome ModelState)
  : Prop :=
  failed (_state after.1) = true /\
  ready (_state after.1) = false /\
  built (_state after.1) = false /\
  loaded (_state after.1) = false /\
  exists caught,
    _errors after.1 = (_errors m ++ [caught])%list /\
    errorCause caught = Some e /\
    after.2 = if trapErrors m then Returned (_state after.1) else Threw caught.

Definition AfterHook (viaBuild : bool) (trigger : option JsError) m after : Prop :=
  match trigger with
  | None => AfterSuccess viaBuild m after
  | Some e => AfterFailure e m after
  end.




End LifecycleClaims.



(** C4, on the counting model.  An instance that does not trap
    errors is made ready by [load] with options; [refresh] then runs
    [_load] once more on the kept options (the counter goes from 1
    to 2) and ends by throwing the error named [ERROR_NAME], with
    the state it had before, instead of returning the state. *)
Theorem refresh_of_loaded_model_throws :
  let loadedModel := (Model.load (H := Examples.countingModel) (Some ["from-file"])
                                 (Examples.freshModel false)).1 in
  Model._state loadedModel = Model.loadedState
  /\ Model.derived loadedModel = 1
  /\ Model._loadOpts loadedModel = ["from-file"]
  /\ Model.refresh (H := Examples.countingModel) loadedModel
     = (Model.with_derived 2 loadedModel, Threw Model.refreshFallThrough)
  /\ errorName Model.refreshFallThrough = "ERROR_NAME".
Proof. vm_compute. repeat split; reflexivity. Qed.

(** * Properties of the TM2 context *)

Section Tm2Properties.
Import Tm2.

Implicit Types (c : Tm2Context) (row : TerritoryDevNameMapping)
         (index : gmap string Territory2Record) (records : list Territory2Record).

(** The record the by-DeveloperName index holds for a name after the
    records of an extract have been entered: the last record of the
    extract with that name. *)
Definition lastByDevName (name : string) records : option Territory2Record :=
  last (filter (fun r => DeveloperName r = name) records).

(** The by-DeveloperName index of a context once [records] have
    been entered into it. *)
Definition rebuiltIndex c records : gmap string Territory2Record :=
  foldl (fun m r => <[DeveloperName r := r]> m) (_territory2RecordsByDevName c) records.

Lemma rebuiltIndex_lookup records : forall index name,
  foldl (fun m r => <[DeveloperName r := r]> m) index records !! name
  = match lastByDevName name records with
    | Some r => Some r
    | None => index !! name
    end.
Proof.
  unfold lastByDevName.
  induction records as [|r rs IH]; intros index name; simpl; [reflexivity|].
  rewrite IH, filter_cons.
  destruct (decide (DeveloperName r = name)) as [Heq|Hne].
  - rewrite last_cons. destruct (last (filter _ rs)); [reflexivity|].
    by rewrite Heq, lookup_insert_eq.
  - destruct (last (filter _ rs)); [reflexivity|].
    by rewrite lookup_insert_ne.
Qed.

Lemma lastByDevName_Some name records r :
  lastByDevName name records = Some r -> r ∈ records /\ DeveloperName r = name.
Proof.
  unfold lastByDevName. intros Hl.
  apply last_Some_elem_of in Hl.
  by apply list_elem_of_filter in Hl as [? ?].
Qed.

Lemma lastByDevName_is_Some name records :
  name ∈ DeveloperName <$> records -> is_Some (lastByDevName name records).
Proof.
  unfold lastByDevName. intros Hin.
  apply list_elem_of_fmap in Hin as (r & -> & Hr).
  assert (Hf : r ∈ filter (fun r' => DeveloperName r' = DeveloperName r) records)
    by (apply list_elem_of_filter; split; [reflexivity | done]).
  destruct (filter _ records) as [|x xs] eqn:E using rev_ind.
  - by apply not_elem_of_nil in Hf.
  - rewrite last_snoc. by eexists.
Qed.

(** A row after its identifiers have been looked up in [index]:
    the source columns are kept, [territory2Id] is the id of the
    record indexed by the row's DeveloperName, and
    [territory2ParentId] is the id of the record indexed by the
    parent's DeveloperName when the row has one, and is left as it
    was when it has none. *)
Definition Resolved index row row' : Prop :=
  territoryId row' = territoryId row /\
  territory2DevName row' = territory2DevName row /\
  territory2ParentDevName row' = territory2ParentDevName row /\
  (exists rec, index !! territory2DevName row = Some rec /\ territory2Id row' = Id rec) /\
  (if truthy (territory2ParentDevName row)
   then exists parent, index !! territory2ParentDevName row = Some parent
                       /\ territory2ParentId row' = Id parent
   else territory2ParentId row' = territory2ParentId row).

Lemma lookupTerritory2Id_Returned c name id :
  lookupTerritory2Id c name = Returned id ->
  name <> "" /\ exists rec, _territory2RecordsByDevName c !! name = Some rec /\ id = Id rec.
Proof.
  unfold lookupTerritory2Id.
  destruct (String.eqb_spec name ""); [discriminate|].
  destruct (_ !! name) as [rec|]; [|discriminate].
  intros [= <-]. eauto.
Qed.

Lemma lookupTerritory2Id_found c name rec :
  name <> "" ->
  _territory2RecordsByDevName c !! name = Some rec ->
  lookupTerritory2Id c name = Returned (Id rec).
Proof.
  intros Hne Hl. unfold lookupTerritory2Id.
  destruct (String.eqb_spec name ""); [done|]. by rewrite Hl.
Qed.

Lemma lookupTerritory2Id_missing c name :
  name <> "" ->
  _territory2RecordsByDevName c !! name = None ->
  exists e, lookupTerritory2Id c name = Threw e /\ errorName e = "DeveloperNameNotFound".
Proof.
  intros Hne Hl. unfold lookupTerritory2Id.
  destruct (String.eqb_spec name ""); [done|]. rewrite Hl. eauto.
Qed.

(** The loop over the rows when no lookup throws. *)
Lemma updateMappings_Returned c : forall rows rows' u,
  updateMappings c rows = (rows', Returned u) ->
  Forall2 (Resolved (_territory2RecordsByDevName c)) rows rows'.
Proof.
  induction rows as [|row rest IH]; intros rows' u; simpl.
  - intros [= <-]. constructor.
  - destruct (lookupTerritory2Id c (territory2DevName row)) as [id|e] eqn:Hid; [|discriminate].
    apply lookupTerritory2Id_Returned in Hid as (_ & rec & Hrec & ->).
    destruct (truthy (territory2ParentDevName row)) eqn:Hp.
    + destruct (lookupTerritory2Id c (territory2ParentDevName row)) as [pid|e] eqn:Hpid;
        [|discriminate].
      apply lookupTerritory2Id_Returned in Hpid as (_ & prec & Hprec & ->).
      destruct (updateMappings c rest) as [rest' r] eqn:Hrest.
      intros [= <- ->]. constructor; [|by eapply IH].
      repeat split; simpl; eauto. rewrite Hp. eauto.
    + destruct (updateMappings c rest) as [rest' r] eqn:Hrest.
      intros [= <- ->]. constructor; [|by eapply IH].
      repeat split; simpl; eauto. by rewrite Hp.
Qed.

(** A row both of whose lookups succeed. *)
Definition Resolvable index row : Prop :=
  territory2DevName row <> "" /\
  is_Some (index !! territory2DevName row) /\
  (truthy (territory2ParentDevName row) = true ->
   is_Some (index !! territory2ParentDevName row)).

Lemma truthy_nonempty s : truthy s = true -> s <> "".
Proof. unfold truthy. destruct (String.eqb_spec s ""); [discriminate | done]. Qed.

Lemma updateMappings_total c : forall rows,
  Forall (Resolvable (_territory2RecordsByDevName c)) rows ->
  exists rows', updateMappings c rows = (rows', Returned tt).
Proof.
  induction rows as [|row rest IH]; intros Hall; simpl; [by eexists|].
  apply Forall_cons in Hall as [(Hne & [rec Hrec] & Hpar) Hrest].
  rewrite (lookupTerritory2Id_found _ _ _ Hne Hrec).
  destruct (IH Hrest) as [rest' Hrest'].
  cbn -[truthy]. destruct (truthy (territory2ParentDevName row)) eqn:Hp.
  - destruct (Hpar eq_refl) as [prec Hprec].
    rewrite (lookupTerritory2Id_found _ _ _ (truthy_nonempty _ Hp) Hprec), Hrest'.
    by eexists.
  - rewrite Hrest'. by eexists.
Qed.

(** How the loop ends on the first row it cannot resolve: the
    [TypeError] of the lookup when the DeveloperName of the row is
    empty, [DeveloperNameNotFound] when that name is not indexed,
    both with the row as it was; or [DeveloperNameNotFound] when
    the name is indexed and the name of the parent is not, with the
    row's own id assigned. *)
Definition FailsAt index row row' (e : JsError) : Prop :=
  (territory2DevName row = "" /\ errorName e = "TypeError" /\ row' = row)
  \/ (territory2DevName row <> ""
      /\ index !! territory2DevName row = None
      /\ errorName e = "DeveloperNameNotFound" /\ row' = row)
  \/ (exists rec,
        territory2DevName row <> ""
        /\ index !! territory2DevName row = Some rec
        /\ truthy (territory2ParentDevName row) = true
        /\ index !! territory2ParentDevName row = None
        /\ errorName e = "DeveloperNameNotFound"
        /\ row' = with_territory2Id (Id rec) row).

Lemma FailsAt_not_Resolvable index row row' e :
  FailsAt index row row' e -> ~ Resolvable index row.
Proof.
  intros [(Hempty & _) | [(_ & Hnone & _) | (rec & _ & _ & Hp & Hnone & _)]]
         (Hne & Hsome & Hparent).
  - done.
  - rewrite Hnone in Hsome. by destruct Hsome.
  - specialize (Hparent Hp). rewrite Hnone in Hparent. by destruct Hparent.
Qed.

Lemma lookupTerritory2Id_empty c :
  exists e, lookupTerritory2Id c "" = Threw e /\ errorName e = "TypeError".
Proof. eexists. split; reflexivity. Qed.

(** The loop over the rows, however it ends.  When it returns,
    every row could be resolved and has been.  When it throws, it
    has stopped at the first row that cannot be resolved: the rows
    before it are resolved, that row keeps at most its own new id,
    and the rows after it are not reached. *)
Lemma updateMappings_outcome c : forall rows rows' (r : Outcome unit),
  updateMappings c rows = (rows', r) ->
  match r with
  | Returned _ =>
      Forall (Resolvable (_territory2RecordsByDevName c)) rows
      /\ Forall2 (Resolved (_territory2RecordsByDevName c)) rows rows'
  | Threw e =>
      exists before bad after before' bad',
        rows = before ++ bad :: after
        /\ rows' = before' ++ bad' :: after
        /\ Forall (Resolvable (_territory2RecordsByDevName c)) before
        /\ Forall2 (Resolved (_territory2RecordsByDevName c)) before before'
        /\ FailsAt (_territory2RecordsByDevName c) bad bad' e
  end.
Proof.
  induction rows as [|row rest IH]; intros rows' r; cbn -[truthy].
  - intros [= <- <-]. split; constructor.
  - destruct (decide (territory2DevName row = "")) as [Hempty|Hne].
    { rewrite Hempty. cbn. intros [= <- <-].
      exists [], row, rest, [], row.
      split; [done|]. split; [done|]. split; [constructor|]. split; [constructor|].
      left. by repeat split. }
    destruct (_territory2RecordsByDevName c !! territory2DevName row) as [rec|] eqn:Hrec.
    2: { destruct (lookupTerritory2Id_missing c _ Hne Hrec) as (e & -> & He).
         intros [= <- <-]. exists [], row, rest, [], row.
         split; [done|]. split; [done|]. split; [constructor|]. split; [constructor|].
         right. left. by repeat split. }
    rewrite (lookupTerritory2Id_found _ _ _ Hne Hrec).
    assert (Hstep : forall row1,
              Resolved (_territory2RecordsByDevName c) row row1 ->
              Resolvable (_territory2RecordsByDevName c) row ->
              forall rest' r',
                updateMappings c rest = (rest', r') ->
                match r' with
                | Returned _ =>
                    Forall (Resolvable (_territory2RecordsByDevName c)) (row :: rest)
                    /\ Forall2 (Resolved (_territory2RecordsByDevName c))
                               (row :: rest) (row1 :: rest')
                | Threw e =>
                    exists before bad after before' bad',
                      row :: rest = before ++ bad :: after
                      /\ row1 :: rest' = before' ++ bad' :: after
                      /\ Forall (Resolvable (_territory2RecordsByDevName c)) before
                      /\ Forall2 (Resolved (_territory2RecordsByDevName c)) before before'
                      /\ FailsAt (_territory2RecordsByDevName c) bad bad' e
                end).
    { intros row1 Hres Hable rest' r' Hrest. specialize (IH rest' r' Hrest).
      destruct r' as [u|e].
      - destruct IH as [Hall Hall2]. split; by constructor.
      - destruct IH as (before & bad & after & before' & bad' & -> & -> & Hb & Hb2 & Hf).
        exists (row :: before), bad, after, (row1 :: before'), bad'.
        split; [done|]. split; [done|]. split; [by constructor|]. split; [by constructor|].
        done. }
    destruct (truthy (territory2ParentDevName row)) eqn:Hp.
    + destruct (_territory2RecordsByDevName c !! territory2ParentDevName row)
        as [parent|] eqn:Hparent.
      * rewrite (lookupTerritory2Id_found _ _ _ (truthy_nonempty _ Hp) Hparent).
        destruct (updateMappings c rest) as [rest' r'] eqn:Hrest.
        intros [= <- <-]. eapply Hstep; [| |done].
        -- repeat split; cbn; eauto. rewrite Hp. eauto.
        -- split; [done|]. split; [by eexists|]. intros _. by eexists.
      * destruct (lookupTerritory2Id_missing c _ (truthy_nonempty _ Hp) Hparent)
          as (e & -> & He).
        intros [= <- <-].
        exists [], row, rest, [], (with_territory2Id (Id rec) row).
        split; [done|]. split; [done|]. split; [constructor|]. split; [constructor|].
        right. right. exists rec. by repeat split.
    + destruct (updateMappings c rest) as [rest' r'] eqn:Hrest.
      intros [= <- <-]. eapply Hstep; [| |done].
      * repeat split; cbn; eauto. by rewrite Hp.
      * split; [done|]. split; [by eexists|]. intros Hp'. congruence.
Qed.

End Tm2Properties.

Section Tm2Claims.
Import Tm2.
Context `{Tm2Env}.

Implicit Types (c : Tm2Context) (records : list Territory2Record).

Lemma updateRecordMaps_unfold c records :
  parseTerritory2File (territory2Csv (_tm2FilePaths c)) = Returned records ->
  records <> [] ->
  let c2 := buildT2RecordsByIdMap
              (buildT2RecordsByDevNameMap (with_territory2Records records c)) in
  _territory2RecordsByDevName c2 = rebuiltIndex c records
  /\ _territoryDevNameMappings c2 = _territoryDevNameMappings c
  /\ _updated c2 = _updated c
  /\ updateRecordMaps c
     = match updateMappings c2 (_territoryDevNameMappings c2) with
       | (rows, Threw e) => (with_mappings rows c2, Threw e)
       | (rows, Returned _) =>
           (with_updated true (buildTerritoryDevNameMapByT2Id (with_mappings rows c2)),
            Returned tt)
       end.
Proof.
  intros Hparse Hne. unfold updateRecordMaps. rewrite Hparse. cbn -[updateMappings].
  destruct records; [done|]. repeat split; reflexivity.
Qed.

(** C3.  When [updateRecordMaps] succeeds, the records it has read
    are those of the extract, and every mapping row has been
    resolved against the by-DeveloperName index the call leaves:
    [territory2Id] is the id of the record indexed by the row's
    DeveloperName, [territory2ParentId] the id of the record
    indexed by the DeveloperName of its parent when it has one; an
    indexed name that occurs in the extract is indexed to the
    last extract record of that name. *)
Theorem updateRecordMaps_resolves c c' :
  updateRecordMaps c = (c', Returned tt) ->
  parseTerritory2File (territory2Csv (_tm2FilePaths c)) = Returned (_territory2Records c')
  /\ _updated c' = true
  /\ Forall2 (Resolved (_territory2RecordsByDevName c'))
             (_territoryDevNameMappings c) (_territoryDevNameMappings c')
  /\ forall name rec,
       lastByDevName name (_territory2Records c') = Some rec ->
       _territory2RecordsByDevName c' !! name = Some rec.
Proof.
  intros Hrun.
  destruct (parseTerritory2File (territory2Csv (_tm2FilePaths c))) as [records|e] eqn:Hparse;
    [|unfold updateRecordMaps in Hrun; rewrite Hparse in Hrun; discriminate].
  destruct (decide (records = [])) as [->|Hne];
    [unfold updateRecordMaps in Hrun; rewrite Hparse in Hrun; discriminate|].
  destruct (updateRecordMaps_unfold c records Hparse Hne) as (Hidx & Hrows & _ & Heq).
  rewrite Heq in Hrun. clear Heq.
  set (c2 := buildT2RecordsByIdMap _) in *.
  destruct (updateMappings c2 (_territoryDevNameMappings c2)) as [rows [u|e]] eqn:Hloop;
    [|discriminate].
  injection Hrun as <-.
  apply updateMappings_Returned in Hloop. rewrite Hrows in Hloop.
  split; [reflexivity|]. split; [reflexivity|]. split; [exact Hloop|].
  intros name rec Hlast.
  change (_territory2RecordsByDevName c2 !! name = Some rec).
  rewrite Hidx. unfold rebuiltIndex.
  rewrite rebuiltIndex_lookup.
  change (_territory2Records (with_updated true _)) with records in Hlast.
  by rewrite Hlast.
Qed.

(** When every row can be resolved in the rebuilt index,
    [updateRecordMaps] succeeds. *)
Lemma updateRecordMaps_succeeds c records :
  parseTerritory2File (territory2Csv (_tm2FilePaths c)) = Returned records ->
  records <> [] ->
  Forall (Resolvable (rebuiltIndex c records)) (_territoryDevNameMappings c) ->
  exists c', updateRecordMaps c = (c', Returned tt).
Proof.
  intros Hparse Hne Hall.
  destruct (updateRecordMaps_unfold c records Hparse Hne) as (Hidx & Hrows & _ & ->).
  set (c2 := buildT2RecordsByIdMap _) in *.
  rewrite <- Hidx, <- Hrows in Hall.
  destruct (updateMappings_total c2 _ Hall) as [rows ->]. by eexists.
Qed.

(** C2, as the code has it.  (1) An extract without records makes
    [updateRecordMaps] fail with [CsvFileEmpty], and the mapping
    rows and the [_updated] flag are as before.  (2) When the
    extract has records and the call throws, it has stopped at the
    first mapping row that cannot be resolved in the rebuilt index:
    with the error named [TypeError] when the DeveloperName of that
    row is empty, and with [DeveloperNameNotFound] when that name,
    or the name of the parent, is not indexed.  [_updated] is as it
    was; the rows before that row have been resolved, the rows
    after it are untouched, and that row has at most its own id
    assigned.  (3) The call returns exactly when every mapping row
    can be resolved. *)
Theorem updateRecordMaps_failures c :
  (parseTerritory2File (territory2Csv (_tm2FilePaths c)) = Returned [] ->
   exists c' e,
     updateRecordMaps c = (c', Threw e)
     /\ errorName e = "CsvFileEmpty"
     /\ _territoryDevNameMappings c' = _territoryDevNameMappings c
     /\ _updated c' = _updated c)
  /\ (forall records c' e,
        parseTerritory2File (territory2Csv (_tm2FilePaths c)) = Returned records ->
        records <> [] ->
        updateRecordMaps c = (c', Threw e) ->
        _updated c' = _updated c
        /\ exists before bad after before' bad',
             _territoryDevNameMappings c = before ++ bad :: after
             /\ _territoryDevNameMappings c' = before' ++ bad' :: after
             /\ Forall (Resolvable (rebuiltIndex c records)) before
             /\ Forall2 (Resolved (rebuiltIndex c records)) before before'
             /\ FailsAt (rebuiltIndex c records) bad bad' e)
  /\ (forall records,
        parseTerritory2File (territory2Csv (_tm2FilePaths c)) = Returned records ->
        records <> [] ->
        ((exists c', updateRecordMaps c = (c', Returned tt))
         <-> Forall (Resolvable (rebuiltIndex c records)) (_territoryDevNameMappings c))).
Proof.
  split; [|split].
  - intros Hparse. unfold updateRecordMaps. rewrite Hparse. cbn.
    do 2 eexists. repeat split; reflexivity.
  - intros records c' e Hparse Hne.
    destruct (updateRecordMaps_unfold c records Hparse Hne) as (Hidx & Hrows' & Hupd & ->).
    set (c2 := buildT2RecordsByIdMap _) in *.
    rewrite <- Hidx, <- Hrows'.
    destruct (updateMappings c2 (_territoryDevNameMappings c2)) as [rows [u|e']] eqn:Hloop;
      [discriminate|].
    intros [= <- <-]. split; [exact Hupd|].
    exact (updateMappings_outcome c2 _ _ _ Hloop).
  - intros records Hparse Hne.
    destruct (updateRecordMaps_unfold c records Hparse Hne) as (Hidx & Hrows' & _ & Heq).
    set (c2 := buildT2RecordsByIdMap _) in *.
    rewrite <- Hidx, <- Hrows'. split.
    + intros [c' Hrun]. rewrite Heq in Hrun.
      destruct (updateMappings c2 (_territoryDevNameMappings c2)) as [rows [u|e']] eqn:Hloop;
        [|discriminate].
      exact (proj1 (updateMappings_outcome c2 _ _ _ Hloop)).
    + intros Hall. rewrite Heq.
      destruct (updateMappings_total c2 _ Hall) as [rows ->]. by eexists.
Qed.

(** The guard of [buildUserT2AssociationRecords] and of
    [buildObjectT2AssociationRecords]. *)
Lemma buildUserT2AssociationRecords_guard c :
  _userTerritory2AssociationRecords c <> [] ->
  exists e, buildUserT2AssociationRecords c = (c, Threw e)
            /\ errorName e = "RecordBuildError".
Proof.
  intros Hne. unfold buildUserT2AssociationRecords.
  destruct (_userTerritory2AssociationRecords c); [done|]. cbn. eauto.
Qed.

Lemma buildObjectT2AssociationRecords_guard c :
  _objectTerritory2AssociationRecords c <> [] ->
  exists e, buildObjectT2AssociationRecords c = (c, Threw e)
            /\ errorName e = "RecordBuildError".
Proof.
  intros Hne. unfold buildObjectT2AssociationRecords.
  destruct (_objectTerritory2AssociationRecords c); [done|]. cbn. eauto.
Qed.

End Tm2Claims.

(** The example of the specification: rows T1 (DevA) and T2 (DevB,
    child of DevA), and an extract with DevA as D001 and DevB as
    D002. *)
Lemma updateRecordMaps_resolves_witness :
  Tm2.updateRecordMaps (H := Examples.afterDeployment) Examples.preparedContext
  = (Examples.updatedContext, Returned tt)
  /\ Tm2._updated Examples.updatedContext = true
  /\ Forall2 (Resolved (Tm2._territory2RecordsByDevName Examples.updatedContext))
             (Tm2._territoryDevNameMappings Examples.preparedContext)
             (Tm2._territoryDevNameMappings Examples.updatedContext).
Proof.
  assert (Hrun : Tm2.updateRecordMaps (H := Examples.afterDeployment) Examples.preparedContext
                 = (Examples.updatedContext, Returned tt)) by (vm_compute; reflexivity).
  split; [exact Hrun|].
  destruct (updateRecordMaps_resolves (H := Examples.afterDeployment)
              Examples.preparedContext Examples.updatedContext Hrun)
    as (_ & Hupdated & Hrows & _).
  split; [exact Hupdated | exact Hrows].
Defined.

(** The identifiers of that example, computed. *)
Example updateRecordMaps_example :
  Tm2._territoryDevNameMappings Examples.updatedContext
  = [ Tm2.MkMapping "T1" "DevA" "" "D001" "";
      Tm2.MkMapping "T2" "DevB" "DevA" "D002" "D001" ].
Proof. vm_compute. reflexivity. Qed.

(** Both failures on the examples: the extract without records, and
    the extract that lacks the record of the second row. *)
Lemma updateRecordMaps_failures_witness :
  (exists c' e,
     Tm2.updateRecordMaps (H := Examples.emptyAfter) Examples.preparedContext = (c', Threw e)
     /\ errorName e = "CsvFileEmpty"
     /\ Tm2._territoryDevNameMappings c' = Tm2._territoryDevNameMappings Examples.preparedContext
     /\ Tm2._updated c' = Tm2._updated Examples.preparedContext)
  /\ (let after := Tm2.updateRecordMaps (H := Examples.partialAfter)
                                        Examples.partialContext in
      thrownName after.2 = Some "DeveloperNameNotFound"
      /\ Tm2._updated after.1 = Tm2._updated Examples.partialContext
      /\ exists before bad after' before' bad' e,
           Tm2._territoryDevNameMappings Examples.partialContext = before ++ bad :: after'
           /\ Tm2._territoryDevNameMappings after.1 = before' ++ bad' :: after'
           /\ Forall2 (Resolved (rebuiltIndex Examples.partialContext [Examples.recordA]))
                      before before'
           /\ FailsAt (rebuiltIndex Examples.partialContext [Examples.recordA]) bad bad' e).
Proof.
  split.
  - exact (proj1 (updateRecordMaps_failures (H := Examples.emptyAfter) Examples.preparedContext)
                 eq_refl).
  - intros after. split; [vm_compute; reflexivity|].
    destruct after as [c' [u|e]] eqn:Hafter; [vm_compute in Hafter; discriminate|].
    destruct (proj1 (proj2 (updateRecordMaps_failures (H := Examples.partialAfter)
                              Examples.partialContext))
                    [Examples.recordA] c' e)
      as (Hupdated & before & bad & after' & before' & bad' & Hrows & Hrows' & _ & Hres & Hfail).
    + vm_compute. reflexivity.
    + discriminate.
    + exact Hafter.
    + split; [exact Hupdated|]. exists before, bad, after', before', bad', e. by repeat split.
Defined.

(** C2 as stated fails.  The mapping table has the rows of DevA and
    DevX and the extract has the record of DevA only:
    [updateRecordMaps] fails with [DeveloperNameNotFound] on the
    second row, and the first row has kept the id D001 that was
    assigned to it before the failure. *)
Lemma updateRecordMaps_half_updates :
  let after := Tm2.updateRecordMaps (H := Examples.partialAfter) Examples.partialContext in
  thrownName after.2 = Some "DeveloperNameNotFound"
  /\ Tm2._territoryDevNameMappings Examples.partialContext
     = [ Tm2.MkMapping "T1" "DevA" "" "" ""; Tm2.MkMapping "T3" "DevX" "" "" "" ]
  /\ Tm2._territoryDevNameMappings after.1
     = [ Tm2.MkMapping "T1" "DevA" "" "D001" ""; Tm2.MkMapping "T3" "DevX" "" "" "" ]
  /\ Tm2._territoryDevNameMappings after.1
     <> Tm2._territoryDevNameMappings Examples.partialContext.
Proof. vm_compute. repeat split; try reflexivity. discriminate. Qed.

(** A row that holds a placeholder for an indexed DeveloperName is
    returned with the id under the key [territory2Id]; the key that
    was read, [Territory2Id], still holds the placeholder. *)
Lemma transformPendingT2Id_placeholder (c : Tm2.Tm2Context) (data : gmap string string)
    (devName : string) (rec : Tm2.Territory2Record) :
  Tm2._updated c = true ->
  data !! "Territory2Id" = Some ("T2ID_PENDING_" +:+ devName) ->
  data !! "territory2Id" <> Some "" ->
  devName <> "" ->
  Tm2._territory2RecordsByDevName c !! devName = Some rec ->
  Tm2.Id rec <> "" ->
  Tm2.transformPendingT2Id c data = Returned (<["territory2Id" := Tm2.Id rec]> data)
  /\ <["territory2Id" := Tm2.Id rec]> data !! "Territory2Id"
     = Some ("T2ID_PENDING_" +:+ devName).
Proof.
  intros Hupd Hread Hnot Hne Hidx Hid.
  assert (Hsub : forall s, String.substring 0 (String.length s) s = s)
    by (induction s as [|a s IH]; simpl; [|rewrite IH]; reflexivity).
  split; [|by rewrite lookup_insert_ne].
  unfold Tm2.transformPendingT2Id, Tm2.isUpdated. rewrite Hupd, Hread. cbn [negb].
  rewrite bool_decide_eq_false_2 by done.
  unfold Tm2.getConvertedT2Id.
  change (startsWith "T2ID_PENDING_" ("T2ID_PENDING_" +:+ devName)) with (String.prefix "" devName).
  assert (Hpre : String.prefix "" devName = true) by (destruct devName; reflexivity).
  rewrite Hpre. cbn [negb].
  assert (Hlen : String.length ("T2ID_PENDING_" +:+ devName) - 13 = String.length devName)
    by (change (String.length ("T2ID_PENDING_" +:+ devName)) with (13 + String.length devName);
        lia).
  assert (Hname : substringFrom 13 ("T2ID_PENDING_" +:+ devName) = devName)
    by (unfold substringFrom; rewrite Hlen; exact (Hsub devName)).
  rewrite Hname, (lookupTerritory2Id_found _ _ _ Hne Hidx).
  unfold truthy. destruct (String.eqb_spec (Tm2.Id rec) ""); [done | reflexivity].
Qed.

(** C1, on the example.  The context has been updated and indexes
    DevB to the record D002; the intermediate file has one row
    whose [Territory2Id] is [T2ID_PENDING_DevB].
    [buildUserT2AssociationRecords] transforms no row: the handler
    it hands to the CSV module is not bound to the context, the
    call on the first row throws a [TypeError], and the context is
    left as it was, without a record.  And the handler called as a
    method of the context returns that row with the placeholder
    still in [Territory2Id]: it puts the id D002 under a second key,
    [territory2Id]. *)
Theorem buildUserT2AssociationRecords_transforms_no_row :
  let after := Tm2.buildUserT2AssociationRecords (H := Examples.afterDeployment)
                                                 Examples.updatedContext in
  Tm2._updated Examples.updatedContext = true
  /\ Tm2._territory2RecordsByDevName Examples.updatedContext !! "DevB" = Some Examples.recordB
  /\ Tm2.readRows (Tm2Env := Examples.afterDeployment)
       (Tm2.userTerritory2AssociationIntermediateCsv
          (Tm2._tm2FilePaths Examples.updatedContext))
     = Returned [Examples.pendingRow]
  /\ Examples.pendingRow !! "Territory2Id" = Some "T2ID_PENDING_DevB"
  /\ thrownName after.2 = Some "TypeError"
  /\ after.1 = Examples.updatedContext
  /\ Tm2._userTerritory2AssociationRecords after.1 = []
  /\ exists row,
       Tm2.transformPendingT2Id Examples.updatedContext Examples.pendingRow = Returned row
       /\ row !! "Territory2Id" = Some "T2ID_PENDING_DevB"
       /\ row !! "territory2Id" = Some "D002"
       /\ startsWith "T2ID_PENDING_" (default "" (row !! "Territory2Id")) = true.
Proof.
  vm_compute. repeat split; try reflexivity.
  eexists. repeat split; reflexivity.
Qed.

Section OneShotClaims.
Import Model Tm2.
Context {Opts Derived : Type} `{ModelImpl Opts Derived} `{Tm2Env}.

(** C7.  [build] and [load] on an instance that is ready throw
    [BuildError] and [LoadingError], and
    [buildUserT2AssociationRecords] on a context that holds one or
    more user association records throws [RecordBuildError]; in
    each case the instance after the call is the instance before
    it. *)
Theorem one_shot_calls_fail_without_mutation
    (m : SfdxFalconModel Opts Derived) (opts : option Opts) (c : Tm2Context) :
  ready (_state m) = true ->
  _userTerritory2AssociationRecords c <> [] ->
  (exists e, build opts m = (m, Threw e) /\ errorName e = "BuildError")
  /\ (exists e, load opts m = (m, Threw e) /\ errorName e = "LoadingError")
  /\ (exists e, buildUserT2AssociationRecords c = (c, Threw e)
                /\ errorName e = "RecordBuildError").
Proof.
  intros Hr Hrecords. split; [|split].
  - unfold build. rewrite Hr. eexists; split; reflexivity.
  - unfold load. rewrite Hr. eexists; split; reflexivity.
  - by apply buildUserT2AssociationRecords_guard.
Qed.

End OneShotClaims.

(** A model that has been built, and the updated context with one
    user association record in its member: the second call of
    [build] and of [load], and the call of
    [buildUserT2AssociationRecords], fail and change nothing. *)
Lemma one_shot_calls_fail_without_mutation_witness :
  let m := (Model.build (H := Examples.countingModel) None (Examples.freshModel true)).1 in
  let c := Tm2.with_userRecords [<["territory2Id" := "D002"]> Examples.pendingRow]
                                Examples.updatedContext in
  Model.ready (Model._state m) = true
  /\ Tm2._userTerritory2AssociationRecords c <> []
  /\ (exists e, Model.build (H := Examples.countingModel) (Some ["again"]) m = (m, Threw e)
                /\ errorName e = "BuildError")
  /\ (exists e, Model.load (H := Examples.countingModel) (Some ["again"]) m = (m, Threw e)
                /\ errorName e = "LoadingError")
  /\ (exists e, Tm2.buildUserT2AssociationRecords (H := Examples.afterDeployment) c
                = (c, Threw e)
                /\ errorName e = "RecordBuildError").
Proof.
  intros m c.
  assert (Hready : Model.ready (Model._state m) = true) by reflexivity.
  assert (Hrecords : Tm2._userTerritory2AssociationRecords c <> [])
    by (vm_compute; discriminate).
  split; [exact Hready|]. split; [exact Hrecords|].
  exact (one_shot_calls_fail_without_mutation (H := Examples.countingModel)
           (H0 := Examples.afterDeployment) m (Some ["again"]) c Hready Hrecords).
Defined.

(** * Properties of the TM1 analysis *)

(** C10.  The prototype chain of a [Tm1Analysis] has no member
    [checkPrepared]; the constructor sets [_prepared] to [true]; and
    reading any of the sixteen accessors that call
    [this.checkPrepared()] throws the [TypeError] of a call of
    [undefined], for every instance, so that neither the stored
    value nor the [AnalysisNotPrepared] error is ever seen. *)
Theorem accessors_throw_TypeError :
  forall (this : Analysis.Tm1Analysis) (a : Analysis.Accessor),
    Analysis.lookupMember "checkPrepared" = None
    /\ (forall alias paths delay date,
          Analysis.prepared (Analysis.construct alias paths delay date) = Some true)
    /\ Analysis.readAccessor a this = Threw (TypeError "this.checkPrepared is not a function")
    /\ thrownName (Analysis.readAccessor a this) = Some "TypeError".
Proof.
  intros this a. split; [reflexivity|]. split; [reflexivity|]. split; reflexivity.
Qed.

(** * Properties of the TM1 context *)

Section SharingRuleProperties.
Import Tm1.

(** The member a document was built with is the member that is
    read back. *)
Lemma prop_head (k : string) (j : Json) (others : list (string * Json)) :
  prop (JObject ((k, j) :: others)) k = Some j.
Proof. unfold prop. cbn. by rewrite decide_True. Qed.

(** The owner-based and the territory-based branch treat one rule
    like an array of that rule. *)
Lemma parseWrappedRules_singleton (k : string) (members : list (string * Json))
    (others : list (string * Json)) :
  parseWrappedRules k (JObject ((k, JObject members) :: others))
  = parseWrappedRules k (JObject ((k, JArray [JObject members]) :: others)).
Proof. unfold parseWrappedRules. rewrite !prop_head. reflexivity. Qed.

(** So does the normalisation of the criteria items of a rule. *)
Lemma criteriaItemsOf_singleton (item : list (string * Json)) (others : list (string * Json)) :
  criteriaItemsOf (JObject (("criteriaItems", JObject item) :: others))
  = criteriaItemsOf (JObject (("criteriaItems", JArray [JObject item]) :: others)).
Proof. unfold criteriaItemsOf. rewrite !prop_head. reflexivity. Qed.

(** The criteria-based branch does not: one rule, territory related
    or not, reaches the loop as an object and the loop throws. *)
Lemma parseCriteriaRules_singleton (members : list (string * Json))
    (others : list (string * Json)) :
  parseCriteriaRules (JObject (("sharingCriteriaRules", JObject members) :: others))
  = Threw (TypeError "object is not iterable").
Proof. unfold parseCriteriaRules. rewrite !prop_head. reflexivity. Qed.

End SharingRuleProperties.

(** C6, on the example.  A document with exactly one criteria-based
    rule, which shares with a territory, is not parsed: the branch
    for the criteria-based rules throws a [TypeError].  The same rule
    inside an array is parsed to one rule with its one criteria
    item. *)
Theorem single_criteria_rule_is_not_normalised :
  Tm1.parseSharingRulesFromJson Examples.oneCriteriaRule
  = Threw (TypeError "object is not iterable")
  /\ exists parsed,
       Tm1.parseSharingRulesFromJson Examples.oneCriteriaRuleInArray
       = Returned (Tm1.MkSharingRules [parsed] [] [])
       /\ Tm1.fullName parsed = Some (Tm1.JText "Share_West")
       /\ Tm1.sharedTo parsed
          = Some (Tm1.MkSharingGroup (Some "territory") (Some (Tm1.JText "West")))
       /\ Tm1.criteriaItems parsed
          = Some [Tm1.MkFilterItem (Some (Tm1.JText "Region__c")) (Some (Tm1.JText "equals"))
                                   (Some (Tm1.JText "West")) None].
Proof.
  split; [vm_compute; reflexivity|].
  eexists. split; [vm_compute; reflexivity|]. repeat split; reflexivity.
Qed.

Section ValidationProperties.
Import Tm1.
Context `{Tm1Env}.

Implicit Types (c : Tm1Context) (report : TM1AnalysisReport).

(** The five arrays of a context. *)
Definition extractOf c : ExtractedRecords :=
  MkExtractedRecords (_territoryRecords c) (_ataRuleRecords c) (_ataRuleItemRecords c)
                     (_userTerritoryRecords c) (_accountShareRecords c).

(** When [parseCsvFiles] returns, the five arrays are what the
    reader made of the five files of the context. *)
Lemma parseCsvFiles_Returned c c1 u :
  parseCsvFiles c = (c1, Returned u) ->
  parseTerritoryFile (territoryCsv (_tm1FilePaths c)) = Returned (_territoryRecords c1)
  /\ parseAtaRuleFile (ataRuleCsv (_tm1FilePaths c)) = Returned (_ataRuleRecords c1)
  /\ parseAtaRuleItemFile (ataRuleItemCsv (_tm1FilePaths c))
     = Returned (_ataRuleItemRecords c1)
  /\ parseUserTerritoryFile (userTerritoryCsv (_tm1FilePaths c))
     = Returned (_userTerritoryRecords c1)
  /\ parseAccountShareFile (accountShareCsv (_tm1FilePaths c))
     = Returned (_accountShareRecords c1).
Proof.
  unfold parseCsvFiles.
  destruct (parseAccountShareFile _) as [shares|]; [|discriminate].
  destruct (parseAtaRuleFile _) as [rules|]; [|discriminate].
  destruct (parseAtaRuleItemFile _) as [items|]; [|discriminate].
  destruct (parseTerritoryFile _) as [territories|]; [|discriminate].
  destruct (parseUserTerritoryFile _) as [users|]; [|discriminate].
  intros [= <- _]. repeat split; reflexivity.
Qed.

(** [parseXmlFiles] assigns the sharing rules only. *)
Lemma parseXmlFiles_extract c : extractOf (parseXmlFiles c).1 = extractOf c.
Proof.
  unfold parseXmlFiles.
  destruct (parseSharingRulesFile "Account" _ c); [|reflexivity].
  destruct (parseSharingRulesFile "Lead" _ c); [|reflexivity].
  destruct (parseSharingRulesFile "Opportunity" _ c); reflexivity.
Qed.

(** For each kind, the count the analysis expects is the number of
    records of the extract. *)
Definition CountsAgree (expected : TM1RecordCounts) (extracted : ExtractedRecords) : Prop :=
  territoryRecordCount expected = Z.of_nat (length (extractedTerritoryRecords extracted))
  /\ ataRuleRecordCount expected = Z.of_nat (length (extractedAtaRuleRecords extracted))
  /\ ataRuleItemRecordCount expected
     = Z.of_nat (length (extractedAtaRuleItemRecords extracted))
  /\ userTerritoryRecordCount expected
     = Z.of_nat (length (extractedUserTerritoryRecords extracted))
  /\ accountShareRecordCount expected
     = Z.of_nat (length (extractedAccountShareRecords extracted)).

Definition AllValid (st : ValidationStatus) : Prop :=
  territoryExtractionIsValid st = true
  /\ ataRuleExtractionIsValid st = true
  /\ ataRuleItemExtractionIsValid st = true
  /\ userTerritoryExtractionIsValid st = true
  /\ accountShareExtractionIsValid st = true.

Lemma countMatches_true {A} (expected : Z) (array : list A) :
  countMatches expected array = true <-> expected = Z.of_nat (length array).
Proof. unfold countMatches. apply Z.eqb_eq. Qed.

(** C9.  When [validate] returns a report, the report is the one
    made from a context that the call has constructed itself for
    the two directories and filled by [parseCsvFiles] and
    [parseXmlFiles]; the records of the report are what the reader
    makes of the five files under the data directory; each status
    flag is true exactly when the expected count of its own kind
    equals the number of those records; and so all five flags are
    true exactly when all five counts agree. *)
Theorem validate_compares_counts report (tm1MetadataDir tm1DataDir : string)
    (v : TM1ContextValidation) :
  validate report tm1MetadataDir tm1DataDir = Returned v ->
  let expected := tm1RecordCounts report in
  let extracted := records v in
  (exists c1 c2,
     parseCsvFiles (construct tm1MetadataDir tm1DataDir) = (c1, Returned tt)
     /\ parseXmlFiles c1 = (c2, Returned tt)
     /\ v = validationOf report c2)
  /\ (parseTerritoryFile (pathJoin [tm1DataDir; "Territory.csv"])
        = Returned (extractedTerritoryRecords extracted)
      /\ parseAtaRuleFile (pathJoin [tm1DataDir; "AccountTerritoryAssignmentRule.csv"])
         = Returned (extractedAtaRuleRecords extracted)
      /\ parseAtaRuleItemFile (pathJoin [tm1DataDir; "AccountTerritoryAssignmentRuleItem.csv"])
         = Returned (extractedAtaRuleItemRecords extracted)
      /\ parseUserTerritoryFile (pathJoin [tm1DataDir; "UserTerritory.csv"])
         = Returned (extractedUserTerritoryRecords extracted)
      /\ parseAccountShareFile (pathJoin [tm1DataDir; "AccountShare.csv"])
         = Returned (extractedAccountShareRecords extracted))
  /\ (territoryExtractionIsValid (status v) = true
      <-> territoryRecordCount expected
          = Z.of_nat (length (extractedTerritoryRecords extracted)))
  /\ (ataRuleExtractionIsValid (status v) = true
      <-> ataRuleRecordCount expected
          = Z.of_nat (length (extractedAtaRuleRecords extracted)))
  /\ (ataRuleItemExtractionIsValid (status v) = true
      <-> ataRuleItemRecordCount expected
          = Z.of_nat (length (extractedAtaRuleItemRecords extracted)))
  /\ (userTerritoryExtractionIsValid (status v) = true
      <-> userTerritoryRecordCount expected
          = Z.of_nat (length (extractedUserTerritoryRecords extracted)))
  /\ (accountShareExtractionIsValid (status v) = true
      <-> accountShareRecordCount expected
          = Z.of_nat (length (extractedAccountShareRecords extracted)))
  /\ (AllValid (status v) <-> CountsAgree expected extracted).
Proof.
  unfold validate. intros Hv.
  destruct (parseCsvFiles _) as [c1 [[]|e]] eqn:Hcsv; [|discriminate].
  destruct (parseXmlFiles c1) as [c2 [[]|e]] eqn:Hxml; [|discriminate].
  injection Hv as <-.
  pose proof (parseXmlFiles_extract c1) as Hsame. rewrite Hxml in Hsame.
  injection Hsame as Ht Hr Hi Hu Hs.
  apply parseCsvFiles_Returned in Hcsv
    as (Hpt & Hpr & Hpi & Hpu & Hps).
  cbn in Hpt, Hpr, Hpi, Hpu, Hps |- *.
  rewrite Ht, Hr, Hi, Hu, Hs.
  split; [by exists c1, c2|].
  split; [done|].
  unfold AllValid, CountsAgree; cbn.
  rewrite !countMatches_true. tauto.
Qed.

(** When the five files and the sharing rules can be read,
    [validate] returns. *)
Lemma validate_returns report (tm1MetadataDir tm1DataDir : string) c1 c2 :
  parseCsvFiles (construct tm1MetadataDir tm1DataDir) = (c1, Returned tt) ->
  parseXmlFiles c1 = (c2, Returned tt) ->
  validate report tm1MetadataDir tm1DataDir = Returned (validationOf report c2).
Proof. intros Hcsv Hxml. unfold validate. by rewrite Hcsv, Hxml. Qed.

End ValidationProperties.

(** The analysis expects three territories and the extract has two:
    only the flag of the territories is false. *)
Lemma validate_compares_counts_witness :
  exists v,
    Tm1.validate (H := Examples.extraction) Examples.analysis "metadata" "data" = Returned v
    /\ Tm1.status v = Tm1.MkValidationStatus false true true true true
    /\ (AllValid (Tm1.status v)
        <-> CountsAgree (Tm1.tm1RecordCounts Examples.analysis) (Tm1.records v)).
Proof.
  eexists. split; [vm_compute; reflexivity|].
  split; [reflexivity|].
  refine (proj2 (proj2 (proj2 (proj2 (proj2 (proj2 (proj2
            (validate_compares_counts (H := Examples.extraction)
               Examples.analysis "metadata" "data" _ _)))))))).
  vm_compute; reflexivity.
Defined.

(** ** Developer names of the assignment rules *)

Section DecimalText.

Lemma string_of_uint_length (d : Decimal.uint) :
  String.length (NilEmpty.string_of_uint d) = Decimal.nb_digits d.
Proof. induction d; simpl; congruence. Qed.

(** Different numbers have different decimal texts. *)
Lemma toString_inj (a b : N) : toString a = toString b -> a = b.
Proof.
  unfold toString. intros Heq.
  apply DecimalN.Unsigned.to_uint_inj.
  assert (Hsome : Some (N.to_uint a) = Some (N.to_uint b))
    by (rewrite <- !NilEmpty.usu; by rewrite Heq).
  by injection Hsome.
Qed.

(** The decimal text of a number has at least one digit. *)
Lemma toString_nonempty (n : N) : 1 <= String.length (toString n).
Proof.
  unfold toString. rewrite string_of_uint_length.
  assert (Hnil : N.to_uint n <> Decimal.Nil).
  { destruct n as [|p]; [discriminate|]. apply DecimalPos.Unsigned.to_uint_nonnil. }
  destruct (Decimal.nb_digits (N.to_uint n)) eqn:E; [|lia].
  by apply DecimalFacts.nb_digits_0 in E.
Qed.





End DecimalText.

Section TextLemmas.

Lemma string_length_app (a b : string) :
  String.length (a +:+ b) = String.length a + String.length b.
Proof. induction a as [|x a IH]; simpl; [reflexivity | by rewrite IH]. Qed.


End TextLemmas.

Section DeveloperNames.
Import Tm1.

Implicit Types (names : gmap string string) (base name : string) (k j : N).

Lemma matchAtaRuleDeveloperName_true names name :
  matchAtaRuleDeveloperName names name = true <-> name ∈ devNameValues names.
Proof. unfold matchAtaRuleDeveloperName. apply bool_decide_eq_true. Qed.

Lemma matchAtaRuleDeveloperName_false names name :
  matchAtaRuleDeveloperName names name = false <-> name ∉ devNameValues names.
Proof. unfold matchAtaRuleDeveloperName. apply bool_decide_eq_false. Qed.

(** A name is among the values exactly when some rule has it. *)
Lemma elem_of_devNameValues names name :
  name ∈ devNameValues names <-> exists id, names !! id = Some name.
Proof.
  unfold devNameValues. rewrite list_elem_of_fmap. split.
  - intros ([id v] & -> & Hin). exists id. by apply elem_of_map_to_list in Hin.
  - intros [id Hid]. exists (id, name). split; [reflexivity|].
    by apply elem_of_map_to_list.
Qed.


Lemma suffixedName_suffix base k :
  String.length (toString k) <= String.length (suffixedName base k).
Proof. unfold suffixedName. rewrite string_length_app. lia. Qed.

(** Two counters whose texts have the same length give different
    names. *)
Lemma suffixedName_inj base k j :
  suffixedName base k = suffixedName base j ->
  String.length (toString k) = String.length (toString j) ->
  k = j.
Proof.
  unfold suffixedName. intros Heq Hlen. rewrite Hlen in Heq.
  apply toString_inj. by eapply (inj (String.app _)).
Qed.

(** A loop that is cut off has only seen names in use. *)
Lemma findDeveloperName_None names base : forall fuel name k,
  findDeveloperName fuel names base name k = None ->
  (name ∈ devNameValues names)
  /\ (forall j, (k <= j < k + N.of_nat fuel)%N ->
                suffixedName base j ∈ devNameValues names).
Proof.
  induction fuel as [|fuel IH]; intros name k; simpl;
    destruct (matchAtaRuleDeveloperName names name) eqn:Hm; simpl; try discriminate.
  - intros _. split; [by apply matchAtaRuleDeveloperName_true|]. intros j Hj. lia.
  - intros Hnone. apply IH in Hnone as [Hk Hrest].
    split; [by apply matchAtaRuleDeveloperName_true|].
    intros j Hj. destruct (decide (j = k)) as [->|Hne]; [done|].
    apply Hrest. lia.
Qed.

(** The name the loop ends with: it is not in use, and it is the
    name the loop was entered with when that one is not in use,
    and otherwise the name of the first counter, counting up from
    the one the loop was entered with, whose name is not in use. *)
Definition LoopResult names base (name : string) k (result : string) : Prop :=
  (result ∉ devNameValues names)
  /\ (((name ∉ devNameValues names) /\ result = name)
      \/ ((name ∈ devNameValues names)
          /\ exists j, (k <= j)%N
                       /\ result = suffixedName base j
                       /\ forall i, (k <= i < j)%N ->
                                    suffixedName base i ∈ devNameValues names)).

Lemma findDeveloperName_Some names base : forall fuel name k result,
  findDeveloperName fuel names base name k = Some result ->
  LoopResult names base name k result
  /\ (result = name \/ exists j, (k <= j < k + N.of_nat fuel)%N
                                 /\ result = suffixedName base j).
Proof.
  induction fuel as [|fuel IH]; intros name k result; simpl;
    destruct (matchAtaRuleDeveloperName names name) eqn:Hm; simpl; try discriminate.
  - intros [= <-]. apply matchAtaRuleDeveloperName_false in Hm.
    split; [split; [done | by left] | by left].
  - intros Hsome. apply matchAtaRuleDeveloperName_true in Hm.
    apply IH in Hsome as [[Hfree Hcase] Hrange].
    split.
    + split; [done|]. right. split; [done|].
      destruct Hcase as [[_ ->] | (Hused & j & Hj & -> & Hbelow)].
      * exists k. split; [lia|]. split; [reflexivity|]. intros i Hi. lia.
      * exists j. split; [lia|]. split; [reflexivity|].
        intros i Hi. destruct (decide (i = k)) as [->|Hne]; [done|].
        apply Hbelow. lia.
    + right. destruct Hrange as [-> | (j & Hj & ->)].
      * exists k. split; [lia | reflexivity].
      * exists j. split; [lia | reflexivity].
  - intros [= <-]. apply matchAtaRuleDeveloperName_false in Hm.
    split; [split; [done | by left] | by left].
Qed.

(** The pairs of a name in use and a length up to its own. *)
Definition suffixSlots (values : list string) : list (string * nat) :=
  values ≫= fun v => (fun n => (v, n)) <$> seq 1 (String.length v).

Lemma length_suffixSlots (values : list string) :
  length (suffixSlots values) = sum_list (String.length <$> values).
Proof.
  unfold suffixSlots. induction values as [|v values IH]; [reflexivity|].
  cbn. rewrite length_app, length_fmap, length_seq. unfold suffixSlots in IH. by rewrite IH.
Qed.

(** If the names of [fuel] counters in a row are all in use, then
    the names in use have at least [fuel] characters together:
    a name in use can be the name of at most one counter for each
    length of the counter's text, and that text is an end of the
    name. *)
Lemma colliding_counters_bound names base k (fuel : nat) :
  (forall j, (k <= j < k + N.of_nat fuel)%N -> suffixedName base j ∈ devNameValues names) ->
  fuel <= sum_list (String.length <$> devNameValues names).
Proof.
  intros Hall.
  set (counters := (fun i => (k + N.of_nat i)%N) <$> seq 0 fuel).
  set (slot := fun j => (suffixedName base j, String.length (toString j))).
  assert (Hcounters : forall j, j ∈ counters -> (k <= j < k + N.of_nat fuel)%N).
  { intros j Hj. apply list_elem_of_fmap in Hj as (i & -> & Hi).
    apply elem_of_seq in Hi. lia. }
  assert (Hnodup : NoDup (slot <$> counters)).
  { apply NoDup_fmap_2_strong.
    - intros a b _ _ [= Hname Hlen]. by eapply suffixedName_inj.
    - apply NoDup_fmap_2; [|apply NoDup_seq]. intros a b Hab. lia. }
  assert (Hsub : forall x, x ∈ slot <$> counters -> x ∈ suffixSlots (devNameValues names)).
  { intros x Hx. apply list_elem_of_fmap in Hx as (j & -> & Hj).
    unfold suffixSlots. apply list_elem_of_bind.
    exists (suffixedName base j). split; [|by apply Hall, Hcounters].
    apply list_elem_of_fmap. exists (String.length (toString j)). split; [reflexivity|].
    apply elem_of_seq.
    pose proof (toString_nonempty j). pose proof (suffixedName_suffix base j). lia. }
  pose proof (submseteq_length _ _ (NoDup_submseteq _ _ Hnodup Hsub)) as Hlen.
  rewrite length_fmap, length_suffixSlots in Hlen.
  unfold counters in Hlen. by rewrite length_fmap, length_seq in Hlen.
Qed.

(** The loop of [addAtaRuleDeveloperName] ends within
    [enoughRounds] rounds. *)
Lemma findDeveloperName_total names base :
  is_Some (findDeveloperName (enoughRounds names) names base base 2).
Proof.
  destruct (findDeveloperName _ names base base 2) eqn:Hrun; [by eexists|].
  apply findDeveloperName_None in Hrun as [_ Hall].
  apply colliding_counters_bound in Hall. unfold enoughRounds in Hall. lia.
Qed.





End DeveloperNames.

Section DeveloperNameClaims.
Import Tm1.
Context `{Tm1Env}.

Implicit Types (names : gmap string string) (c : Tm1Context) (rule : AtaRuleRecord).

(** No two rules have the same developer name. *)
Definition Distinct names : Prop :=
  forall id1 id2 name, names !! id1 = Some name -> names !! id2 = Some name -> id1 = id2.



(** How the name of a rule comes about from the names in use: it is
    the base name when that is not in use; otherwise it is the
    base name cut to the limit less the length of a decimal
    counter and followed by that counter, for the first counter
    from 2 upwards that gives a name not in use. *)
Definition Assigned names (baseDevName newDevName : string) : Prop :=
  LoopResult names baseDevName baseDevName 2 newDevName.

(** One call of [addAtaRuleDeveloperName]. *)
Lemma addAtaRuleDeveloperName_spec rule c :
  let names := _ataRuleDevNamesByRuleId c in
  let base := createDeveloperName (Name rule) in
  exists c' newDevName,
    addAtaRuleDeveloperName rule c = Some (c', newDevName)
    /\ c' = with_devNames (<[Id rule := newDevName]> names) c
    /\ Assigned names base newDevName
    /\ (newDevName = base
        \/ exists j, (2 <= j < 2 + N.of_nat (enoughRounds names))%N
                     /\ newDevName = suffixedName base j).
Proof.
  intros names base. unfold addAtaRuleDeveloperName. fold names base.
  destruct (findDeveloperName_total names base) as [newDevName Hrun].
  rewrite Hrun. cbn. exists (with_devNames (<[Id rule := newDevName]> names) c), newDevName.
  apply findDeveloperName_Some in Hrun as [Hres Hrange]. done.
Qed.


Lemma Distinct_insert names (key : string) newDevName :
  Distinct names -> newDevName ∉ devNameValues names ->
  Distinct (<[key := newDevName]> names).
Proof.
  intros Hd Hfree id1 id2 name H1 H2.
  destruct (decide (key = id1)) as [<-|Hne1], (decide (key = id2)) as [<-|Hne2];
    [reflexivity | | |].
  - rewrite lookup_insert_eq in H1. rewrite lookup_insert_ne in H2 by done.
    injection H1 as <-. exfalso. apply Hfree, elem_of_devNameValues. eauto.
  - rewrite lookup_insert_eq in H2. rewrite lookup_insert_ne in H1 by done.
    injection H2 as <-. exfalso. apply Hfree, elem_of_devNameValues. eauto.
  - rewrite lookup_insert_ne in H1, H2 by done. by eapply Hd.
Qed.


(** One round of the loop of [transformCsvFiles]. *)
Lemma transformAtaRule_spec rule c :
  let names := _ataRuleDevNamesByRuleId c in
  let base := createDeveloperName (Name rule) in
  exists c' newDevName,
    transformAtaRule rule c = Some c'
    /\ _ataRuleDevNamesByRuleId c' = <[Id rule := newDevName]> names
    /\ Assigned names base newDevName
    /\ (newDevName = base
        \/ exists j, (2 <= j < 2 + N.of_nat (enoughRounds names))%N
                     /\ newDevName = suffixedName base j).
Proof.
  intros names base. unfold transformAtaRule.
  set (c1 := with_maps _ _ _ _ _ c).
  destruct (addAtaRuleDeveloperName_spec rule c1) as (c2 & newDevName & Hrun & -> & Hres).
  rewrite Hrun. cbn. eexists _, newDevName. split; [reflexivity|]. split; [reflexivity|].
  exact Hres.
Qed.


Lemma transformAtaRules_step rule (rest : list AtaRuleRecord) c c1 :
  transformAtaRule rule c = Some c1 ->
  transformAtaRules (rule :: rest) c = transformAtaRules rest c1.
Proof.
  intros Hrun.
  change (transformAtaRules (rule :: rest) c)
    with (transformAtaRule rule c ≫= transformAtaRules rest).
  by rewrite Hrun.
Qed.


(** [transformCsvFiles] runs that loop over the rules of the
    context, on the names the context has. *)
Lemma transformCsvFiles_loop c :
  exists c1,
    transformCsvFiles c = transformAtaRules (_ataRuleRecords c) c1
    /\ _ataRuleDevNamesByRuleId c1 = _ataRuleDevNamesByRuleId c.
Proof. eexists. split; reflexivity. Qed.


End DeveloperNameClaims.




(** The limit of 80 characters on a name without a counter is that
    of the slug transform, not of the loop: with a transform that
    returns the name as it is, a rule whose name has 85 characters
    keeps all of them. *)
Definition verbatimNames : Tm1.Tm1Env := {|
  Tm1.pathJoin parts := String.concat "/" parts;
  Tm1.parseAccountShareFile _ := Returned [];
  Tm1.parseAtaRuleFile _ := Returned [];
  Tm1.parseAtaRuleItemFile _ := Returned [];
  Tm1.parseTerritoryFile _ := Returned [];
  Tm1.parseUserTerritoryFile _ := Returned [];
  Tm1.readFile _ := Threw Examples.noSuchFile;
  Tm1.xml2js _ := Returned (Tm1.JObject []);
  Tm1.createDeveloperName name := name
|}.

Example long_base_name_is_kept :
  let name := String.concat "" (repeat "North" 17) in
  String.length name = 85
  /\ exists c',
       Tm1.transformAtaRules (H := verbatimNames) [Tm1.MkAtaRuleRecord "0OH1" name "04T1"]
                             (Tm1.construct (H := verbatimNames) "metadata" "data")
       = Some c'
       /\ Tm1._ataRuleDevNamesByRuleId c' !! "0OH1" = Some name.
Proof.
  split; [reflexivity|]. eexists. split; [vm_compute; reflexivity|].
  vm_compute. reflexivity.
Qed.

(** * Further properties of the lifecycle model *)

Section LifecycleRuns.
Import Model.
Context {Opts Derived : Type} `{ModelImpl Opts Derived}.

Implicit Types (m : SfdxFalconModel Opts Derived) (o : Opts).

(** A call of one of the three public methods. *)
Inductive Call : Type :=
| CallBuild (opts : option Opts)
| CallLoad (opts : option Opts)
| CallRefresh.

(** The instance after a call, whether the call returned or threw. *)
Definition afterCall (call : Call) m : SfdxFalconModel Opts Derived :=
  match call with
  | CallBuild opts => (build opts m).1
  | CallLoad opts => (load opts m).1
  | CallRefresh => (refresh m).1
  end.

(** The instance after a sequence of calls, the caller going on
    after every call that threw. *)
Definition afterCalls (calls : list Call) m : SfdxFalconModel Opts Derived :=
  foldl (fun m' call => afterCall call m') m calls.

(** The states an instance is ever seen in. *)
Definition KnownState (s : ModelState) : Prop :=
  s = MkModelState false false false false false
  \/ s = builtState \/ s = loadedState \/ s = failedState.

Lemma runBuild_state o m :
  (_state (runBuild o m).1 = builtState \/ _state (runBuild o m).1 = failedState)
  /\ trapErrors (runBuild o m).1 = trapErrors m
  /\ (exists more, _errors (runBuild o m).1 = _errors m ++ more /\ length more <= 1).
Proof.
  unfold runBuild. destruct (_build o (derived m)) as [d [[|]|e]]; cbn.
  - split; [by left|]. split; [done|]. exists []. split; [by rewrite app_nil_r | cbn; lia].
  - destruct (trapErrors m) eqn:Htrap; cbn; rewrite ?Htrap; cbn;
      (split; [by right|]; split; [done|]; eexists [_]; split; [reflexivity | cbn; lia]).
  - destruct (trapErrors m) eqn:Htrap; cbn; rewrite ?Htrap; cbn;
      (split; [by right|]; split; [done|]; eexists [_]; split; [reflexivity | cbn; lia]).
Qed.

Lemma runLoad_state o m :
  (_state (runLoad o m).1 = loadedState \/ _state (runLoad o m).1 = failedState)
  /\ trapErrors (runLoad o m).1 = trapErrors m
  /\ (exists more, _errors (runLoad o m).1 = _errors m ++ more /\ length more <= 1).
Proof.
  unfold runLoad. destruct (_load o (derived m)) as [d [[|]|e]]; cbn.
  - split; [by left|]. split; [done|]. exists []. split; [by rewrite app_nil_r | cbn; lia].
  - destruct (trapErrors m) eqn:Htrap; cbn; rewrite ?Htrap; cbn;
      (split; [by right|]; split; [done|]; eexists [_]; split; [reflexivity | cbn; lia]).
  - destruct (trapErrors m) eqn:Htrap; cbn; rewrite ?Htrap; cbn;
      (split; [by right|]; split; [done|]; eexists [_]; split; [reflexivity | cbn; lia]).
Qed.

(** What one call does to the state, to [trapErrors] and to the
    errors. *)
Lemma afterCall_step (call : Call) m :
  (_state (afterCall call m) = _state m
   \/ _state (afterCall call m) = builtState
   \/ _state (afterCall call m) = loadedState
   \/ _state (afterCall call m) = failedState)
  /\ trapErrors (afterCall call m) = trapErrors m
  /\ (exists more, _errors (afterCall call m) = _errors m ++ more /\ length more <= 1).
Proof.
  assert (Hsame : forall m',
             _state m' = _state m -> trapErrors m' = trapErrors m -> _errors m' = _errors m ->
             (_state m' = _state m \/ _state m' = builtState
              \/ _state m' = loadedState \/ _state m' = failedState)
             /\ trapErrors m' = trapErrors m
             /\ (exists more, _errors m' = _errors m ++ more /\ length more <= 1)).
  { intros m' Hs Ht He. split; [by left|]. split; [done|].
    exists []. split; [by rewrite app_nil_r, He | cbn; lia]. }
  destruct call as [opts|opts|]; cbn.
  - unfold build. destruct (ready (_state m)); [by apply Hsame|].
    destruct (checkOptions opts "BuildOptions") as [o|e]; [|by apply Hsame].
    destruct (runBuild_state o (with_buildOpts o m)) as ([Hs|Hs] & Ht & He).
    + split; [right; by left|]. done.
    + split; [right; right; by right|]. done.
  - unfold load. destruct (ready (_state m)); [by apply Hsame|].
    destruct (checkOptions opts "LoadingOptions") as [o|e]; [|by apply Hsame].
    destruct (runLoad_state o (with_loadOpts o m)) as ([Hs|Hs] & Ht & He).
    + split; [right; right; by left|]. done.
    + split; [right; right; by right|]. done.
  - unfold refresh. destruct (ready (_state m)); cbn; [|by apply Hsame].
    destruct (built (_state m)).
    + destruct (throwOnNullInvalidObject _ _); [|by apply Hsame].
      destruct (runBuild_state (_buildOpts m) m) as ([Hs|Hs] & Ht & He).
      * split; [right; by left|]. done.
      * split; [right; right; by right|]. done.
    + destruct (loaded (_state m)); [|by apply Hsame].
      destruct (throwOnNullInvalidObject _ _); [|by apply Hsame].
      destruct (_load (_loadOpts m) (derived m)) as [d [b|e]]; by apply Hsame.
Qed.

(** The four states are closed under the three calls. *)
Lemma afterCalls_KnownState (calls : list Call) : forall m,
  KnownState (_state m) -> KnownState (_state (afterCalls calls m)).
Proof.
  unfold afterCalls. induction calls as [|call calls IH]; intros m Hm; [done|].
  cbn. apply IH. destruct (afterCall_step call m) as ([Hs|[Hs|[Hs|Hs]]] & _).
  - by rewrite Hs.
  - right. by left.
  - right. right. by left.
  - right. right. by right.
Qed.

(** X1.  Whatever calls are made on a new instance, in whatever order
    and whether they return or throw, the state is one of four:
    the initial one, built, loaded or failed.  So [stale] is never
    set, an instance that is ready is either built or loaded and
    is not failed, and an instance that is not ready is neither
    built nor loaded. *)
Theorem lifecycle_states (calls : list Call) (optTrapErrors : option bool) (d : Derived) :
  let s := _state (afterCalls calls (construct optTrapErrors d)) in
  KnownState s
  /\ stale s = false
  /\ (ready s = true -> xorb (built s) (loaded s) = true /\ failed s = false)
  /\ (ready s = false -> built s = false /\ loaded s = false).
Proof.
  intros s. assert (Hs : KnownState s) by (apply afterCalls_KnownState; by left).
  split; [done|].
  destruct Hs as [Hs|[Hs|[Hs|Hs]]]; rewrite Hs; cbn; repeat split; done.
Qed.


(** X2.  No call changes [trapErrors], and no call removes or replaces
    an error that has been recorded: after any calls the errors
    recorded before are the first of the errors, and at most one
    error has been added for each call. *)
Theorem lifecycle_errors_append_only (calls : list Call) m :
  trapErrors (afterCalls calls m) = trapErrors m
  /\ exists more,
       _errors (afterCalls calls m) = _errors m ++ more
       /\ length more <= length calls.
Proof.
  unfold afterCalls. revert m. induction calls as [|call calls IH]; intros m; cbn.
  - split; [done|]. exists []. split; [by rewrite app_nil_r | cbn; lia].
  - destruct (IH (afterCall call m)) as (Ht & more & He & Hlen).
    destruct (afterCall_step call m) as (_ & Ht1 & more1 & He1 & Hlen1).
    split; [by rewrite Ht|].
    exists (more1 ++ more). rewrite He, He1, <- app_assoc. split; [done|].
    rewrite length_app. lia.
Qed.

(** The handlers of [build], on any instance. *)
Lemma runBuild_outcome o m :
  AfterHook true (buildTrigger (_build o (derived m)).2) m (runBuild o m).
Proof.
  destruct (_build o (derived m)) as [d r] eqn:Hb.
  destruct (buildTrigger r) as [e|] eqn:Ht; cbn; rewrite Ht; cbn.
  - rewrite (runBuild_failure _ _ _ _ _ Hb Ht). cbn.
    repeat split; try reflexivity. eexists. repeat split; reflexivity.
  - destruct r as [[|]|]; try discriminate.
    rewrite (runBuild_success _ _ _ Hb). repeat split; reflexivity.
Qed.

(** X3.  [refresh] after a [build] that succeeded runs [_build] on the
    very options that were given to [build], on the members that
    [build] left, and ends as a [build] with those options would:
    built and ready again when the hook succeeds; failed, with the
    error recorded, and thrown unless errors are trapped, when it
    does not. *)
Theorem refresh_replays_build m (opts : option Opts) o (d : Derived) :
  ready (_state m) = false ->
  checkOptions opts "BuildOptions" = Returned o ->
  _build o (derived m) = (d, Returned true) ->
  threw (throwOnNullInvalidObject o "cached Build Options (this._buildOpts)") = false ->
  let ready1 := (build opts m).1 in
  _state ready1 = builtState
  /\ _buildOpts ready1 = o
  /\ derived ready1 = d
  /\ refresh ready1 = runBuild o ready1
  /\ AfterHook true (buildTrigger (_build o d).2) ready1 (refresh ready1).
Proof.
  intros Hr Ho Hb Hv ready1.
  assert (Hbuilt : ready1 = with_state builtState (with_derived d (with_buildOpts o m))).
  { unfold ready1, build. rewrite Hr, Ho.
    by rewrite (runBuild_success o (with_buildOpts o m) d Hb). }
  assert (Hrefresh : refresh ready1 = runBuild o ready1).
  { rewrite Hbuilt. rewrite refresh_built; [reflexivity | reflexivity | reflexivity | exact Hv]. }
  split; [by rewrite Hbuilt|]. split; [by rewrite Hbuilt|]. split; [by rewrite Hbuilt|].
  split; [exact Hrefresh|].
  rewrite Hrefresh.
  replace d with (derived ready1) by (by rewrite Hbuilt).
  apply runBuild_outcome.
Qed.

(** X4.  [refresh] of an instance that was loaded always throws, also
    when the instance traps errors, and it leaves the state and the
    recorded errors as they were: a rejection of [_load] is thrown
    as it is, neither wrapped nor recorded, and the instance stays
    ready and loaded. *)
Theorem refresh_of_loaded_records_nothing m :
  ready (_state m) = true ->
  built (_state m) = false ->
  loaded (_state m) = true ->
  exists e,
    (refresh m).2 = Threw e
    /\ _state (refresh m).1 = _state m
    /\ _errors (refresh m).1 = _errors m
    /\ _loadOpts (refresh m).1 = _loadOpts m
    /\ (e = refreshFallThrough
        \/ throwOnNullInvalidObject (_loadOpts m) "cached Loading Options (this._loadOpts)"
           = Threw e
        \/ (_load (_loadOpts m) (derived m)).2 = Threw e).
Proof.
  intros Hr Hb Hl. unfold refresh. rewrite Hr, Hb, Hl. cbn.
  destruct (throwOnNullInvalidObject _ _) as [u|e] eqn:Hv.
  - destruct (_load (_loadOpts m) (derived m)) as [d [b|e]]; cbn.
    + exists refreshFallThrough. repeat split; by left.
    + exists e. repeat split. right. by right.
  - exists e. repeat split. right. by left.
Qed.

End LifecycleRuns.

(** On the counting model: a build with options, then a refresh that
    runs the hook a second time on those options. *)
Lemma refresh_replays_build_witness :
  let ready1 := (Model.build (H := Examples.countingModel) (Some ["full"])
                             (Examples.freshModel false)).1 in
  Model._buildOpts ready1 = ["full"]
  /\ Model.derived ready1 = 1
  /\ Model.derived (Model.refresh (H := Examples.countingModel) ready1).1 = 2
  /\ AfterHook true None ready1 (Model.refresh (H := Examples.countingModel) ready1).
Proof.
  intros ready1.
  destruct (refresh_replays_build (H := Examples.countingModel)
              (Examples.freshModel false) (Some ["full"]) ["full"] 1
              eq_refl eq_refl eq_refl eq_refl)
    as (_ & Hopts & Hderived & _ & Hafter).
  split; [exact Hopts|]. split; [exact Hderived|]. split; [reflexivity|]. exact Hafter.
Defined.

(** On the counting model with trapping: the refresh of the loaded
    instance throws and records nothing. *)
Lemma refresh_of_loaded_records_nothing_witness :
  let loaded1 :=
    (Model.load (H := Examples.countingModel) (Some ["from-file"])
                (Examples.freshModel true)).1 in
  Model.trapErrors loaded1 = true
  /\ exists e,
       (Model.refresh (H := Examples.countingModel) loaded1).2 = Threw e
       /\ Model._state (Model.refresh (H := Examples.countingModel) loaded1).1
          = Model.loadedState
       /\ Model._errors (Model.refresh (H := Examples.countingModel) loaded1).1 = [].
Proof.
  intros loaded1. split; [reflexivity|].
  destruct (refresh_of_loaded_records_nothing (H := Examples.countingModel) loaded1
              eq_refl eq_refl eq_refl)
    as (e & He & Hstate & Herrors & _).
  exists e. split; [exact He|]. split; [exact Hstate | exact Herrors].
Defined.

(** * Properties of the file paths *)

Section FilePathProperties.
Import TmFilePaths.
Context `{PathLib}.

Implicit Types (baseDirectory : string) (paths : FilePaths).

Lemma validateBaseDirectoryArgument_nonempty baseDirectory :
  baseDirectory <> "" -> validateBaseDirectoryArgument baseDirectory = Returned tt.
Proof.
  intros Hne. unfold validateBaseDirectoryArgument.
  by destruct (String.eqb_spec baseDirectory "").
Qed.

(** X22.  Each of the seven getters refuses the empty base
    directory with the error named [TypeError], and returns an
    object of paths for every other base directory. *)
Theorem getters_validate_base_directory baseDirectory :
  Forall (fun getter =>
            if String.eqb baseDirectory ""
            then thrownName (getter baseDirectory) = Some "TypeError"
            else exists paths, getter baseDirectory = Returned paths)
         getters.
Proof.
  unfold getters. repeat (apply Forall_cons; split); [.. | by apply Forall_nil];
    unfold getAllTmToolsFilePaths, getTm2DataLoadFilePaths, getTm2DeployFilePaths,
      getTm1CleanupFilePaths, getTm1TransformFilePaths, getTm1ExtractFilePaths,
      getTm1AnalyzeFilePaths, extending, validateBaseDirectoryArgument;
    destruct (String.eqb baseDirectory ""); first [reflexivity | by eexists].
Qed.

Lemma extending_nonempty baseDirectory paths (members : list (string * string)) :
  baseDirectory <> "" ->
  extending (Returned paths) baseDirectory members = Returned (objectLiteral paths members).
Proof.
  intros Hne. unfold extending. by rewrite (validateBaseDirectoryArgument_nonempty _ Hne).
Qed.

(** An object literal whose member names are new and different
    from each other keeps every member of the object it spreads. *)
Lemma objectLiteral_extends (members : list (string * string)) : forall paths,
  Forall (fun member => paths !! member.1 = None) members ->
  NoDup members.*1 ->
  paths ⊆ objectLiteral paths members.
Proof.
  induction members as [|[name value] members IH]; intros paths Hnew Hnodup; [done|].
  apply Forall_cons in Hnew as [Hname Hnew].
  rewrite fmap_cons in Hnodup. apply NoDup_cons in Hnodup as [Hout Hnodup].
  cbn in Hname, Hout |- *.
  etrans; [apply (insert_subseteq paths name value Hname)|].
  apply IH; [|done].
  apply Forall_forall. intros [name' value'] Hin. cbn.
  rewrite lookup_insert_ne.
  - rewrite Forall_forall in Hnew. exact (Hnew _ Hin).
  - intros ->. apply Hout. apply list_elem_of_fmap. by exists (name', value').
Qed.

(** The member names of the largest object. *)
Definition memberNames : list string :=
  [ "baseDirectory"; "tm1AnalysisReportPath";
    "tm1ExtractionReportPath"; "tm1ExtractionDir"; "extractedDataDir";
    "accountShareCsv"; "ataRuleCsv"; "ataRuleItemCsv"; "territoryCsv"; "userTerritoryCsv";
    "extractedMetadataDir"; "extractedMetadataPackageDir";
    "tm1TransformationReportPath"; "transformedDataDir";
    "userTerritory2AssociationCsv"; "objectTerritory2AssociationCsv";
    "transformedMetadataDir"; "tm1SharingRulesCleanupDir"; "tm2MainDeploymentDir";
    "tm2SharingRulesDeploymentDir"; "intermediateFilesDir"; "tm1ToTm2DevnameMapCsv";
    "userTerritory2AssociationIntermediateCsv"; "objectTerritory2AssociationIntermediateCsv";
    "tm1CleanupReportPath"; "tm2DeploymentReportPath"; "tm2DataLoadReportPath" ].

Ltac extends_by_new_members :=
  apply objectLiteral_extends;
  [ repeat (apply Forall_cons; split; [vm_compute; reflexivity|]); by apply Forall_nil
  | apply (bool_decide_unpack _); vm_compute; exact I ].

(** X23.  For a base directory that is not empty, the object of
    each getter has every member of the object of the getter
    before it, with the same path, and the object of
    [getAllTmToolsFilePaths] is that of [getTm2DataLoadFilePaths]. *)
Theorem file_paths_extend baseDirectory :
  baseDirectory <> "" ->
  exists analyze extract transform cleanup deploy dataLoad,
    getTm1AnalyzeFilePaths baseDirectory = Returned analyze
    /\ getTm1ExtractFilePaths baseDirectory = Returned extract
    /\ getTm1TransformFilePaths baseDirectory = Returned transform
    /\ getTm1CleanupFilePaths baseDirectory = Returned cleanup
    /\ getTm2DeployFilePaths baseDirectory = Returned deploy
    /\ getTm2DataLoadFilePaths baseDirectory = Returned dataLoad
    /\ getAllTmToolsFilePaths baseDirectory = Returned dataLoad
    /\ analyze ⊆ extract /\ extract ⊆ transform /\ transform ⊆ cleanup
    /\ cleanup ⊆ deploy /\ deploy ⊆ dataLoad.
Proof.
  intros Hne.
  unfold getAllTmToolsFilePaths, getTm2DataLoadFilePaths, getTm2DeployFilePaths,
    getTm1CleanupFilePaths, getTm1TransformFilePaths, getTm1ExtractFilePaths,
    getTm1AnalyzeFilePaths.
  rewrite !(extending_nonempty _ _ _ Hne).
  do 6 eexists. do 6 (split; [reflexivity|]). split; [reflexivity|].
  split; [|split; [|split; [|split]]]; extends_by_new_members.
Qed.

(** The three members a TM2 context reads from the object of
    [getAllTmToolsFilePaths]. *)
Lemma getAllTmToolsFilePaths_reads baseDirectory :
  baseDirectory <> "" ->
  exists paths,
    getAllTmToolsFilePaths baseDirectory = Returned paths
    /\ paths !! "territory2Csv" = None
    /\ paths !! "tm1ToTm2DevnameMapCsv"
       = Some (join [baseDirectory; "intermediate-files"; "tm1-to-tm2-devname-map.csv"])
    /\ paths !! "userTerritory2AssociationIntermediateCsv"
       = Some (join [baseDirectory; "intermediate-files";
                     "UserTerritory2Association.intermediate.csv"]).
Proof.
  intros Hne.
  unfold getAllTmToolsFilePaths, getTm2DataLoadFilePaths, getTm2DeployFilePaths,
    getTm1CleanupFilePaths, getTm1TransformFilePaths, getTm1ExtractFilePaths,
    getTm1AnalyzeFilePaths.
  rewrite !(extending_nonempty _ _ _ Hne).
  eexists. split; [reflexivity|].
  split; [vm_compute; reflexivity|]. split; vm_compute; reflexivity.
Qed.

Lemma getAllTmToolsFilePaths_empty baseDirectory paths :
  getAllTmToolsFilePaths baseDirectory = Returned paths -> baseDirectory <> "".
Proof.
  intros Hrun ->. discriminate.
Qed.

(** X24.  The object of [getAllTmToolsFilePaths] has the
    twenty-seven members of [memberNames] and no other: it has
    [tm1ToTm2DevnameMapCsv] and
    [userTerritory2AssociationIntermediateCsv], and it has no member
    [territory2Csv].  Every path in it but [baseDirectory] is
    joined from the base directory. *)
Theorem all_file_paths_members baseDirectory :
  baseDirectory <> "" ->
  exists paths,
    getAllTmToolsFilePaths baseDirectory = Returned paths
    /\ dom paths = list_to_set memberNames
    /\ size paths = 27
    /\ paths !! "tm1ToTm2DevnameMapCsv"
       = Some (join [baseDirectory; "intermediate-files"; "tm1-to-tm2-devname-map.csv"])
    /\ paths !! "userTerritory2AssociationIntermediateCsv"
       = Some (join [baseDirectory; "intermediate-files";
                     "UserTerritory2Association.intermediate.csv"])
    /\ paths !! "territory2Csv" = None
    /\ map_Forall (fun name path =>
                     if String.eqb name "baseDirectory"
                     then path = resolve baseDirectory
                     else exists parts, path = join (baseDirectory :: parts))
                  paths.
Proof.
  intros Hne.
  unfold getAllTmToolsFilePaths, getTm2DataLoadFilePaths, getTm2DeployFilePaths,
    getTm1CleanupFilePaths, getTm1TransformFilePaths, getTm1ExtractFilePaths,
    getTm1AnalyzeFilePaths.
  rewrite !(extending_nonempty _ _ _ Hne).
  eexists. split; [reflexivity|].
  unfold objectLiteral. cbn [foldl fst snd].
  split; [|split; [vm_compute; reflexivity|split; [vm_compute; reflexivity|
    split; [vm_compute; reflexivity|split; [vm_compute; reflexivity|]]]]].
  - rewrite !dom_insert_L, dom_empty_L. unfold memberNames. cbn [list_to_set]. set_solver.
  - repeat (apply map_Forall_insert_2; [first [reflexivity | by eexists]|]).
    apply map_Forall_empty.
Qed.

End FilePathProperties.

(** The file paths of the directory [tm]. *)
Lemma file_paths_extend_witness :
  exists analyze all,
    TmFilePaths.getTm1AnalyzeFilePaths (H := Posix.paths) "tm" = Returned analyze
    /\ TmFilePaths.getAllTmToolsFilePaths (H := Posix.paths) "tm" = Returned all
    /\ analyze ⊆ all.
Proof.
  destruct (file_paths_extend (H := Posix.paths) "tm")
    as (analyze & extract & transform & cleanup & deploy & dataLoad
        & Ha & _ & _ & _ & _ & _ & Hall & H1 & H2 & H3 & H4 & H5); [discriminate|].
  exists analyze, dataLoad. split; [exact Ha|]. split; [exact Hall|].
  by repeat (etrans; [eassumption|]).
Defined.

Lemma all_file_paths_members_witness :
  exists paths,
    TmFilePaths.getAllTmToolsFilePaths (H := Posix.paths) "tm" = Returned paths
    /\ paths !! "tm1ToTm2DevnameMapCsv" = Some "tm/intermediate-files/tm1-to-tm2-devname-map.csv"
    /\ paths !! "territory2Csv" = None.
Proof.
  destruct (all_file_paths_members (H := Posix.paths) "tm")
    as (paths & Hrun & _ & _ & Hmap & _ & Hnone & _); [discriminate|].
  exists paths. split; [exact Hrun|]. split; [exact Hmap | exact Hnone].
Defined.

(** * The public accessors of the TM2 context *)

Module Tm2Getters.
Import Tm2.

(** A getter [{ return this.isPrepared() ? this._member : undefined; }]:
    [Some] is the first branch, with the member, and [None] the
    second branch.  The member may itself be [undefined]: the
    report is, when [prepare] was given none. *)
Definition guarded {A} (member : Tm2Context -> A) (c : Tm2Context) : Outcome (option A) :=
  match isPrepared c with
  | Threw e => Threw e
  | Returned true => Returned (Some (member c))
  | Returned false => Returned None
  end.

Definition objectTerritory2AssociationRecords := guarded _objectTerritory2AssociationRecords.
Definition territory2Records := guarded _territory2Records.
Definition territory2RecordsByDevName := guarded _territory2RecordsByDevName.
Definition territory2RecordsById := guarded _territory2RecordsById.
Definition territoryDevNameMapByT2DevName := guarded _territoryDevNameMapByT2DevName.
Definition territoryDevNameMapByT2Id := guarded _territoryDevNameMapByT2Id.
Definition territoryDevNameMappings := guarded _territoryDevNameMappings.
Definition tm1TransformationReport := guarded _tm1TransformationReport.
Definition tm2FilePaths := guarded _tm2FilePaths.
Definition userTerritory2AssociationRecords := guarded _userTerritory2AssociationRecords.

(** The three getters without a check. *)
Definition loaded (c : Tm2Context) : bool := _loaded c.
Definition prepared (c : Tm2Context) : bool := _prepared c.
Definition updated (c : Tm2Context) : bool := _updated c.

End Tm2Getters.

(** * Further properties of the TM2 context *)

Section MapFolds.
Context {A V : Type}.

Implicit Types (key : A -> string) (val : A -> V) (l : list A) (m : gmap string V).

(** A loop of [set] calls leaves, for each key, the value of the
    last element with that key, and what the map held for the
    keys of no element. *)
Lemma foldl_insert_lookup key val l : forall m (k : string),
  foldl (fun m' x => <[key x := val x]> m') m l !! k
  = match last (filter (fun x => key x = k) l) with
    | Some x => Some (val x)
    | None => m !! k
    end.
Proof.
  induction l as [|x l IH]; intros m k; cbn [foldl]; [reflexivity|].
  rewrite IH, filter_cons.
  destruct (decide (key x = k)) as [Heq|Hne].
  - rewrite last_cons. destruct (last (filter _ l)); [reflexivity|].
    by rewrite Heq, lookup_insert_eq.
  - destruct (last (filter _ l)); [reflexivity|]. by rewrite lookup_insert_ne.
Qed.

(** Running the same loop again changes nothing. *)
Lemma foldl_insert_twice key val l m :
  foldl (fun m' x => <[key x := val x]> m')
        (foldl (fun m' x => <[key x := val x]> m') m l) l
  = foldl (fun m' x => <[key x := val x]> m') m l.
Proof.
  apply map_eq. intros k. rewrite !foldl_insert_lookup.
  by destruct (last (filter _ l)).
Qed.

(** A loop that sets only for the elements that pass a test is the
    loop over the elements that pass. *)
Lemma foldl_insert_if (test : A -> bool) key val l : forall m,
  foldl (fun m' x => if test x then <[key x := val x]> m' else m') m l
  = foldl (fun m' x => <[key x := val x]> m') m (filter (fun x => test x = true) l).
Proof.
  induction l as [|x l IH]; intros m; cbn [foldl]; [reflexivity|].
  rewrite IH, filter_cons. destruct (test x); cbn [foldl].
  - rewrite decide_True by done. reflexivity.
  - rewrite decide_False by done. reflexivity.
Qed.

End MapFolds.

Section RowIndexes.
Context {Row : Type}.

Implicit Types (rows : list Row) (key : Row -> string) (test : Row -> bool)
         (index : gmap string nat).

(** An index over the rows of an array, as the loops
    [for (const row of rows) if (test(row)) index.set(key(row), row)]
    build it: every entry refers to a row with that key that passes
    the test, and every row that passes the test has its key in the
    index, referring to a row that is not before it.  Together: a
    key refers to the last row with that key that passes. *)
Definition IndexOfRows rows key test index : Prop :=
  (forall (k : string) (i : nat),
     index !! k = Some i ->
     exists row, rows !! i = Some row /\ key row = k /\ test row = true)
  /\ (forall (i : nat) (row : Row),
        rows !! i = Some row -> test row = true ->
        exists j, index !! key row = Some j /\ i <= j).

(** The loop over the rows with their positions. *)
Definition indexRows rows key test index : gmap string nat :=
  foldl (fun m ir => if test ir.2 then <[key ir.2 := ir.1]> m else m)
        index (imap pair rows).

Lemma indexRows_snoc rows (row : Row) key test index :
  indexRows (rows ++ [row]) key test index
  = if test row then <[key row := length rows]> (indexRows rows key test index)
    else indexRows rows key test index.
Proof.
  unfold indexRows. rewrite imap_app, foldl_app. cbn. by rewrite Nat.add_0_r.
Qed.

Lemma indexRows_empty rows key test :
  IndexOfRows rows key test (indexRows rows key test ∅).
Proof.
  induction rows as [|row rows IH] using rev_ind.
  - split.
    + intros k i Hk. cbn in Hk. by rewrite lookup_empty in Hk.
    + intros i row Hrow. by rewrite lookup_nil in Hrow.
  - destruct IH as [Hsound Hcomplete]. rewrite indexRows_snoc. split.
    + intros k i Hk. destruct (test row) eqn:Htest.
      * destruct (decide (key row = k)) as [<-|Hne].
        -- rewrite lookup_insert_eq in Hk. injection Hk as <-.
           exists row. split; [|done].
           rewrite lookup_app_r by lia. by rewrite Nat.sub_diag.
        -- rewrite lookup_insert_ne in Hk by done.
           destruct (Hsound k i Hk) as (row' & Hrow' & Hkey & Ht).
           exists row'. split; [|done]. by apply lookup_app_l_Some.
      * destruct (Hsound k i Hk) as (row' & Hrow' & Hkey & Ht).
        exists row'. split; [|done]. by apply lookup_app_l_Some.
    + intros i row' Hrow' Ht.
      destruct (decide (i < length rows)) as [Hlt|Hge].
      * rewrite lookup_app_l in Hrow' by done.
        destruct (Hcomplete i row' Hrow' Ht) as (j & Hj & Hle).
        destruct (test row) eqn:Htest; [|by exists j].
        destruct (decide (key row = key row')) as [Heq|Hne].
        -- exists (length rows). rewrite Heq, lookup_insert_eq. split; [done | lia].
        -- exists j. by rewrite lookup_insert_ne.
      * rewrite lookup_app_r in Hrow' by lia.
        destruct (i - length rows) as [|n] eqn:Hi; [|by rewrite lookup_cons_ne_0 in Hrow'].
        cbn in Hrow'. injection Hrow' as <-. rewrite Ht.
        exists (length rows). rewrite lookup_insert_eq. split; [done | lia].
Qed.

(** Whatever the index held before the loop, a row that passes the
    test finds its key referring to a row of the array with that
    key, not before it. *)
Lemma indexRows_complete rows key test index : forall (i : nat) (row : Row),
  rows !! i = Some row -> test row = true ->
  exists j row',
    indexRows rows key test index !! key row = Some j
    /\ i <= j /\ rows !! j = Some row' /\ key row' = key row /\ test row' = true.
Proof.
  induction rows as [|last rows IH] using rev_ind; intros i row Hrow Ht.
  - by rewrite lookup_nil in Hrow.
  - rewrite indexRows_snoc.
    destruct (decide (i < length rows)) as [Hlt|Hge].
    + rewrite lookup_app_l in Hrow by done.
      destruct (IH i row Hrow Ht) as (j & row' & Hj & Hle & Hrow' & Hkey & Ht').
      destruct (test last) eqn:Htest.
      * destruct (decide (key last = key row)) as [Heq|Hne].
        -- exists (length rows), last. rewrite <- Heq, lookup_insert_eq.
           repeat split; [lia | | done].
           rewrite lookup_app_r by lia. by rewrite Nat.sub_diag.
        -- exists j, row'. rewrite lookup_insert_ne by done.
           repeat split; try done. by apply lookup_app_l_Some.
      * exists j, row'. repeat split; try done. by apply lookup_app_l_Some.
    + rewrite lookup_app_r in Hrow by lia.
      destruct (i - length rows) as [|n] eqn:Hi; [|by rewrite lookup_cons_ne_0 in Hrow].
      cbn in Hrow. injection Hrow as <-. rewrite Ht.
      exists (length rows), last. rewrite lookup_insert_eq.
      repeat split; [lia | | done].
      rewrite lookup_app_r by lia. by rewrite Nat.sub_diag.
Qed.

End RowIndexes.

Section Tm2Runs.
Import Tm2.
Context `{Tm2Env} `{TmFilePaths.PathLib}.

Implicit Types (c : Tm2Context) (row : TerritoryDevNameMapping)
         (records : list Territory2Record) (data : JsonMap)
         (report : option AnyJson) (paths : TMToolsAllFilePaths).

(** What the statements of [prepare] leave when the mapping file
    parses. *)
Lemma prepareFrom_Returned report paths c :
  prepareFrom report paths = Returned c ->
  exists mappings,
    parseMappingsFile (tm1ToTm2DevnameMapCsv paths) = Returned mappings
    /\ c = with_prepared true
             (buildRecordMaps
                (with_territory2Records
                   (match parseTerritory2File (territory2Csv paths) with
                    | Returned records => records
                    | Threw _ => []
                    end)
                   (with_mappings mappings (construct report paths)))).
Proof.
  unfold prepareFrom, parseCsvFiles. cbn.
  destruct (parseMappingsFile _) as [mappings|e]; [|discriminate].
  cbn. destruct (parseTerritory2File _) as [records|e]; intros [= <-]; eauto.
Qed.

Lemma prepare_Returned report (baseDirectory : string) c :
  prepare report baseDirectory = Returned c ->
  exists paths,
    TmFilePaths.getAllTmToolsFilePaths baseDirectory = Returned paths
    /\ prepareFrom report paths = Returned c.
Proof.
  unfold prepare.
  destruct (TmFilePaths.getAllTmToolsFilePaths baseDirectory) as [paths|e]; [|discriminate].
  intros Hrun. by exists paths.
Qed.

(** X5.  [prepare] fails with the error named [TypeError] when the
    base directory is empty, before any file is read.  For any
    other base directory the context gets the paths of
    [TmFilePaths], which have no member [territory2Csv]; [prepare]
    then fails exactly when the mapping file under
    [intermediate-files] does not parse, with the error of the
    parser, and otherwise returns a context that is prepared and
    not updated, holds the report it was given and the rows of the
    mapping file, and holds the records the reader makes of an
    [undefined] path, or no record when the reader fails on it. *)
Theorem prepare_outcome report (baseDirectory : string) :
  if String.eqb baseDirectory ""
  then thrownName (prepare report baseDirectory) = Some "TypeError"
  else
    exists paths,
      TmFilePaths.getAllTmToolsFilePaths baseDirectory = Returned paths
      /\ territory2Csv paths = None
      /\ match parseMappingsFile
                 (Some (TmFilePaths.join [baseDirectory; "intermediate-files";
                                          "tm1-to-tm2-devname-map.csv"])) with
         | Threw e => prepare report baseDirectory = Threw e
         | Returned mappings =>
             exists c,
               prepare report baseDirectory = Returned c
               /\ _prepared c = true /\ _updated c = false
               /\ _tm2FilePaths c = paths
               /\ _tm1TransformationReport c = report
               /\ _territoryDevNameMappings c = mappings
               /\ _territory2Records c
                  = match parseTerritory2File None with
                    | Returned records => records
                    | Threw _ => []
                    end
               /\ _userTerritory2AssociationRecords c = []
               /\ _objectTerritory2AssociationRecords c = []
         end.
Proof.
  destruct (String.eqb_spec baseDirectory "") as [->|Hne]; [reflexivity|].
  destruct (getAllTmToolsFilePaths_reads baseDirectory Hne)
    as (paths & Hpaths & Hextract & Hmap & _).
  exists paths. split; [done|]. split; [done|].
  unfold prepare, prepareFrom, parseCsvFiles. rewrite Hpaths. cbn.
  unfold tm1ToTm2DevnameMapCsv, territory2Csv. rewrite Hmap.
  destruct (parseMappingsFile _) as [mappings|e]; [|reflexivity].
  cbn. rewrite Hextract.
  destruct (parseTerritory2File None) as [records|e]; eexists; repeat split; reflexivity.
Qed.

(** X6.  In a context that [prepare] returns, the two indexes over
    the mapping rows refer to rows of [_territoryDevNameMappings]:
    a DeveloperName refers to the last row with that name, and a
    [territory2Id] is indexed only when it starts with [0MI], to
    the last row with that id.  The two indexes over the Territory2
    records hold, for a name or an id, the last record of the
    extract with it, and nothing else. *)
Theorem prepare_indexes report (baseDirectory : string) c :
  prepare report baseDirectory = Returned c ->
  IndexOfRows (_territoryDevNameMappings c) territory2DevName (fun _ => true)
              (_territoryDevNameMapByT2DevName c)
  /\ IndexOfRows (_territoryDevNameMappings c) territory2Id
                 (fun row => startsWith "0MI" (territory2Id row))
                 (_territoryDevNameMapByT2Id c)
  /\ (forall name, _territory2RecordsByDevName c !! name
                   = lastByDevName name (_territory2Records c))
  /\ (forall id, _territory2RecordsById c !! id
                 = last (filter (fun r => Id r = id) (_territory2Records c))).
Proof.
  intros Hrun. apply prepare_Returned in Hrun as (paths & _ & Hrun).
  apply prepareFrom_Returned in Hrun as (mappings & _ & ->).
  set (records := match parseTerritory2File _ with Returned r => r | Threw _ => [] end).
  cbn. split; [|split; [|split]].
  - exact (indexRows_empty mappings territory2DevName (fun _ => true)).
  - exact (indexRows_empty mappings territory2Id
             (fun row => startsWith "0MI" (territory2Id row))).
  - intros name. rewrite rebuiltIndex_lookup, lookup_empty.
    fold (lastByDevName name records). by destruct (lastByDevName name records).
  - intros id.
    rewrite (foldl_insert_lookup Id (fun r => r)), lookup_empty.
    by destruct (last _).
Qed.

(** X7.  A guarded getter of a context never takes its second
    branch: it throws [ObjectNotPrepared] on a context that is not
    prepared, as the one the constructor makes, and returns the
    member on a prepared one, as the one [prepare] returns.  Of the
    ten members only the report can be [undefined] there: it is
    the argument [prepare] was given, also when none was given. *)
Theorem getters_return_the_member {A} (member : Tm2Context -> A) c :
  Tm2Getters.guarded member c <> Returned None
  /\ (forall report paths,
        thrownName (Tm2Getters.guarded member (construct report paths))
        = Some "ObjectNotPrepared")
  /\ (forall report baseDirectory,
        prepare report baseDirectory = Returned c ->
        Tm2Getters.guarded member c = Returned (Some (member c))
        /\ Tm2Getters.tm1TransformationReport c = Returned (Some report)).
Proof.
  split; [|split].
  - unfold Tm2Getters.guarded, isPrepared. by destruct (_prepared c).
  - reflexivity.
  - intros report baseDirectory Hrun. apply prepare_Returned in Hrun as (paths & _ & Hrun).
    apply prepareFrom_Returned in Hrun as (mappings & _ & ->). by split.
Qed.

End Tm2Runs.

Section PendingIds.
Import Tm2.
Context `{Tm2Env}.

Implicit Types (c : Tm2Context) (row : TerritoryDevNameMapping)
         (records : list Territory2Record) (data : JsonMap).

Lemma substring_all (s : string) : String.substring 0 (String.length s) s = s.
Proof. induction s as [|a s IH]; simpl; [|rewrite IH]; reflexivity. Qed.

Lemma substringFrom_placeholder (devName : string) :
  substringFrom 13 ("T2ID_PENDING_" +:+ devName) = devName.
Proof.
  unfold substringFrom.
  assert (Hlen : String.length ("T2ID_PENDING_" +:+ devName) - 13 = String.length devName)
    by (change (String.length ("T2ID_PENDING_" +:+ devName)) with (13 + String.length devName);
        lia).
  rewrite Hlen. exact (substring_all devName).
Qed.

Lemma startsWith_placeholder (devName : string) :
  startsWith "T2ID_PENDING_" ("T2ID_PENDING_" +:+ devName) = true.
Proof.
  change (startsWith "T2ID_PENDING_" ("T2ID_PENDING_" +:+ devName))
    with (String.prefix "" devName).
  by destruct devName.
Qed.

(** X8.  [buildUserT2AssociationRecords] never reaches the check of
    the update.  On a context without user association records
    whose intermediate file has a row it throws a [TypeError],
    whether or not the context has been updated, and leaves the
    context as it was: the handler it hands over is not bound to
    the context.  [ObjectNotUpdated] is what the handler throws for
    every row when it is called as a method of a context that has
    not been updated. *)
Theorem buildUserT2AssociationRecords_throws_on_rows c data (rows : list JsonMap) :
  _userTerritory2AssociationRecords c = [] ->
  readRows (userTerritory2AssociationIntermediateCsv (_tm2FilePaths c))
  = Returned (data :: rows) ->
  (exists e, buildUserT2AssociationRecords c = (c, Threw e) /\ errorName e = "TypeError")
  /\ (_updated c = false ->
      forall data', thrownName (transformPendingT2Id c data') = Some "ObjectNotUpdated").
Proof.
  intros Huser Hrows. split.
  - unfold buildUserT2AssociationRecords. rewrite Huser, Hrows. cbn. eauto.
  - intros Hupd data'. unfold transformPendingT2Id, isUpdated. by rewrite Hupd.
Qed.

(** X9.  A row that the handler returns differs from the row it was
    given at most in the key [territory2Id]: either it is the same
    row, or [territory2Id] has been set to the non-empty id of the
    Territory2 record whose DeveloperName follows the placeholder
    prefix in the column [Territory2Id].  The column [Territory2Id]
    itself, and every other column, is as it was. *)
Theorem transformPendingT2Id_changes_one_key c data data' :
  transformPendingT2Id c data = Returned data' ->
  (forall key, key <> "territory2Id" -> data' !! key = data !! key)
  /\ (data' = data
      \/ exists pendingT2Id rec,
           data !! "Territory2Id" = Some pendingT2Id
           /\ startsWith "T2ID_PENDING_" pendingT2Id = true
           /\ _territory2RecordsByDevName c !! substringFrom 13 pendingT2Id = Some rec
           /\ Id rec <> ""
           /\ data' = <["territory2Id" := Id rec]> data).
Proof.
  unfold transformPendingT2Id.
  destruct (isUpdated c); [|discriminate].
  destruct (data !! "Territory2Id") as [pendingT2Id|] eqn:Hread; [|discriminate].
  destruct (bool_decide _); [discriminate|].
  unfold getConvertedT2Id.
  destruct (startsWith "T2ID_PENDING_" pendingT2Id) eqn:Hprefix; cbn [negb].
  - destruct (lookupTerritory2Id c _) as [t2Id|e] eqn:Hlookup; [|discriminate].
    apply lookupTerritory2Id_Returned in Hlookup as (_ & rec & Hrec & ->).
    destruct (truthy (Id rec)) eqn:Hid; intros [= <-].
    + split; [intros key Hkey; by rewrite lookup_insert_ne|].
      right. exists pendingT2Id, rec. repeat split; try done.
      by apply truthy_nonempty.
    + split; [done | by left].
  - cbn. intros [= <-]. split; [done | by left].
Qed.

(** X10.  [buildUserT2AssociationRecords] never stores a record and
    never changes the context.  It returns exactly when the
    context holds no user association record and the intermediate
    file is read and has no row; otherwise it throws the error of
    its guard, the error of the reader, or, when the file has a
    row, the [TypeError] of the handler that is not bound. *)
Theorem buildUserT2AssociationRecords_stores_nothing c :
  (buildUserT2AssociationRecords c).1 = c
  /\ match (buildUserT2AssociationRecords c).2 with
     | Returned _ =>
         _userTerritory2AssociationRecords c = []
         /\ readRows (userTerritory2AssociationIntermediateCsv (_tm2FilePaths c))
            = Returned []
     | Threw e =>
         (_userTerritory2AssociationRecords c <> [] /\ errorName e = "RecordBuildError")
         \/ (_userTerritory2AssociationRecords c = []
             /\ readRows (userTerritory2AssociationIntermediateCsv (_tm2FilePaths c))
                = Threw e)
         \/ (_userTerritory2AssociationRecords c = []
             /\ errorName e = "TypeError"
             /\ exists data rows,
                  readRows (userTerritory2AssociationIntermediateCsv (_tm2FilePaths c))
                  = Returned (data :: rows))
     end.
Proof.
  unfold buildUserT2AssociationRecords.
  destruct (_userTerritory2AssociationRecords c) as [|old olds] eqn:Hold;
    cbn [length Nat.eqb negb].
  - destruct (readRows _) as [[|data rows]|e]; cbn.
    + split; [|done]. destruct c; cbn in Hold; by subst.
    + split; [done|]. right. right. eauto.
    + split; [done|]. right. by left.
  - cbn. split; [done|]. by left.
Qed.

End PendingIds.

Section Tm2Updates.
Import Tm2.
Context `{Tm2Env}.

Implicit Types (c : Tm2Context) (row : TerritoryDevNameMapping)
         (records : list Territory2Record).

(** The columns of a mapping row that come from the source org. *)
Definition SameSource row row' : Prop :=
  territoryId row' = territoryId row
  /\ territory2DevName row' = territory2DevName row
  /\ territory2ParentDevName row' = territory2ParentDevName row.

(** However the loop over the rows ends, it keeps the number of
    rows and their source columns. *)
Lemma updateMappings_SameSource c : forall rows rows' (r : Outcome unit),
  updateMappings c rows = (rows', r) -> Forall2 SameSource rows rows'.
Proof.
  assert (Hrefl : forall rows, Forall2 SameSource rows rows)
    by (induction rows; constructor; [by repeat split | done]).
  induction rows as [|row rest IH]; intros rows' r; cbn -[truthy].
  - intros [= <- <-]. constructor.
  - destruct (lookupTerritory2Id c (territory2DevName row)) as [id|e].
    + destruct (truthy (territory2ParentDevName row)).
      * destruct (lookupTerritory2Id c (territory2ParentDevName row)) as [pid|e].
        -- destruct (updateMappings c rest) as [rest' r'] eqn:Hrest.
           intros [= <- <-]. constructor; [by repeat split | by eapply IH].
        -- intros [= <- <-]. constructor; [by repeat split | apply Hrefl].
      * destruct (updateMappings c rest) as [rest' r'] eqn:Hrest.
        intros [= <- <-]. constructor; [by repeat split | by eapply IH].
    + intros [= <- <-]. apply Hrefl.
Qed.

(** A row whose identifiers are those the index gives for its
    names. *)
Definition AgreesWithIndex c row : Prop :=
  lookupTerritory2Id c (territory2DevName row) = Returned (territory2Id row)
  /\ (truthy (territory2ParentDevName row) = true ->
      lookupTerritory2Id c (territory2ParentDevName row) = Returned (territory2ParentId row)).

Lemma updateMappings_agrees c : forall rows rows' (u : unit),
  updateMappings c rows = (rows', Returned u) -> Forall (AgreesWithIndex c) rows'.
Proof.
  induction rows as [|row rest IH]; intros rows' u; cbn -[truthy].
  - intros [= <-]. constructor.
  - destruct (lookupTerritory2Id c (territory2DevName row)) as [id|e] eqn:Hid; [|discriminate].
    destruct (truthy (territory2ParentDevName row)) eqn:Hp.
    + destruct (lookupTerritory2Id c (territory2ParentDevName row)) as [pid|e] eqn:Hpid;
        [|discriminate].
      destruct (updateMappings c rest) as [rest' r'] eqn:Hrest.
      intros [= <- ->]. constructor; [by split | by eapply IH].
    + destruct (updateMappings c rest) as [rest' r'] eqn:Hrest.
      intros [= <- ->]. constructor; [|by eapply IH].
      split; [done|]. cbn. by rewrite Hp.
Qed.

(** The loop leaves rows that agree with the index as they are. *)
Lemma updateMappings_fixed c : forall rows,
  Forall (AgreesWithIndex c) rows -> updateMappings c rows = (rows, Returned tt).
Proof.
  induction rows as [|row rest IH]; intros Hall; cbn -[truthy]; [reflexivity|].
  apply Forall_cons in Hall as [[Hid Hpid] Hrest].
  rewrite Hid. destruct row as [tid name parent id pid]. cbn -[truthy] in *.
  destruct (truthy parent) eqn:Hp.
  - rewrite (Hpid eq_refl), (IH Hrest). reflexivity.
  - rewrite (IH Hrest). reflexivity.
Qed.

Lemma lookupTerritory2Id_index c1 c2 (name : string) :
  _territory2RecordsByDevName c1 = _territory2RecordsByDevName c2 ->
  lookupTerritory2Id c1 name = lookupTerritory2Id c2 name.
Proof. unfold lookupTerritory2Id. by intros ->. Qed.

Lemma updateMappings_index c1 c2 :
  _territory2RecordsByDevName c1 = _territory2RecordsByDevName c2 ->
  forall rows, updateMappings c1 rows = updateMappings c2 rows.
Proof.
  intros Hidx. induction rows as [|row rest IH]; cbn -[truthy]; [reflexivity|].
  rewrite !(lookupTerritory2Id_index c1 c2) by done. by rewrite IH.
Qed.

(** What a call of [updateRecordMaps] that returns has done. *)
Lemma updateRecordMaps_Returned c c' :
  updateRecordMaps c = (c', Returned tt) ->
  exists records rows,
    parseTerritory2File (territory2Csv (_tm2FilePaths c)) = Returned records
    /\ records <> []
    /\ updateMappings
         (buildT2RecordsByIdMap (buildT2RecordsByDevNameMap (with_territory2Records records c)))
         (_territoryDevNameMappings c) = (rows, Returned tt)
    /\ c' = with_updated true
              (buildTerritoryDevNameMapByT2Id
                 (with_mappings rows
                    (buildT2RecordsByIdMap
                       (buildT2RecordsByDevNameMap (with_territory2Records records c))))).
Proof.
  intros Hrun.
  destruct (parseTerritory2File (territory2Csv (_tm2FilePaths c))) as [records|e] eqn:Hparse;
    [|unfold updateRecordMaps in Hrun; rewrite Hparse in Hrun; discriminate].
  destruct (decide (records = [])) as [->|Hne];
    [unfold updateRecordMaps in Hrun; rewrite Hparse in Hrun; discriminate|].
  destruct (updateRecordMaps_unfold c records Hparse Hne) as (_ & Hrows & _ & Heq).
  rewrite Heq in Hrun. clear Heq.
  set (c2 := buildT2RecordsByIdMap _) in *.
  destruct (updateMappings c2 (_territoryDevNameMappings c2)) as [rows [[]|e]] eqn:Hloop;
    [|discriminate].
  injection Hrun as <-. exists records, rows. rewrite <- Hrows. by repeat split.
Qed.

(** X11.  A second call of [updateRecordMaps] over the same extract
    changes nothing: when a call returns, calling it again on the
    context it left returns and leaves that same context. *)
Theorem updateRecordMaps_twice c c' :
  updateRecordMaps c = (c', Returned tt) ->
  updateRecordMaps c' = (c', Returned tt).
Proof.
  intros Hrun.
  apply updateRecordMaps_Returned in Hrun as (records & rows & Hparse & Hne & Hloop & ->).
  set (c2 := buildT2RecordsByIdMap _) in *.
  set (c' := with_updated true _).
  assert (Hparse' : parseTerritory2File (territory2Csv (_tm2FilePaths c')) = Returned records)
    by exact Hparse.
  destruct (updateRecordMaps_unfold c' records Hparse' Hne) as (_ & _ & _ & ->).
  set (c2' := buildT2RecordsByIdMap _).
  assert (Hidx : _territory2RecordsByDevName c2' = _territory2RecordsByDevName c2).
  { subst c2' c' c2. cbn. apply foldl_insert_twice. }
  change (_territoryDevNameMappings c2') with rows.
  rewrite (updateMappings_index c2' c2 Hidx).
  rewrite (updateMappings_fixed c2 rows (updateMappings_agrees c2 _ _ _ Hloop)).
  f_equal. subst c'. unfold with_updated, buildTerritoryDevNameMapByT2Id, with_mapByT2Id.
  cbn -[startsWith].
  rewrite !(foldl_insert_if
              (fun ir : nat * TerritoryDevNameMapping =>
                 startsWith territory2RecordIdPrefix (territory2Id ir.2))
              (fun ir => territory2Id ir.2) (fun ir => ir.1)).
  by rewrite !foldl_insert_twice.
Qed.

(** A loop of [set] calls removes no key. *)
Lemma foldl_insert_keeps {A V} (key : A -> string) (val : A -> V) (l : list A)
    (m : gmap string V) (k : string) :
  is_Some (m !! k) -> is_Some (foldl (fun m' x => <[key x := val x]> m') m l !! k).
Proof.
  intros Hk. rewrite foldl_insert_lookup. by destruct (last _).
Qed.

(** X12.  However [updateRecordMaps] ends, the mapping table has
    the rows it had, with their source columns, the index of the
    rows by DeveloperName is the one [prepare] built, and the
    association records are untouched.  [_updated] is set by a call
    that returns and left as it was by a call that throws. *)
Theorem updateRecordMaps_keeps_rows c c' (r : Outcome unit) :
  updateRecordMaps c = (c', r) ->
  Forall2 SameSource (_territoryDevNameMappings c) (_territoryDevNameMappings c')
  /\ _territoryDevNameMapByT2DevName c' = _territoryDevNameMapByT2DevName c
  /\ _tm2FilePaths c' = _tm2FilePaths c
  /\ _prepared c' = _prepared c
  /\ _userTerritory2AssociationRecords c' = _userTerritory2AssociationRecords c
  /\ _objectTerritory2AssociationRecords c' = _objectTerritory2AssociationRecords c
  /\ _updated c' = match r with Returned _ => true | Threw _ => _updated c end.
Proof.
  assert (Hrefl : forall rows, Forall2 SameSource rows rows)
    by (induction rows; constructor; [by repeat split | done]).
  unfold updateRecordMaps.
  destruct (parseTerritory2File _) as [records|e].
  - destruct records as [|rec records]; cbn -[updateMappings].
    + intros [= <- <-]. repeat split. apply Hrefl.
    + destruct (updateMappings _ _) as [rows [u|e]] eqn:Hloop; intros [= <- <-];
        apply updateMappings_SameSource in Hloop; by repeat split.
  - intros [= <- <-]. repeat split. apply Hrefl.
Qed.

(** X13.  [updateRecordMaps] never removes an entry from an index.
    A name or an id that was indexed before the call still is after
    it, however the call ends; and when the call returns, a
    DeveloperName that no record of the new extract has is still
    indexed to the record it was indexed to before. *)
Theorem updateRecordMaps_keeps_stale_entries c c' (r : Outcome unit) :
  updateRecordMaps c = (c', r) ->
  (forall name, is_Some (_territory2RecordsByDevName c !! name) ->
                is_Some (_territory2RecordsByDevName c' !! name))
  /\ (forall id, is_Some (_territory2RecordsById c !! id) ->
                 is_Some (_territory2RecordsById c' !! id))
  /\ (forall id, is_Some (_territoryDevNameMapByT2Id c !! id) ->
                 is_Some (_territoryDevNameMapByT2Id c' !! id))
  /\ (r = Returned tt ->
      forall name, lastByDevName name (_territory2Records c') = None ->
                   _territory2RecordsByDevName c' !! name
                   = _territory2RecordsByDevName c !! name).
Proof.
  unfold updateRecordMaps.
  destruct (parseTerritory2File _) as [records|e].
  - destruct records as [|rec records]; cbn -[updateMappings startsWith].
    + intros [= <- <-]. by repeat split.
    + destruct (updateMappings _ _) as [rows [u|e]] eqn:Hloop; intros [= <- <-];
        cbn -[startsWith].
      * split; [|split; [|split]].
        -- intros name. apply (foldl_insert_keeps DeveloperName (fun x => x) (rec :: records)).
        -- intros id. apply (foldl_insert_keeps Id (fun x => x) (rec :: records)).
        -- intros id Hid.
           rewrite (foldl_insert_if
                      (fun ir : nat * TerritoryDevNameMapping =>
                         startsWith territory2RecordIdPrefix (territory2Id ir.2))
                      (fun ir => territory2Id ir.2) (fun ir => ir.1)).
           by apply foldl_insert_keeps.
        -- intros _ name Hlast.
           change (rebuiltIndex c (rec :: records) !! name
                   = _territory2RecordsByDevName c !! name).
           unfold rebuiltIndex. by rewrite rebuiltIndex_lookup, Hlast.
      * split; [|split; [|split]]; [| |done|done].
        -- intros name. apply (foldl_insert_keeps DeveloperName (fun x => x) (rec :: records)).
        -- intros id. apply (foldl_insert_keeps Id (fun x => x) (rec :: records)).
  - intros [= <- <-]. by repeat split.
Qed.

(** X14.  After [updateRecordMaps] has returned, the identifiers in
    the mapping table are those the row handler assigns: for every
    mapping row, the placeholder made of its DeveloperName converts
    to the row's [territory2Id], and a [territory2Id] that starts
    with [0MI] is indexed to a row of the table with that id. *)
Theorem updated_rows_agree_with_conversion c c' :
  updateRecordMaps c = (c', Returned tt) ->
  forall (i : nat) row,
    _territoryDevNameMappings c' !! i = Some row ->
    getConvertedT2Id c' ("T2ID_PENDING_" +:+ territory2DevName row)
    = Returned (territory2Id row)
    /\ (startsWith "0MI" (territory2Id row) = true ->
        exists j row',
          _territoryDevNameMapByT2Id c' !! territory2Id row = Some j
          /\ _territoryDevNameMappings c' !! j = Some row'
          /\ territory2Id row' = territory2Id row).
Proof.
  intros Hrun i row Hrow.
  apply updateRecordMaps_Returned in Hrun as (records & rows & Hparse & Hne & Hloop & ->).
  set (c2 := buildT2RecordsByIdMap _) in *.
  change (rows !! i = Some row) in Hrow.
  split.
  - unfold getConvertedT2Id.
    rewrite startsWith_placeholder, substringFrom_placeholder. cbn [negb].
    apply updateMappings_agrees in Hloop.
    rewrite Forall_lookup in Hloop. destruct (Hloop i row Hrow) as [Hid _].
    rewrite <- Hid. by apply lookupTerritory2Id_index.
  - intros Hprefix.
    destruct (indexRows_complete rows territory2Id
                (fun row => startsWith "0MI" (territory2Id row))
                (_territoryDevNameMapByT2Id c2) i row Hrow Hprefix)
      as (j & row' & Hj & _ & Hrow' & Hkey & _).
    exists j, row'. by repeat split.
Qed.

End Tm2Updates.

(** The properties above on the examples: the context [prepare]
    returns for the directory [tm2], the context made from the paths
    that name the extract, and that context after [updateRecordMaps]
    has read the extract with the records of DevA and DevB. *)
Lemma prepare_indexes_witness :
  IndexOfRows (Tm2._territoryDevNameMappings Examples.wiredContext)
              Tm2.territory2DevName (fun _ => true)
              (Tm2._territoryDevNameMapByT2DevName Examples.wiredContext)
  /\ Tm2._territoryDevNameMapByT2DevName Examples.wiredContext !! "DevB" = Some 1.
Proof.
  split; [|vm_compute; reflexivity].
  refine (proj1 (prepare_indexes (H := Examples.beforeDeployment) (H0 := Posix.paths)
                   None "tm2" Examples.wiredContext _)).
  vm_compute. reflexivity.
Defined.

Lemma getters_return_the_member_witness :
  Tm2Getters.territoryDevNameMappings Examples.wiredContext
  = Returned (Some [Examples.mappingT1; Examples.mappingT2])
  /\ Tm2Getters.tm1TransformationReport Examples.wiredContext = Returned (Some None).
Proof.
  refine (proj2 (proj2 (getters_return_the_member (H := Examples.beforeDeployment)
                          (H0 := Posix.paths)
                          Tm2._territoryDevNameMappings Examples.wiredContext))
                None "tm2" _).
  vm_compute. reflexivity.
Defined.

Lemma buildUserT2AssociationRecords_throws_on_rows_witness :
  exists e,
    Tm2.buildUserT2AssociationRecords (H := Examples.afterDeployment) Examples.updatedContext
    = (Examples.updatedContext, Threw e)
    /\ errorName e = "TypeError".
Proof.
  refine (proj1 (buildUserT2AssociationRecords_throws_on_rows (H := Examples.afterDeployment)
                   Examples.updatedContext Examples.pendingRow [] _ _));
    vm_compute; reflexivity.
Defined.

Lemma transformPendingT2Id_changes_one_key_witness :
  Tm2.transformPendingT2Id Examples.updatedContext Examples.pendingRow
  = Returned (<["territory2Id" := "D002"]> Examples.pendingRow)
  /\ <["territory2Id" := "D002"]> Examples.pendingRow !! "Territory2Id"
     = Examples.pendingRow !! "Territory2Id".
Proof.
  assert (Hrun : Tm2.transformPendingT2Id Examples.updatedContext Examples.pendingRow
                 = Returned (<["territory2Id" := "D002"]> Examples.pendingRow))
    by (vm_compute; reflexivity).
  split; [exact Hrun|].
  apply (proj1 (transformPendingT2Id_changes_one_key Examples.updatedContext
                  Examples.pendingRow (<["territory2Id" := "D002"]> Examples.pendingRow)
                  Hrun)).
  discriminate.
Defined.

Lemma updateRecordMaps_twice_witness :
  Tm2.updateRecordMaps (H := Examples.afterDeployment) Examples.updatedContext
  = (Examples.updatedContext, Returned tt).
Proof.
  apply (updateRecordMaps_twice (H := Examples.afterDeployment) Examples.preparedContext).
  vm_compute. reflexivity.
Defined.

Lemma updateRecordMaps_keeps_rows_witness :
  let after := Tm2.updateRecordMaps (H := Examples.partialAfter) Examples.partialContext in
  thrownName after.2 = Some "DeveloperNameNotFound"
  /\ Forall2 SameSource (Tm2._territoryDevNameMappings Examples.partialContext)
                        (Tm2._territoryDevNameMappings after.1)
  /\ Tm2._updated after.1 = false.
Proof.
  intros after. split; [vm_compute; reflexivity|].
  destruct (updateRecordMaps_keeps_rows (H := Examples.partialAfter) Examples.partialContext
              after.1 after.2) as (Hrows & _ & _ & _ & _ & _ & Hupdated).
  - apply surjective_pairing.
  - split; [exact Hrows|]. rewrite Hupdated. vm_compute. reflexivity.
Defined.

(** The file of the second extract has lost the record of DevB: the
    name DevB is still indexed, to the record of the first
    extract. *)
Lemma updateRecordMaps_keeps_stale_entries_witness :
  let after := Tm2.updateRecordMaps (H := Examples.partialAfter) Examples.updatedContext in
  Tm2._territory2Records after.1 = [Examples.recordA]
  /\ Tm2._territory2RecordsByDevName Examples.updatedContext !! "DevB" = Some Examples.recordB
  /\ is_Some (Tm2._territory2RecordsByDevName after.1 !! "DevB").
Proof.
  intros after.
  split; [vm_compute; reflexivity|]. split; [vm_compute; reflexivity|].
  destruct (updateRecordMaps_keeps_stale_entries (H := Examples.partialAfter)
              Examples.updatedContext after.1 after.2) as (Hnames & _).
  - apply surjective_pairing.
  - apply Hnames. vm_compute. eauto.
Defined.

Lemma updated_rows_agree_with_conversion_witness :
  Tm2.getConvertedT2Id Examples.updatedContext "T2ID_PENDING_DevB" = Returned "D002".
Proof.
  exact (proj1 (updated_rows_agree_with_conversion (H := Examples.afterDeployment)
                  Examples.preparedContext Examples.updatedContext eq_refl
                  1 (Tm2.MkMapping "T2" "DevB" "DevA" "D002" "D001") eq_refl)).
Defined.

(** * The public accessors of the TM1 context *)

Module Tm1Getters.
Import Tm1.

(** [private contextIsPrepared()]. *)
Definition contextIsPrepared (c : Tm1Context) : Outcome bool :=
  if negb (Tm1._prepared c) then
    Threw (SfdxFalconError
             "TM1 Context members are not accessible until the context is prepared"
             "ContextNotPrepared" None)
  else Returned (Tm1._prepared c).

(** A getter [{ return this.contextIsPrepared() ? this._member : undefined; }]. *)
Definition guarded {A} (member : Tm1Context -> A) (c : Tm1Context) : Outcome (option A) :=
  match contextIsPrepared c with
  | Threw e => Threw e
  | Returned true => Returned (Some (member c))
  | Returned false => Returned None
  end.

Definition accountShareRecords := guarded _accountShareRecords.
Definition accountSharingRules := guarded _accountSharingRules.
Definition ataRuleRecords := guarded _ataRuleRecords.
Definition ataRuleRecordsById := guarded _ataRuleRecordsById.
Definition ataRuleRecordsByTerritoryId := guarded _ataRuleRecordsByTerritoryId.
Definition ataRuleItemRecords := guarded _ataRuleItemRecords.
Definition ataRuleItemRecordsByRuleId := guarded _ataRuleItemRecordsByRuleId.
Definition ataRuleDevNamesByRuleId := guarded _ataRuleDevNamesByRuleId.
Definition leadSharingRules := guarded _leadSharingRules.
Definition opportunitySharingRules := guarded _opportunitySharingRules.
Definition territoryRecords := guarded _territoryRecords.
Definition territoryRecordsById := guarded _territoryRecordsById.
Definition userTerritoryRecords := guarded _userTerritoryRecords.

(** The two getters without a check. *)
Definition tm1FilePaths (c : Tm1Context) : TM1FilePaths := _tm1FilePaths c.
Definition prepared (c : Tm1Context) : bool := Tm1._prepared c.

End Tm1Getters.

(** * Further properties of the TM1 context *)

Section Tm1Runs.
Import Tm1.
Context `{Tm1Env}.

Implicit Types (c : Tm1Context) (rule : AtaRuleRecord) (rules : list AtaRuleRecord).

(** The members of a context that the loop over the rules does not
    assign. *)
Definition SameExtract c c' : Prop :=
  _accountShareRecords c' = _accountShareRecords c
  /\ _ataRuleRecords c' = _ataRuleRecords c
  /\ _ataRuleItemRecords c' = _ataRuleItemRecords c
  /\ _territoryRecords c' = _territoryRecords c
  /\ _userTerritoryRecords c' = _userTerritoryRecords c
  /\ _territoryRecordsById c' = _territoryRecordsById c
  /\ _tm1FilePaths c' = _tm1FilePaths c
  /\ Tm1._prepared c' = Tm1._prepared c.

(** One round of the loop over the rules, member by member. *)
Lemma transformAtaRule_fields rule c c' :
  transformAtaRule rule c = Some c' ->
  _ataRuleRecordsById c' = <[Id rule := rule]> (_ataRuleRecordsById c)
  /\ _ataRuleRecordsByTerritoryId c'
     = <[TerritoryId rule :=
           default [] (_ataRuleRecordsByTerritoryId c !! TerritoryId rule) ++ [rule]]>
         (_ataRuleRecordsByTerritoryId c)
  /\ _ataRuleItemRecordsByRuleId c'
     = <[Id rule := filter (fun item => RuleId item = Id rule) (_ataRuleItemRecords c)]>
         (_ataRuleItemRecordsByRuleId c)
  /\ SameExtract c c'.
Proof.
  unfold transformAtaRule, addAtaRuleDeveloperName.
  destruct (findDeveloperName _ _ _ _ _) as [newDevName|]; [|discriminate].
  cbn. intros [= <-]. by repeat split.
Qed.

(** The loop over the rules always ends, with the three indexes
    over the rules as follows: an id refers to the last rule with
    that id; the group of a territory is extended by the rules of
    that territory, in the order of the array; and each id of a
    rule refers to the items of that rule, in the order of the
    array of the items. *)
Lemma transformAtaRules_indexes : forall rules c,
  exists c',
    transformAtaRules rules c = Some c'
    /\ SameExtract c c'
    /\ (forall id, _ataRuleRecordsById c' !! id
                   = match last (filter (fun r => Id r = id) rules) with
                     | Some r => Some r
                     | None => _ataRuleRecordsById c !! id
                     end)
    /\ (forall territory,
          _ataRuleRecordsByTerritoryId c' !! territory
          = match filter (fun r => TerritoryId r = territory) rules with
            | [] => _ataRuleRecordsByTerritoryId c !! territory
            | group =>
                Some (default [] (_ataRuleRecordsByTerritoryId c !! territory) ++ group)
            end)
    /\ (forall id,
          _ataRuleItemRecordsByRuleId c' !! id
          = if bool_decide (id ∈ Id <$> rules)
            then Some (filter (fun item => RuleId item = id) (_ataRuleItemRecords c))
            else _ataRuleItemRecordsByRuleId c !! id).
Proof.
  induction rules as [|rule rest IH]; intros c.
  - exists c. cbn. by repeat split.
  - destruct (transformAtaRule_spec rule c) as (c1 & newDevName & Hrun & _).
    destruct (transformAtaRule_fields rule c c1 Hrun) as (Hid & Hgroup & Hitems & Hsame).
    destruct (IH c1) as (c' & Hrest & Hsame' & Hid' & Hgroup' & Hitems').
    exists c'. rewrite (transformAtaRules_step _ _ _ _ Hrun).
    split; [done|]. split; [|split; [|split]].
    + destruct Hsame as (? & ? & ? & ? & ? & ? & ? & ?),
               Hsame' as (? & ? & ? & ? & ? & ? & ? & ?).
      repeat split; congruence.
    + intros id. rewrite Hid', Hid, filter_cons.
      destruct (decide (Id rule = id)) as [Heq|Hne].
      * rewrite last_cons. destruct (last (filter _ rest)); [reflexivity|].
        by rewrite Heq, lookup_insert_eq.
      * destruct (last (filter _ rest)); [reflexivity|]. by rewrite lookup_insert_ne.
    + intros territory. rewrite Hgroup', Hgroup, filter_cons.
      destruct (decide (TerritoryId rule = territory)) as [<-|Hne].
      * rewrite lookup_insert_eq. cbn.
        destruct (filter _ rest) as [|r group]; [reflexivity|].
        by rewrite <- app_assoc.
      * by rewrite lookup_insert_ne.
    + intros id. rewrite Hitems', Hitems.
      destruct Hsame as (_ & _ & -> & _).
      destruct (decide (id ∈ Id <$> rest)) as [Hin|Hout].
      * rewrite !bool_decide_eq_true_2; [done | | done].
        rewrite fmap_cons. apply elem_of_cons; by right.
      * rewrite (bool_decide_eq_false_2 _ Hout).
        destruct (decide (Id rule = id)) as [<-|Hne].
        -- rewrite lookup_insert_eq, bool_decide_eq_true_2; [done|].
           rewrite fmap_cons. apply elem_of_cons; by left.
        -- rewrite lookup_insert_ne by done.
           rewrite bool_decide_eq_false_2; [done|].
           rewrite fmap_cons. intros Hin. apply elem_of_cons in Hin as [Heq|Hin]; by auto.
Qed.

(** The loop over the rules always ends, whatever the slug
    transform is; it keeps the names of different rules different,
    and gives a name to the rules of the array and to no other
    rule. *)
Lemma transformAtaRules_distinct : forall rules c,
  Distinct (_ataRuleDevNamesByRuleId c) ->
  exists c',
    transformAtaRules rules c = Some c'
    /\ Distinct (_ataRuleDevNamesByRuleId c')
    /\ (forall key, is_Some (_ataRuleDevNamesByRuleId c' !! key)
                    <-> is_Some (_ataRuleDevNamesByRuleId c !! key) \/ key ∈ Id <$> rules).
Proof.
  induction rules as [|rule rest IH]; intros c Hd.
  - exists c. split; [done|]. split; [done|]. intros key. split; [by left|].
    intros [Hkey|Hin]; [done | by apply not_elem_of_nil in Hin].
  - destruct (transformAtaRule_spec rule c)
      as (c1 & newDevName & Hrun & Hnames & Hassigned & _).
    destruct (IH c1) as (c' & Hrest & Hd' & Hkeys).
    { rewrite Hnames. apply Distinct_insert; [done | apply Hassigned]. }
    exists c'. rewrite (transformAtaRules_step _ _ _ _ Hrun).
    split; [done|]. split; [done|].
    intros key. rewrite Hkeys, Hnames, fmap_cons, elem_of_cons.
    destruct (decide (Id rule = key)) as [<-|Hne].
    + rewrite lookup_insert_eq. split; [by right; left | by left; eexists].
    + rewrite lookup_insert_ne by done. split; [tauto|].
      intros [Hkey | [Heq | Hin]]; [by left | congruence | by right].
Qed.

(** [parseXmlFiles] assigns the three members with the sharing
    rules and nothing else. *)
Lemma parseXmlFiles_keeps c :
  let c' := (parseXmlFiles c).1 in
  SameExtract c c'
  /\ _ataRuleRecordsById c' = _ataRuleRecordsById c
  /\ _ataRuleRecordsByTerritoryId c' = _ataRuleRecordsByTerritoryId c
  /\ _ataRuleItemRecordsByRuleId c' = _ataRuleItemRecordsByRuleId c
  /\ _ataRuleDevNamesByRuleId c' = _ataRuleDevNamesByRuleId c.
Proof.
  unfold parseXmlFiles.
  destruct (parseSharingRulesFile "Account" _ c); [|by repeat split].
  destruct (parseSharingRulesFile "Lead" _ c); [|by repeat split].
  destruct (parseSharingRulesFile "Opportunity" _ c); by repeat split.
Qed.

(** The three steps of a call of [prepare] that returns. *)
Lemma tm1_prepare_Returned (exportedMetadataPath exportedRecordDataPath : string) c :
  prepare exportedMetadataPath exportedRecordDataPath = Some (Returned c) ->
  exists c1 c2 c3,
    parseCsvFiles (construct exportedMetadataPath exportedRecordDataPath) = (c1, Returned tt)
    /\ transformCsvFiles c1 = Some c2
    /\ parseXmlFiles c2 = (c3, Returned tt)
    /\ c = with_prepared true c3.
Proof.
  unfold prepare.
  destruct (parseCsvFiles _) as [c1 [[]|e]] eqn:Hcsv; [|discriminate].
  destruct (transformCsvFiles c1) as [c2|] eqn:Hloop; [|discriminate].
  cbn. destruct (parseXmlFiles c2) as [c3 [[]|e]] eqn:Hxml; [|discriminate].
  intros [= <-]. by exists c1, c2, c3.
Qed.

(** [parseCsvFiles] assigns the five arrays and nothing else. *)
Lemma parseCsvFiles_keeps c :
  let c' := (parseCsvFiles c).1 in
  _ataRuleRecordsById c' = _ataRuleRecordsById c
  /\ _ataRuleRecordsByTerritoryId c' = _ataRuleRecordsByTerritoryId c
  /\ _ataRuleItemRecordsByRuleId c' = _ataRuleItemRecordsByRuleId c
  /\ _ataRuleDevNamesByRuleId c' = _ataRuleDevNamesByRuleId c
  /\ _territoryRecordsById c' = _territoryRecordsById c
  /\ _tm1FilePaths c' = _tm1FilePaths c.
Proof.
  unfold parseCsvFiles.
  destruct (parseAccountShareFile _); [|by repeat split].
  destruct (parseAtaRuleFile _); [|by repeat split].
  destruct (parseAtaRuleItemFile _); [|by repeat split].
  destruct (parseTerritoryFile _); [|by repeat split].
  destruct (parseUserTerritoryFile _); by repeat split.
Qed.

(** X15.  [prepare] always ends: the loop that looks for a free
    developer name cannot run forever, whatever the slug transform
    returns.  When [prepare] returns a context, no two rule ids have
    the same developer name, and the ids with a developer name are
    exactly the ids of the rules of the extract. *)
Theorem tm1_prepare_ends (exportedMetadataPath exportedRecordDataPath : string) :
  exists r,
    prepare exportedMetadataPath exportedRecordDataPath = Some r
    /\ forall c, r = Returned c ->
         Tm1._prepared c = true
         /\ Distinct (_ataRuleDevNamesByRuleId c)
         /\ forall key, is_Some (_ataRuleDevNamesByRuleId c !! key)
                        <-> key ∈ Id <$> _ataRuleRecords c.
Proof.
  unfold prepare.
  destruct (parseCsvFiles _) as [c1 [[]|e]] eqn:Hcsv; [|by eexists].
  pose proof (parseCsvFiles_keeps (construct exportedMetadataPath exportedRecordDataPath))
    as (_ & _ & _ & Hnames & _).
  rewrite Hcsv in Hnames. cbn in Hnames.
  destruct (transformAtaRules_distinct (_ataRuleRecords c1)
              (with_maps (_ataRuleRecordsById c1) (_ataRuleRecordsByTerritoryId c1)
                 (_ataRuleItemRecordsByRuleId c1) (_ataRuleDevNamesByRuleId c1)
                 (foldl (fun m r => <[territory_Id r := r]> m)
                        (_territoryRecordsById c1) (_territoryRecords c1)) c1))
    as (c2 & Hloop & Hd & Hkeys).
  { cbn. rewrite Hnames. intros id1 id2 name Hl. by rewrite lookup_empty in Hl. }
  destruct (transformAtaRules_indexes (_ataRuleRecords c1)
              (with_maps (_ataRuleRecordsById c1) (_ataRuleRecordsByTerritoryId c1)
                 (_ataRuleItemRecordsByRuleId c1) (_ataRuleDevNamesByRuleId c1)
                 (foldl (fun m r => <[territory_Id r := r]> m)
                        (_territoryRecordsById c1) (_territoryRecords c1)) c1))
    as (c2' & Hloop' & (_ & Hrules & _) & _).
  rewrite Hloop in Hloop'. injection Hloop' as <-.
  unfold transformCsvFiles. cbn in Hloop |- *. rewrite Hloop. cbn.
  pose proof (parseXmlFiles_keeps c2) as ((_ & Hrules' & _) & _ & _ & _ & Hnames').
  destruct (parseXmlFiles c2) as [c3 [[]|e]]; eexists; (split; [reflexivity|]);
    [|discriminate].
  intros c [= <-]. cbn in Hrules', Hnames' |- *.
  rewrite Hnames', Hrules'. split; [done|]. split; [done|].
  intros key. rewrite Hkeys. cbn. rewrite Hnames, lookup_empty, Hrules. cbn.
  split; [intros [[? ?]|?]; done | by right].
Qed.

(** X16.  In a context that [prepare] returns, the indexes are
    those of the extract: a territory id and a rule id refer to the
    last territory and the last rule with that id; a territory id
    refers to the rules of that territory, in the order of the
    extract, and only the territories with a rule have a group; and
    the id of each rule refers to the items of that rule, in the
    order of the extract, while an id of no rule refers to
    nothing. *)
Theorem tm1_prepare_indexes (exportedMetadataPath exportedRecordDataPath : string) c :
  prepare exportedMetadataPath exportedRecordDataPath = Some (Returned c) ->
  (forall id, _territoryRecordsById c !! id
              = last (filter (fun t => territory_Id t = id) (_territoryRecords c)))
  /\ (forall id, _ataRuleRecordsById c !! id
                 = last (filter (fun r => Id r = id) (_ataRuleRecords c)))
  /\ (forall territory,
        _ataRuleRecordsByTerritoryId c !! territory
        = match filter (fun r => TerritoryId r = territory) (_ataRuleRecords c) with
          | [] => None
          | group => Some group
          end)
  /\ (forall id,
        _ataRuleItemRecordsByRuleId c !! id
        = if bool_decide (id ∈ Id <$> _ataRuleRecords c)
          then Some (filter (fun item => RuleId item = id) (_ataRuleItemRecords c))
          else None).
Proof.
  intros Hrun.
  apply tm1_prepare_Returned in Hrun as (c1 & c2 & c3 & Hcsv & Hloop & Hxml & ->).
  pose proof (parseCsvFiles_keeps (construct exportedMetadataPath exportedRecordDataPath))
    as (Hid0 & Hgroup0 & Hitems0 & _ & Hterr0 & _).
  rewrite Hcsv in Hid0, Hgroup0, Hitems0, Hterr0. cbn in Hid0, Hgroup0, Hitems0, Hterr0.
  unfold transformCsvFiles in Hloop.
  destruct (transformAtaRules_indexes (_ataRuleRecords c1)
              (with_maps (_ataRuleRecordsById c1) (_ataRuleRecordsByTerritoryId c1)
                 (_ataRuleItemRecordsByRuleId c1) (_ataRuleDevNamesByRuleId c1)
                 (foldl (fun m r => <[territory_Id r := r]> m)
                        (_territoryRecordsById c1) (_territoryRecords c1)) c1))
    as (c2' & Hloop' & Hsame & Hid & Hgroup & Hitems).
  cbn in Hloop, Hloop'. rewrite Hloop in Hloop'. injection Hloop' as <-.
  destruct Hsame as (_ & Hrules & Hitemrecs & Hterrs & _ & Hterr & _).
  cbn in Hrules, Hitemrecs, Hterrs, Hterr, Hid, Hgroup, Hitems.
  pose proof (parseXmlFiles_keeps c2)
    as ((_ & Hrules' & Hitemrecs' & Hterrs' & _ & Hterr' & _) & Hid' & Hgroup' & Hitems' & _).
  rewrite Hxml in Hrules', Hitemrecs', Hterrs', Hterr', Hid', Hgroup', Hitems'.
  cbn in Hrules', Hitemrecs', Hterrs', Hterr', Hid', Hgroup', Hitems' |- *.
  rewrite Hrules', Hitemrecs', Hterrs', Hterr', Hid', Hgroup', Hitems'.
  rewrite Hrules, Hitemrecs, Hterrs, Hterr.
  split; [|split; [|split]].
  - intros id. rewrite (foldl_insert_lookup territory_Id (fun r => r)), Hterr0, lookup_empty.
    by destruct (last _).
  - intros id. rewrite Hid, Hid0, lookup_empty. by destruct (last _).
  - intros territory. rewrite Hgroup, Hgroup0, lookup_empty. cbn.
    by destruct (filter _ _).
  - intros id. by rewrite Hitems, Hitems0, lookup_empty.
Qed.

End Tm1Runs.

Section Tm1Files.
Import Tm1.
Context `{Tm1Env}.

Implicit Types (c : Tm1Context) (rules : list (option Json)).

(** The error of a call that threw. *)
Definition thrown {A} (o : Outcome A) : option JsError :=
  match o with Threw e => Some e | Returned _ => None end.

(** The first error of a sequence of calls. *)
Definition firstThrown (calls : list (option JsError)) : option JsError :=
  head (omap (fun e => e) calls).

(** X17.  The five files of an extract are read in the order
    AccountShare, AccountTerritoryAssignmentRule,
    AccountTerritoryAssignmentRuleItem, Territory, UserTerritory.
    When one of them cannot be parsed, [validate] and [prepare] both
    fail with the error of the first that cannot, and when all can,
    neither fails before the sharing rules are read. *)
Theorem csv_failure_is_fatal (report : TM1AnalysisReport)
    (tm1MetadataDir tm1DataDir : string) :
  let failures :=
    firstThrown
      [ thrown (parseAccountShareFile (pathJoin [tm1DataDir; "AccountShare.csv"]));
        thrown (parseAtaRuleFile
                  (pathJoin [tm1DataDir; "AccountTerritoryAssignmentRule.csv"]));
        thrown (parseAtaRuleItemFile
                  (pathJoin [tm1DataDir; "AccountTerritoryAssignmentRuleItem.csv"]));
        thrown (parseTerritoryFile (pathJoin [tm1DataDir; "Territory.csv"]));
        thrown (parseUserTerritoryFile (pathJoin [tm1DataDir; "UserTerritory.csv"])) ] in
  match failures with
  | Some e =>
      validate report tm1MetadataDir tm1DataDir = Threw e
      /\ prepare tm1MetadataDir tm1DataDir = Some (Threw e)
  | None =>
      exists c1, parseCsvFiles (construct tm1MetadataDir tm1DataDir) = (c1, Returned tt)
  end.
Proof.
  unfold validate, prepare, parseCsvFiles, firstThrown. cbn.
  destruct (parseAccountShareFile _); [|by split].
  destruct (parseAtaRuleFile _); [|by split].
  destruct (parseAtaRuleItemFile _); [|by split].
  destruct (parseTerritoryFile _); [|by split].
  destruct (parseUserTerritoryFile _); [|by split].
  cbn. by eexists.
Qed.

(** The path of the sharing rules of an object. *)
Definition sharingRulesPath c (object : string) : string :=
  pathJoin [tm1MetadataDir (_tm1FilePaths c); "sharingRules"; object +:+ ".sharingRules"].

(** The rules [parseXmlFiles] leaves for an object, given the rules
    the context held: those parsed from the file of the object when
    the file can be read and is not empty, the ones held
    otherwise. *)
Definition RulesFromFile c (object : string) (held assigned : SharingRules) : Prop :=
  match readFile (sharingRulesPath c object) with
  | Returned xml =>
      if truthy xml then parseSharingRulesFromXml xml = Returned assigned else assigned = held
  | Threw _ => assigned = held
  end.

(** X18.  A sharing-rules file that is missing, unreadable or empty
    never fails [parseXmlFiles]: the rules of that object stay as
    they were.  The call fails only with what the parser throws on
    a file that was read and is not empty; in that case the rules
    of the objects before it, in the order Account, Lead,
    Opportunity, have been assigned. *)
Theorem parseXmlFiles_outcome c c' (r : Outcome unit) :
  parseXmlFiles c = (c', r) ->
  match r with
  | Returned _ =>
      RulesFromFile c "Account" (_accountSharingRules c) (_accountSharingRules c')
      /\ RulesFromFile c "Lead" (_leadSharingRules c) (_leadSharingRules c')
      /\ RulesFromFile c "Opportunity" (_opportunitySharingRules c)
                       (_opportunitySharingRules c')
  | Threw e =>
      exists object xml,
        object ∈ ["Account"; "Lead"; "Opportunity"]
        /\ readFile (sharingRulesPath c object) = Returned xml
        /\ xml <> ""
        /\ parseSharingRulesFromXml xml = Threw e
  end.
Proof.
  assert (Hfile : forall object held,
            match parseSharingRulesFile object held c with
            | Returned assigned => RulesFromFile c object held assigned
            | Threw e =>
                exists xml, readFile (sharingRulesPath c object) = Returned xml
                            /\ xml <> "" /\ parseSharingRulesFromXml xml = Threw e
            end).
  { intros object held. unfold parseSharingRulesFile, RulesFromFile.
    fold (sharingRulesPath c object).
    destruct (readFile (sharingRulesPath c object)) as [xml|e]; [|reflexivity].
    destruct (truthy xml) eqn:Hxml; [|reflexivity].
    destruct (parseSharingRulesFromXml xml) as [assigned|e] eqn:Hparse; [done|].
    exists xml. split; [done|]. split; [by apply truthy_nonempty | done]. }
  unfold parseXmlFiles.
  pose proof (Hfile "Account" (_accountSharingRules c)) as Ha.
  pose proof (Hfile "Lead" (_leadSharingRules c)) as Hl.
  pose proof (Hfile "Opportunity" (_opportunitySharingRules c)) as Ho.
  destruct (parseSharingRulesFile "Account" _ c) as [account|e].
  - destruct (parseSharingRulesFile "Lead" _ c) as [lead|e].
    + destruct (parseSharingRulesFile "Opportunity" _ c) as [opportunity|e];
        intros [= <- <-].
      * by repeat split.
      * destruct Ho as (xml & ? & ? & ?). exists "Opportunity", xml.
        split; [set_solver | done].
    + intros [= <- <-]. destruct Hl as (xml & ? & ? & ?). exists "Lead", xml.
      split; [set_solver | done].
  - intros [= <- <-]. destruct Ha as (xml & ? & ? & ?). exists "Account", xml.
    split; [set_solver | done].
Qed.

(** The rules of an array that are territory related. *)
Definition relatedRules rules : list Json :=
  omap (fun rule => if isTerritoryRelated rule then rule else None) rules.

Lemma collectRules_related (ruleOf : Json -> Outcome SharingRule) : forall rules,
  collectRules ruleOf rules = collectRules ruleOf (Some <$> relatedRules rules).
Proof.
  induction rules as [|rule rules IH]; [reflexivity|].
  cbn -[isTerritoryRelated].
  destruct (isTerritoryRelated rule) eqn:Hrelated; [|exact IH].
  destruct rule as [r|]; [|discriminate].
  cbn -[isTerritoryRelated]. rewrite Hrelated, IH. reflexivity.
Qed.

(** X19.  The loop over the rules of one kind parses the territory
    related rules and skips the others: it returns exactly when the
    rule parser returns on every territory-related rule, with one
    parsed rule for each, in the order of the document.  A rule
    that is not territory related is never handed to the parser,
    so that nothing about it can fail the loop. *)
Theorem collectRules_parses_related_only (ruleOf : Json -> Outcome SharingRule)
    rules (parsed : list SharingRule) :
  collectRules ruleOf rules = Returned parsed
  <-> Forall2 (fun rule p => ruleOf rule = Returned p) (relatedRules rules) parsed.
Proof.
  rewrite collectRules_related.
  assert (Hrelated : Forall (fun r => isTerritoryRelated (Some r) = true) (relatedRules rules)).
  { apply Forall_forall. intros r Hr. unfold relatedRules in Hr.
    apply list_elem_of_omap in Hr as (rule & _ & Hrule).
    destruct (isTerritoryRelated rule) eqn:Hrel; [|discriminate]. by subst. }
  revert parsed. induction Hrelated as [|r related Hr _ IH]; intros parsed.
  - cbn. split; [intros [= <-]; constructor | by inversion 1].
  - cbn -[isTerritoryRelated]. rewrite Hr.
    destruct (ruleOf r) as [p|e] eqn:Hp.
    + destruct (collectRules ruleOf (Some <$> related)) as [more|e] eqn:Hmore.
      * split.
        -- intros [= <-]. constructor; [done | by apply IH].
        -- inversion 1 as [|? p0 ? more0 Hhead Htail]; subst.
           rewrite Hp in Hhead. injection Hhead as <-.
           apply IH in Htail. by injection Htail as <-.
      * split; [discriminate|].
        inversion 1 as [|? p0 ? more0 Hhead Htail]; subst.
        apply IH in Htail. discriminate.
    + split; [discriminate|].
      inversion 1 as [|? p0 ? more0 Hhead Htail]; subst. congruence.
Qed.

Lemma prop_absent (key : string) (members : list (string * Json)) :
  key ∉ members.*1 -> prop (JObject members) key = None.
Proof.
  intros Hout. unfold prop.
  destruct (list_find _ members) as [[i [k j]]|] eqn:Hfind; [|reflexivity].
  apply list_find_Some in Hfind as (Hin & Hk & _). cbn in Hk. subst k.
  exfalso. apply Hout. apply list_elem_of_fmap. exists (key, j).
  split; [reflexivity|]. by eapply list_elem_of_lookup_2.
Qed.

(** X20.  The edges of [parseSharingRulesFromXml].  An empty text
    is refused with a [TypeError] and an error of the conversion is
    passed on.  A document without an element [SharingRules] is
    refused with [Xml2JsonParsingError], and a [SharingRules]
    element with none of the three collections gives three empty
    lists of rules. *)
Theorem parseSharingRulesFromXml_edges (xml : string) :
  xml <> "" ->
  thrownName (parseSharingRulesFromXml "") = Some "TypeError"
  /\ match xml2js xml with
     | Threw e => parseSharingRulesFromXml xml = Threw e
     | Returned doc =>
         (isObject (prop doc "SharingRules") = false ->
          thrownName (parseSharingRulesFromXml xml) = Some "Xml2JsonParsingError")
         /\ (forall members,
               prop doc "SharingRules" = Some (JObject members) ->
               "sharingCriteriaRules" ∉ members.*1 ->
               "sharingOwnerRules" ∉ members.*1 ->
               "sharingTerritoryRules" ∉ members.*1 ->
               parseSharingRulesFromXml xml = Returned noSharingRules)
     end.
Proof.
  intros Hxml. split; [reflexivity|].
  unfold parseSharingRulesFromXml.
  destruct (String.eqb_spec xml ""); [done|].
  destruct (xml2js xml) as [doc|e]; [|reflexivity].
  unfold parseSharingRulesFromJson. split.
  - by destruct (prop doc "SharingRules") as [[| |]|].
  - intros members -> Hcriteria Howner Hterritory.
    unfold parseCriteriaRules, parseWrappedRules.
    by rewrite !prop_absent.
Qed.

(** X21.  A getter of a TM1 context never returns [undefined]: it
    throws [ContextNotPrepared] on a context that is not prepared,
    as the one the constructor makes, and returns the member on the
    context that [prepare] returns. *)
Theorem tm1_getters_never_undefined {A} (member : Tm1Context -> A) c :
  Tm1Getters.guarded member c <> Returned None
  /\ (forall exportedMetadataPath exportedRecordDataPath,
        thrownName (Tm1Getters.guarded member
                      (construct exportedMetadataPath exportedRecordDataPath))
        = Some "ContextNotPrepared")
  /\ (forall exportedMetadataPath exportedRecordDataPath,
        prepare exportedMetadataPath exportedRecordDataPath = Some (Returned c) ->
        Tm1Getters.guarded member c = Returned (Some (member c))).
Proof.
  split; [|split].
  - unfold Tm1Getters.guarded, Tm1Getters.contextIsPrepared. by destruct (Tm1._prepared c).
  - reflexivity.
  - intros exportedMetadataPath exportedRecordDataPath Hrun.
    apply tm1_prepare_Returned in Hrun as (c1 & c2 & c3 & _ & _ & _ & ->). reflexivity.
Qed.

End Tm1Files.

(** Further examples: the context prepared from the example
    extract, and a metadata directory with sharing rules for the
    Account object, an empty file for the Lead object and no file
    for the Opportunity object. *)
Module Cases.

Definition preparedExtraction : Tm1.Tm1Context :=
  match Tm1.prepare (H := Examples.extraction) "metadata" "data" with
  | Some (Returned c) => c
  | _ => Tm1.construct (H := Examples.extraction) "" ""
  end.

Definition unrelatedRule : Tm1.Json :=
  Tm1.JObject [("fullName", Examples.textElement "Share_Managers");
               ("sharedTo", Tm1.JObject [("role", Examples.textElement "Managers")])].

Definition sharedMetadata : Tm1.Tm1Env := {|
  Tm1.pathJoin parts := String.concat "/" parts;
  Tm1.parseAccountShareFile _ := Returned [];
  Tm1.parseAtaRuleFile _ := Returned [];
  Tm1.parseAtaRuleItemFile _ := Returned [];
  Tm1.parseTerritoryFile _ := Returned [];
  Tm1.parseUserTerritoryFile _ := Returned [];
  Tm1.readFile path :=
    if String.eqb path "metadata/unpackaged/sharingRules/Account.sharingRules"
    then Returned "<SharingRules>...</SharingRules>"
    else if String.eqb path "metadata/unpackaged/sharingRules/Lead.sharingRules"
         then Returned ""
         else Threw Examples.noSuchFile;
  Tm1.xml2js _ := Returned Examples.oneCriteriaRuleInArray;
  Tm1.createDeveloperName := Examples.slug
|}.

End Cases.

Lemma tm1_prepare_ends_witness :
  Tm1.prepare (H := Examples.extraction) "metadata" "data"
  = Some (Returned Cases.preparedExtraction)
  /\ Distinct (Tm1._ataRuleDevNamesByRuleId Cases.preparedExtraction).
Proof.
  assert (Hrun : Tm1.prepare (H := Examples.extraction) "metadata" "data"
                 = Some (Returned Cases.preparedExtraction)) by (vm_compute; reflexivity).
  split; [exact Hrun|].
  destruct (tm1_prepare_ends (H := Examples.extraction) "metadata" "data") as (r & Hr & Hc).
  rewrite Hrun in Hr. injection Hr as <-.
  exact (proj1 (proj2 (Hc Cases.preparedExtraction eq_refl))).
Defined.

Lemma tm1_prepare_indexes_witness :
  Tm1._ataRuleRecordsByTerritoryId Cases.preparedExtraction !! "04T1"
  = match filter (fun r => Tm1.TerritoryId r = "04T1")
                 (Tm1._ataRuleRecords Cases.preparedExtraction) with
    | [] => None
    | group => Some group
    end.
Proof.
  refine (proj1 (proj2 (proj2 (tm1_prepare_indexes (H := Examples.extraction)
                                 "metadata" "data" Cases.preparedExtraction _))) "04T1").
  vm_compute. reflexivity.
Defined.

Lemma parseXmlFiles_outcome_witness :
  let c := Tm1.construct (H := Cases.sharedMetadata) "metadata" "data" in
  let after := Tm1.parseXmlFiles (H := Cases.sharedMetadata) c in
  after.2 = Returned tt
  /\ RulesFromFile (H := Cases.sharedMetadata) c "Account"
                   Tm1.noSharingRules (Tm1._accountSharingRules after.1)
  /\ RulesFromFile (H := Cases.sharedMetadata) c "Lead"
                   Tm1.noSharingRules (Tm1._leadSharingRules after.1)
  /\ RulesFromFile (H := Cases.sharedMetadata) c "Opportunity"
                   Tm1.noSharingRules (Tm1._opportunitySharingRules after.1).
Proof.
  intros c after.
  assert (Hrun : Tm1.parseXmlFiles (H := Cases.sharedMetadata) c = (after.1, Returned tt))
    by (vm_compute; reflexivity).
  split; [vm_compute; reflexivity|].
  exact (parseXmlFiles_outcome (H := Cases.sharedMetadata) c after.1 (Returned tt) Hrun).
Defined.

Lemma collectRules_parses_related_only_witness :
  exists parsed,
    relatedRules [Some Cases.unrelatedRule; Some Examples.territoryRule]
    = [Examples.territoryRule]
    /\ Forall2 (fun rule p => Tm1.criteriaRuleOf rule = Returned p)
               (relatedRules [Some Cases.unrelatedRule; Some Examples.territoryRule])
               [parsed].
Proof.
  eexists. split; [vm_compute; reflexivity|].
  apply (proj1 (collectRules_parses_related_only Tm1.criteriaRuleOf
                  [Some Cases.unrelatedRule; Some Examples.territoryRule] _)).
  vm_compute. reflexivity.
Defined.

Lemma parseSharingRulesFromXml_edges_witness :
  thrownName (Tm1.parseSharingRulesFromXml (H := Examples.extraction) "<Profile/>")
  = Some "Xml2JsonParsingError".
Proof.
  refine (proj1 (proj2 (parseSharingRulesFromXml_edges (H := Examples.extraction)
                          "<Profile/>" _)) eq_refl).
  discriminate.
Defined.

Lemma tm1_getters_never_undefined_witness :
  Tm1Getters.territoryRecords Cases.preparedExtraction
  = Returned (Some [Tm1.MkTerritoryRecord "04T1"; Tm1.MkTerritoryRecord "04T2"]).
Proof.
  refine (proj2 (proj2 (tm1_getters_never_undefined (H := Examples.extraction)
                          Tm1._territoryRecords Cases.preparedExtraction))
                "metadata" "data" _).
  vm_compute. reflexivity.
Defined.

(** * The methods of the TM1 analysis *)

Module Tm1AnalysisMethods.
Import Analysis.

(** How [SfdxUtil.executeSoqlQuery] settles: it resolves with a
    result, or rejects with a result or with an error. *)
Inductive QueryOutcome (Result : Type) : Type :=
| QueryResolved (successResult : Result)
| QueryRejected (failureResult : Result)
| QueryThrew (e : JsError).

Arguments QueryResolved {Result} successResult.
Arguments QueryRejected {Result} failureResult.
Arguments QueryThrew {Result} e.

(** The collaborators of the analysis: the query utility with the
    alias and the query it is given, the members of an
    [SfdxFalconResult] the methods use, and the two calls of
    [fs-extra]. *)
Class OrgEnv : Type := {
  SfdxFalconResult         : Type;
  executeSoqlQuery         : string -> string -> QueryOutcome SfdxFalconResult;
  getRecordCountFromResult : SfdxFalconResult -> Z;
  errObj                   : SfdxFalconResult -> JsError;
  resultError              : SfdxFalconResult -> JsError -> JsError
}.

(** [this._aliasOrUsername] inside a template literal. *)
Definition aliasText (this : Tm1Analysis) : string :=
  default "undefined" (_aliasOrUsername this).

Definition with_accountShareRecordCount (v : Z) (this : Tm1Analysis) : Tm1Analysis :=
  MkTm1Analysis (Some v) (_ataRuleRecordCount this) (_ataRuleItemRecordCount this)
    (_hardTm1DependencyCount this) (_softTm1DependencyCount this)
    (_hardTm1Dependencies this) (_softTm1Dependencies this)
    (_accountSharingRulesCount this) (_leadSharingRulesCount this)
    (_opportunitySharingRulesCount this)
    (_groupRecordCount this) (_territoryRecordCount this) (_userTerritoryRecordCount this)
    (_dateAnalyzed this) (_orgInfo this) (_aliasOrUsername this) (_defaultDelay this)
    (_filePaths this) (_prepared this).

Definition with_ataRuleRecordCount (v : Z) (this : Tm1Analysis) : Tm1Analysis :=
  MkTm1Analysis (_accountShareRecordCount this) (Some v) (_ataRuleItemRecordCount this)
    (_hardTm1DependencyCount this) (_softTm1DependencyCount this)
    (_hardTm1Dependencies this) (_softTm1Dependencies this)
    (_accountSharingRulesCount this) (_leadSharingRulesCount this)
    (_opportunitySharingRulesCount this)
    (_groupRecordCount this) (_territoryRecordCount this) (_userTerritoryRecordCount this)
    (_dateAnalyzed this) (_orgInfo this) (_aliasOrUsername this) (_defaultDelay this)
    (_filePaths this) (_prepared this).

Definition with_ataRuleItemRecordCount (v : Z) (this : Tm1Analysis) : Tm1Analysis :=
  MkTm1Analysis (_accountShareRecordCount this) (_ataRuleRecordCount this) (Some v)
    (_hardTm1DependencyCount this) (_softTm1DependencyCount this)
    (_hardTm1Dependencies this) (_softTm1Dependencies this)
    (_accountSharingRulesCount this) (_leadSharingRulesCount this)
    (_opportunitySharingRulesCount this)
    (_groupRecordCount this) (_territoryRecordCount this) (_userTerritoryRecordCount this)
    (_dateAnalyzed this) (_orgInfo this) (_aliasOrUsername this) (_defaultDelay this)
    (_filePaths this) (_prepared this).

Definition with_groupRecordCount (v : Z) (this : Tm1Analysis) : Tm1Analysis :=
  MkTm1Analysis (_accountShareRecordCount this) (_ataRuleRecordCount this)
    (_ataRuleItemRecordCount this)
    (_hardTm1DependencyCount this) (_softTm1DependencyCount this)
    (_hardTm1Dependencies this) (_softTm1Dependencies this)
    (_accountSharingRulesCount this) (_leadSharingRulesCount this)
    (_opportunitySharingRulesCount this)
    (Some v) (_territoryRecordCount this) (_userTerritoryRecordCount this)
    (_dateAnalyzed this) (_orgInfo this) (_aliasOrUsername this) (_defaultDelay this)
    (_filePaths this) (_prepared this).

Definition with_territoryRecordCount (v : Z) (this : Tm1Analysis) : Tm1Analysis :=
  MkTm1Analysis (_accountShareRecordCount this) (_ataRuleRecordCount this)
    (_ataRuleItemRecordCount this)
    (_hardTm1DependencyCount this) (_softTm1DependencyCount this)
    (_hardTm1Dependencies this) (_softTm1Dependencies this)
    (_accountSharingRulesCount this) (_leadSharingRulesCount this)
    (_opportunitySharingRulesCount this)
    (_groupRecordCount this) (Some v) (_userTerritoryRecordCount this)
    (_dateAnalyzed this) (_orgInfo this) (_aliasOrUsername this) (_defaultDelay this)
    (_filePaths this) (_prepared this).

Definition with_userTerritoryRecordCount (v : Z) (this : Tm1Analysis) : Tm1Analysis :=
  MkTm1Analysis (_accountShareRecordCount this) (_ataRuleRecordCount this)
    (_ataRuleItemRecordCount this)
    (_hardTm1DependencyCount this) (_softTm1DependencyCount this)
    (_hardTm1Dependencies this) (_softTm1Dependencies this)
    (_accountSharingRulesCount this) (_leadSharingRulesCount this)
    (_opportunitySharingRulesCount this)
    (_groupRecordCount this) (_territoryRecordCount this) (Some v)
    (_dateAnalyzed this) (_orgInfo this) (_aliasOrUsername this) (_defaultDelay this)
    (_filePaths this) (_prepared this).

Section Methods.
Context `{OrgEnv}.

(** The body shared by the six methods that count records: the
    check of the alias, the wait, the query, and the assignment of
    the count, or the repackaged failure.  The method resolves with
    the member it has assigned. *)
Definition countRecords (soqlQuery : string)
    (assign : Z -> Tm1Analysis -> Tm1Analysis) (member : Tm1Analysis -> option Z)
    (this : Tm1Analysis) : Tm1Analysis * Outcome (option Z) :=
  match callMember "checkAliasOrUsername" this with
  | (this1, Threw e) => (this1, Threw e)
  | (this1, Returned _) =>
      match executeSoqlQuery (aliasText this1) soqlQuery with
      | QueryResolved successResult =>
          let this2 := assign (getRecordCountFromResult successResult) this1 in
          (this2, Returned (member this2))
      | QueryRejected failureResult =>
          (this1,
           Threw (resultError failureResult
                    (SfdxFalconError
                       ("The target org (" +:+ aliasText this1
                        +:+ ") does not appear to have Territory Management (TM1) enabled.")
                       "MissingTM1Config" (Some (errObj failureResult)))))
      | QueryThrew e => (this1, Threw e)
      end
  end.

Definition analyzeAccountShares : Tm1Analysis -> Tm1Analysis * Outcome (option Z) :=
  countRecords
    "SELECT count() FROM AccountShare WHERE RowCause='TerritoryManual'"
    with_accountShareRecordCount _accountShareRecordCount.

Definition analyzeAtaRuleItems : Tm1Analysis -> Tm1Analysis * Outcome (option Z) :=
  countRecords
    "SELECT count() FROM AccountTerritoryAssignmentRuleItem"
    with_ataRuleItemRecordCount _ataRuleItemRecordCount.

Definition analyzeAtaRules : Tm1Analysis -> Tm1Analysis * Outcome (option Z) :=
  countRecords
    "SELECT count() FROM AccountTerritoryAssignmentRule"
    with_ataRuleRecordCount _ataRuleRecordCount.

Definition analyzeGroups : Tm1Analysis -> Tm1Analysis * Outcome (option Z) :=
  countRecords
    "SELECT count() FROM Group WHERE Type='Territory' OR Type='TerritoryAndSubordinates'"
    with_groupRecordCount _groupRecordCount.

Definition analyzeTerritories : Tm1Analysis -> Tm1Analysis * Outcome (option Z) :=
  countRecords
    "SELECT count() FROM Territory"
    with_territoryRecordCount _territoryRecordCount.

Definition analyzeUserTerritoryAssignments : Tm1Analysis -> Tm1Analysis * Outcome (option Z) :=
  countRecords
    "SELECT count() FROM UserTerritory"
    with_userTerritoryRecordCount _userTerritoryRecordCount.

(** The body shared by the five methods that only report a member:
    the check of the alias, the wait, and the member. *)
Definition reportMember {A} (member : Tm1Analysis -> A) (this : Tm1Analysis)
  : Tm1Analysis * Outcome A :=
  match callMember "checkAliasOrUsername" this with
  | (this1, Threw e) => (this1, Threw e)
  | (this1, Returned _) => (this1, Returned (member this1))
  end.

Definition analyzeHardTm1Dependencies
  : Tm1Analysis -> Tm1Analysis * Outcome (option Z * option (list string)) :=
  reportMember (fun this => (_hardTm1DependencyCount this, _hardTm1Dependencies this)).

Definition analyzeSoftTm1Dependencies
  : Tm1Analysis -> Tm1Analysis * Outcome (option Z * option (list string)) :=
  reportMember (fun this => (_softTm1DependencyCount this, _softTm1Dependencies this)).

Definition analyzeAccountSharingRules
  : Tm1Analysis -> Tm1Analysis * Outcome (option SharingRulesCount) :=
  reportMember _accountSharingRulesCount.

Definition analyzeLeadSharingRules
  : Tm1Analysis -> Tm1Analysis * Outcome (option SharingRulesCount) :=
  reportMember _leadSharingRulesCount.

Definition analyzeOpportunitySharingRules
  : Tm1Analysis -> Tm1Analysis * Outcome (option SharingRulesCount) :=
  reportMember _opportunitySharingRulesCount.

End Methods.

(** [interface TM1AnalysisReport], as [generateReport] fills it. *)
Record ReportRecordCounts : Type := MkReportRecordCounts {
  territoryRecordCount     : option Z;
  userTerritoryRecordCount : option Z;
  ataRuleRecordCount       : option Z;
  ataRuleItemRecordCount   : option Z;
  accountShareRecordCount  : option Z;
  groupRecordCount         : option Z
}.

Record ReportMetadataCounts : Type := MkReportMetadataCounts {
  accountSharingRulesCount     : Z * Z * option Z;
  leadSharingRulesCount        : Z * Z;
  opportunitySharingRulesCount : Z * Z
}.

Record TM1AnalysisReport : Type := MkTM1AnalysisReport {
  orgInfo             : option TM1OrgInfo;
  tm1RecordCounts     : ReportRecordCounts;
  tm1MetadataCounts   : ReportMetadataCounts;
  hardTm1Dependencies : option Z * option (list string);
  softTm1Dependencies : option Z * option (list string)
}.

(** Reading a member of a member that may be [undefined]. *)
Definition memberOf {A} (member : option A) (name : string) : Outcome A :=
  match member with
  | Some a => Returned a
  | None => Threw (TypeError ("Cannot read property '" +:+ name +:+ "' of undefined"))
  end.

(** [public generateReport()].  The members of the object literal
    are evaluated in the order they are written. *)
Definition generateReport (this : Tm1Analysis) : Outcome TM1AnalysisReport :=
  match memberOf (_accountSharingRulesCount this) "sharingCriteriaRulesCount" with
  | Threw e => Threw e
  | Returned account =>
      match memberOf (_leadSharingRulesCount this) "sharingCriteriaRulesCount" with
      | Threw e => Threw e
      | Returned lead =>
          match memberOf (_opportunitySharingRulesCount this) "sharingCriteriaRulesCount" with
          | Threw e => Threw e
          | Returned opportunity =>
              Returned
                (MkTM1AnalysisReport
                   (_orgInfo this)
                   (MkReportRecordCounts
                      (_territoryRecordCount this) (_userTerritoryRecordCount this)
                      (_ataRuleRecordCount this) (_ataRuleItemRecordCount this)
                      (_accountShareRecordCount this) (_groupRecordCount this))
                   (MkReportMetadataCounts
                      (sharingCriteriaRulesCount account, sharingOwnerRulesCount account,
                       sharingTerritoryRulesCount account)
                      (sharingCriteriaRulesCount lead, sharingOwnerRulesCount lead)
                      (sharingCriteriaRulesCount opportunity,
                       sharingOwnerRulesCount opportunity))
                   (_hardTm1DependencyCount this, _hardTm1Dependencies this)
                   (_softTm1DependencyCount this, _softTm1Dependencies this))
          end
      end
  end.




End Tm1AnalysisMethods.

(** * Properties of the TM1 analysis *)

Section AnalysisProperties.
Import Analysis Tm1AnalysisMethods.
Context `{OrgEnv} `{FileSystem}.

Implicit Types (this : Tm1Analysis).

(** The error of a call of a member that the class does not
    define. *)
Definition notAFunction (name : string) : JsError :=
  TypeError ("this." +:+ name +:+ " is not a function").

(** X25.  None of the eleven [analyze...] methods reaches the org.
    Each starts by calling [checkAliasOrUsername], which the class
    does not define, so each rejects with the [TypeError] of that
    call and leaves the analysis as it was, whatever the org would
    have answered. *)
Theorem analyze_methods_reject this :
  let e := notAFunction "checkAliasOrUsername" in
  analyzeAccountShares this = (this, Threw e)
  /\ analyzeAtaRuleItems this = (this, Threw e)
  /\ analyzeAtaRules this = (this, Threw e)
  /\ analyzeGroups this = (this, Threw e)
  /\ analyzeHardTm1Dependencies this = (this, Threw e)
  /\ analyzeSoftTm1Dependencies this = (this, Threw e)
  /\ analyzeAccountSharingRules this = (this, Threw e)
  /\ analyzeLeadSharingRules this = (this, Threw e)
  /\ analyzeOpportunitySharingRules this = (this, Threw e)
  /\ analyzeTerritories this = (this, Threw e)
  /\ analyzeUserTerritoryAssignments this = (this, Threw e).
Proof. repeat split; reflexivity. Qed.

(** X26.  [generateReport] needs the members that only
    [_initialize] assigns.  On an analysis as the constructor
    leaves it, it throws a [TypeError]; after [_initialize] it
    returns a report in which every count is [-1], the lead and the
    opportunity rules have no count of territory rules, and both
    lists of dependencies are empty. *)
Theorem generateReport_needs_initialize :
  (forall aliasOrUsername tm1AnalyzeFilePaths defaultDelay dateNow,
     thrownName
       (generateReport (construct aliasOrUsername tm1AnalyzeFilePaths defaultDelay dateNow))
     = Some "TypeError")
  /\ (forall this,
        exists report,
          generateReport (_initialize this) = Returned report
          /\ tm1RecordCounts report
             = MkReportRecordCounts (Some (-1)%Z) (Some (-1)%Z) (Some (-1)%Z)
                                    (Some (-1)%Z) (Some (-1)%Z) (Some (-1)%Z)
          /\ tm1MetadataCounts report
             = MkReportMetadataCounts ((-1)%Z, (-1)%Z, Some (-1)%Z)
                                      ((-1)%Z, (-1)%Z) ((-1)%Z, (-1)%Z)
          /\ hardTm1Dependencies report = (Some (-1)%Z, Some [])
          /\ softTm1Dependencies report = (Some (-1)%Z, Some [])).
Proof.
  split; [reflexivity|]. intros this. eexists. by repeat split.
Qed.



End AnalysisProperties.

(** A file system on which every call succeeds, and the analysis
    of the org [tm1-org] after [_initialize]. *)
Module Saved.



End Saved.


(** On the counting model: a load that succeeds and a refresh that
    throws leave the instance ready and loaded, not built and not
    failed. *)
Lemma lifecycle_states_witness :
  let s := Model._state
             (afterCalls (H := Examples.countingModel)
                [CallLoad (Some ["from-file"]); CallRefresh]
                (Examples.freshModel true)) in
  Model.ready s = true
  /\ xorb (Model.built s) (Model.loaded s) = true
  /\ Model.failed s = false.
Proof.
  intros s. split; [vm_compute; reflexivity|].
  apply (lifecycle_states (H := Examples.countingModel)
           [CallLoad (Some ["from-file"]); CallRefresh] (Some true) 0).
  vm_compute. reflexivity.
Defined.

